(** * CAMotics: tool geometry and project orchestration

    A shallow embedding of [src/camotics/sim/Tool.cpp] and
    [src/camotics/sim/Project.cpp], followed by the properties of the
    specification that concern them.

    Conventions of the embedding.
    - A C++ [double] is an idealised real number (Stdlib's [R]); comparisons
      are the decidable order of [R].  NaN and infinities have no
      counterpart, so [isReal] is kept as an interface function.  Rounding
      has no counterpart either, so the properties are stated in the form
      the code computes: a length that is multiplied by 1/25.4 when written
      and by 25.4 when read is stated with both factors.
    - [std::string] is [string]; [std::map<std::string, T>] is [gmap string T].
    - A C++ exception is the [Thrown] case of [result]; the message is kept.
    - Functions of the cbang library and of other translation units that the
      two files call but that are not part of them are gathered in the
      interface classes [StringConv], [SweepLib] and [FileSystem]. *)

From Stdlib Require Import ZArith List Ascii String DecimalString DecimalZ.
From Stdlib Require Import Lia Reals Lra.
From stdpp Require Import base option list gmap strings.

Local Open Scope string_scope.
Local Open Scope Z_scope.

(** ** Exceptions *)

Inductive result (A : Type) : Type :=
| Ok (a : A)
| Thrown (what : string).
Arguments Ok {A} a.
Arguments Thrown {A} what.

#[global] Instance result_ret : MRet result := fun A a => Ok a.

#[global] Instance result_bind : MBind result := fun A B k r =>
  match r with
  | Ok a => k a
  | Thrown what => Thrown what
  end.

(** [try { body } CATCH_ERROR;] of cbang's DefaultCatch.h: the exception is
    logged and execution goes on after the block, with the state as it was
    before the statement that threw. *)
Definition try_catch {S : Type} (before : S) (body : result S) : S :=
  match body with
  | Ok s => s
  | Thrown _ => before
  end.

Definition is_Ok {A : Type} (r : result A) : bool :=
  match r with Ok _ => true | Thrown _ => false end.

(** ** Unsigned machine integers *)

Definition wrap (bits : Z) (z : Z) : Z := z mod 2 ^ bits.

(** ** Percent-encoding of file names (Project.cpp, lines 356-385) *)

Module Filename.

Definition TAB : ascii := "009"%char.
Definition LF : ascii := "010"%char.
Definition VT : ascii := "011"%char.
Definition CR : ascii := "013"%char.
Definition BEL : ascii := "007"%char.
Definition PERCENT : ascii := "%"%char.
Definition SPACE : ascii := " "%char.

(** The [switch] of [encodeFilename]: what one character appends. *)
Definition encodeChar (c : ascii) : string :=
  if Ascii.eqb c TAB then "%07"
  else if Ascii.eqb c LF then "%0A"
  else if Ascii.eqb c VT then "%0B"
  else if Ascii.eqb c CR then "%0D"
  else if Ascii.eqb c PERCENT then "%25"
  else if Ascii.eqb c SPACE then "%20"
  else String c EmptyString.

(** [Project::encodeFilename]: the loop visits the characters in order and
    appends to [result]. *)
Fixpoint encodeFilename (filename : string) : string :=
  match filename with
  | EmptyString => EmptyString
  | String c rest => encodeChar c +:+ encodeFilename rest
  end.

(** Value of a hexadecimal digit, as [strtoul] reads it. *)
Definition hexDigit (c : ascii) : option Z :=
  let n := Z.of_nat (nat_of_ascii c) in
  if (48 <=? n) && (n <=? 57) then Some (n - 48)
  else if (65 <=? n) && (n <=? 70) then Some (n - 55)
  else if (97 <=? n) && (n <=? 102) then Some (n - 87)
  else None.

(** [strtoul] after the [0x] prefix: the longest run of hexadecimal digits,
    most significant first. *)
Fixpoint hexPrefix (acc : Z) (s : string) : Z :=
  match s with
  | EmptyString => acc
  | String c rest =>
      match hexDigit c with
      | Some d => hexPrefix (16 * acc + d) rest
      | None => acc
      end
  end.

(** [String::parseU8("0x" + digits)] of cbang: [strtoul] with base 0, and an
    exception when the value does not fit 8 bits. *)
Definition parseU8_0x (digits : string) : result ascii :=
  let v := hexPrefix 0 digits in
  if 255 <? v then Thrown "parseU8() Invalid unsigned 8-bit value"
  else Ok (ascii_of_nat (Z.to_nat v)).

(** The loop of [Project::decodeFilename].  [i] is the 32-bit [unsigned]
    index, [size] the 64-bit [filename.size()]; [size - 2] is computed in
    [size_t] and wraps below 2.  [fuel] bounds the number of iterations. *)
Fixpoint decodeLoop (fuel : nat) (filename : string) (i : Z) (acc : string)
  : result string :=
  let size := Z.of_nat (String.length filename) in
  if size <=? i then Ok acc
  else
    match fuel with
    | O => Thrown "out of fuel"
    | S fuel' =>
        match String.get (Z.to_nat i) filename with
        | None => Thrown "index out of range"
        | Some c =>
            if Ascii.eqb c PERCENT && (i <? wrap 64 (size - 2)) then
              b ← parseU8_0x (substring (Z.to_nat (i + 1)) 2 filename);
              decodeLoop fuel' filename (wrap 32 (wrap 32 (i + 2) + 1))
                (acc +:+ String b EmptyString)
            else
              decodeLoop fuel' filename (wrap 32 (i + 1))
                (acc +:+ String c EmptyString)
        end
    end.

(** [Project::decodeFilename]: every iteration advances [i], so
    [filename.size()] iterations are enough. *)
Definition decodeFilename (filename : string) : result string :=
  decodeLoop (String.length filename) filename 0 EmptyString.

(** What the encode/decode pair does to one character. *)
Definition roundTripChar (c : ascii) : ascii :=
  if Ascii.eqb c TAB then BEL else c.

Fixpoint roundTrip (s : string) : string :=
  match s with
  | EmptyString => EmptyString
  | String c rest => String (roundTripChar c) (roundTrip rest)
  end.

Fixpoint contains (c : ascii) (s : string) : bool :=
  match s with
  | EmptyString => false
  | String d rest => Ascii.eqb c d || contains c rest
  end.

End Filename.

(** [cb::String(unsigned)]: the decimal digits of the number. *)
Definition String_unsigned (n : Z) : string :=
  NilEmpty.string_of_uint (N.to_uint (Z.to_N n)).

(** ** Real numbers as [double] *)

#[global] Instance Req_decision : EqDecision R := Req_dec_T.
#[global] Instance Rlt_decision : RelDecision Rlt := Rlt_dec.
#[global] Instance Rle_decision : RelDecision Rle := Rle_dec.

(** ** cbang geometry: [cb::Vector3D] and [cb::Rectangle3D]

    cbang is a library outside the repository.  The two classes are
    embedded as cbang's [geom/Vector.h] and [geom/Rectangle.h] define
    them. *)

Module cb.

Local Open Scope R_scope.

Record Vector3D : Type := mkVector3D { x : R; y : R; z : R }.

#[global] Instance Vector3D_eq_dec : EqDecision Vector3D.
Proof. solve_decision. Defined.

(** [Vector3D()]: all components 0. *)
Definition Vector3D_zero : Vector3D := mkVector3D 0 0 0.

Definition vsub (a b : Vector3D) : Vector3D :=
  mkVector3D (x a - x b) (y a - y b) (z a - z b).

Definition vadd (a b : Vector3D) : Vector3D :=
  mkVector3D (x a + x b) (y a + y b) (z a + z b).

Definition vscale (a : Vector3D) (k : R) : Vector3D :=
  mkVector3D (x a * k) (y a * k) (z a * k).

Definition vdiv (a : Vector3D) (k : R) : Vector3D :=
  mkVector3D (x a / k) (y a / k) (z a / k).

Record Rectangle3D : Type := mkRectangle3D { rmin : Vector3D; rmax : Vector3D }.

#[global] Instance Rectangle3D_eq_dec : EqDecision Rectangle3D.
Proof. solve_decision. Defined.

(** [std::numeric_limits<double>::max()]. *)
Definition DBL_MAX : R := IZR (2 ^ 1024 - 2 ^ 971).

(** [Rectangle3D()]: the empty rectangle, [rmin] at the largest and [rmax] at
    the smallest finite double, so that the first [add] sets both. *)
Definition Rectangle3D_empty : Rectangle3D :=
  mkRectangle3D (mkVector3D DBL_MAX DBL_MAX DBL_MAX)
                (mkVector3D (- DBL_MAX) (- DBL_MAX) (- DBL_MAX)).

(** One axis of [Rectangle3D(p1, p2)]: [rmin] takes [p1] and [rmax] takes
    [p2], and the two are swapped when [rmax < rmin]. *)
Definition swapMin (a b : R) : R := if decide (b < a) then b else a.
Definition swapMax (a b : R) : R := if decide (b < a) then a else b.

(** [Rectangle3D(p1, p2)]. *)
Definition Rectangle3D_of (p1 p2 : Vector3D) : Rectangle3D :=
  mkRectangle3D
    (mkVector3D (swapMin (x p1) (x p2)) (swapMin (y p1) (y p2))
                (swapMin (z p1) (z p2)))
    (mkVector3D (swapMax (x p1) (x p2)) (swapMax (y p1) (y p2))
                (swapMax (z p1) (z p2))).

Definition getMin (r : Rectangle3D) : Vector3D := rmin r.
Definition getMax (r : Rectangle3D) : Vector3D := rmax r.

Definition getDimensions (r : Rectangle3D) : Vector3D := vsub (rmax r) (rmin r).
Definition getWidth (r : Rectangle3D) : R := x (rmax r) - x (rmin r).
Definition getLength (r : Rectangle3D) : R := y (rmax r) - y (rmin r).
Definition getHeight (r : Rectangle3D) : R := z (rmax r) - z (rmin r).

(** [getVolume]: the product of the three dimensions, starting from 1. *)
Definition getVolume (r : Rectangle3D) : R :=
  1 * getWidth r * getLength r * getHeight r.

Definition lower (cur p : R) : R := if decide (p < cur) then p else cur.
Definition raise (cur p : R) : R := if decide (cur < p) then p else cur.

(** [Rectangle3D::add(const Vector3D &)]. *)
Definition addPoint (r : Rectangle3D) (p : Vector3D) : Rectangle3D :=
  mkRectangle3D
    (mkVector3D (lower (x (rmin r)) (x p)) (lower (y (rmin r)) (y p))
                (lower (z (rmin r)) (z p)))
    (mkVector3D (raise (x (rmax r)) (x p)) (raise (y (rmax r)) (y p))
                (raise (z (rmax r)) (z p))).

(** [Rectangle3D::add(const Rectangle3D &)]. *)
Definition addRect (r o : Rectangle3D) : Rectangle3D :=
  mkRectangle3D
    (mkVector3D (lower (x (rmin r)) (x (rmin o))) (lower (y (rmin r)) (y (rmin o)))
                (lower (z (rmin r)) (z (rmin o))))
    (mkVector3D (raise (x (rmax r)) (x (rmax o))) (raise (y (rmax r)) (y (rmax o)))
                (raise (z (rmax r)) (z (rmax o)))).

(** [pow(x, y)] of the C library on the non-negative reals: [x^y] for a
    positive base, and [pow(0, y) = 0] for a positive exponent.  On a
    negative base the C function returns NaN for an exponent such as
    [1.0 / 3.0]; no property depends on the value of [pow] there. *)
Definition pow (base exponent : R) : R :=
  if decide (base = 0) then (if decide (0 < exponent) then 0 else 1)
  else Rpower base exponent.

(** [round(x)] of the C library: to the nearest integer, halves away from
    zero. *)
Definition round (v : R) : R :=
  if decide (0 <= v) then IZR (Int_part (v + / 2))
  else - IZR (Int_part (- v + / 2)).

End cb.

(** ** Enumerations

    cbang enumerations wrap an [enum_t]; a cast from an integer (as
    SettingsDialog.cpp does with a combo-box index) can produce a value that
    is none of the enumerators.  The last constructor of [ToolShape] and of
    [ResolutionMode] stands for those values. *)

Inductive ToolUnits : Type := UNITS_MM | UNITS_INCH.

Inductive ToolShape : Type :=
| TS_CYLINDRICAL
| TS_CONICAL
| TS_BALLNOSE
| TS_SPHEROID
| TS_SNUBNOSE
| TS_OTHER (raw : Z).

Inductive ResolutionMode : Type :=
| RESOLUTION_LOW
| RESOLUTION_MEDIUM
| RESOLUTION_HIGH
| RESOLUTION_VERY_HIGH
| RESOLUTION_MANUAL
| RESOLUTION_OTHER (raw : Z).

Inductive MoveType : Type := MOVE_RAPID | MOVE_CUTTING | MOVE_PROBE | MOVE_OFF.

#[global] Instance ToolUnits_eq_dec : EqDecision ToolUnits.
Proof. solve_decision. Defined.
#[global] Instance ToolShape_eq_dec : EqDecision ToolShape.
Proof. solve_decision. Defined.
#[global] Instance ResolutionMode_eq_dec : EqDecision ResolutionMode.
Proof. solve_decision. Defined.
#[global] Instance MoveType_eq_dec : EqDecision MoveType.
Proof. solve_decision. Defined.

(** ** Text conversions of cbang used by the two files

    [cb::String(double)], [String::parseDouble], and the generated
    [toString]/[parse] of the enumerations.  Each [parse] throws on a text
    it does not accept. *)

Class StringConv : Type := {
  String_double : R -> string;
  String_parseDouble : string -> result R;
  ToolUnits_toString : ToolUnits -> string;
  ToolUnits_parse : string -> result ToolUnits;
  ToolShape_toString : ToolShape -> string;
  ToolShape_parse : string -> result ToolShape;
  Vector3D_toString : cb.Vector3D -> string;
  Vector3D_parse : string -> result cb.Vector3D
}.

(** ** Swept solids (camotics/cutsim) *)

#[local] Set Warnings "-register-all".

Inductive Sweep : Type :=
| ConicSweep (length radius1 radius2 : R)
| SpheroidSweep (radius length : R)
| CompositeSweep (children : list (Sweep * R)).

(** [CompositeSweep::add(sweep, zOffset)]: the child goes to the end. *)
Definition CompositeSweep_add (composite : list (Sweep * R)) (sweep : Sweep)
  (zOffset : R) : list (Sweep * R) :=
  (composite ++ [(sweep, zOffset)])%list.

(** ** JSON values (cbang/json), as far as [Tool] reads and writes them *)

Inductive JSONValue : Type :=
| JNumber (v : R)
| JString (s : string).

(** ** Tool (Tool.cpp) *)

Module Tool.

Local Open Scope R_scope.

(** The fields of [Tool] that Tool.cpp reads and writes.  [length],
    [radius] and [snubDiameter] are always in millimetres. *)
Record t : Type := mk {
  number : Z;
  pocket : Z;
  units : ToolUnits;
  shape : ToolShape;
  length : R;
  radius : R;
  snubDiameter : R;
  description : string
}.

Definition getUnits (tool : t) : ToolUnits := units tool.
Definition getShape (tool : t) : ToolShape := shape tool.
Definition getLength (tool : t) : R := length tool.
Definition getRadius (tool : t) : R := radius tool.
Definition getSnubDiameter (tool : t) : R := snubDiameter tool.
Definition getDescription (tool : t) : string := description tool.

(** Modelled from the spec: Tool.h is not among the sources; the spec's
    data model gives diameter = 2 x radius. *)
Definition getDiameter (tool : t) : R := 2 * radius tool.

Definition setNumber (v : Z) (tool : t) : t :=
  mk v (pocket tool) (units tool) (shape tool) (length tool) (radius tool)
     (snubDiameter tool) (description tool).
Definition setUnits (v : ToolUnits) (tool : t) : t :=
  mk (number tool) (pocket tool) v (shape tool) (length tool) (radius tool)
     (snubDiameter tool) (description tool).
Definition setShape (v : ToolShape) (tool : t) : t :=
  mk (number tool) (pocket tool) (units tool) v (length tool) (radius tool)
     (snubDiameter tool) (description tool).
Definition setLength (v : R) (tool : t) : t :=
  mk (number tool) (pocket tool) (units tool) (shape tool) v (radius tool)
     (snubDiameter tool) (description tool).
Definition setRadius (v : R) (tool : t) : t :=
  mk (number tool) (pocket tool) (units tool) (shape tool) (length tool) v
     (snubDiameter tool) (description tool).
Definition setSnubDiameter (v : R) (tool : t) : t :=
  mk (number tool) (pocket tool) (units tool) (shape tool) (length tool)
     (radius tool) v (description tool).
Definition setDescription (v : string) (tool : t) : t :=
  mk (number tool) (pocket tool) (units tool) (shape tool) (length tool)
     (radius tool) (snubDiameter tool) v.

(** Modelled from the spec: Tool.h is not among the sources; the spec's
    data model says that setting the diameter recomputes the radius. *)
Definition setDiameter (v : R) (tool : t) : t := setRadius (v / 2) tool.

(** [Tool::Tool(number, pocket, units)]. *)
Definition new (number pocket : Z) (units : ToolUnits) : t :=
  let tool := mk number pocket units TS_CYLINDRICAL 0 0 0 EmptyString in
  let tool := setShape TS_CYLINDRICAL tool in
  let tool :=
    if decide (units = UNITS_MM) then setRadius 1 (setLength 10 tool)
    else setRadius (25.4 / 16) (setLength 25.4 tool) in
  setSnubDiameter 0 tool.

(** [Tool::getAngle]. *)
Definition getAngle (tool : t) : R :=
  let angle := 180 - 360 * atan (getLength tool / getRadius tool) / PI in
  cb.round (angle * 100) / 100.

(** The local variable [angle] of [Tool::getAngle]: the angle before it is
    rounded to hundredths. *)
Definition exactAngle (tool : t) : R :=
  180 - 360 * atan (getLength tool / getRadius tool) / PI.

(** [Tool::setLengthFromAngle]. *)
Definition setLengthFromAngle (angle : R) (tool : t) : t :=
  setLength (getRadius tool * tan ((1 - angle / 180) * PI / 2)) tool.

(** [Tool::getSweep]. *)
Definition getSweep (tool : t) : result Sweep :=
  match getShape tool with
  | TS_CYLINDRICAL =>
      Ok (ConicSweep (getLength tool) (getRadius tool) (getRadius tool))
  | TS_CONICAL => Ok (ConicSweep (getLength tool) (getRadius tool) 0)
  | TS_BALLNOSE =>
      let composite := [] in
      let composite :=
        CompositeSweep_add composite
          (SpheroidSweep (getRadius tool) (2 * getRadius tool)) 0 in
      let composite :=
        CompositeSweep_add composite
          (ConicSweep (getLength tool) (getRadius tool) (getRadius tool))
          (getRadius tool) in
      Ok (CompositeSweep composite)
  | TS_SPHEROID => Ok (SpheroidSweep (getRadius tool) (getLength tool))
  | TS_SNUBNOSE =>
      Ok (ConicSweep (getLength tool) (getRadius tool) (getSnubDiameter tool / 2))
  | TS_OTHER _ => Thrown "Invalid tool shape"
  end.

Section Serialization.
Context {conv : StringConv}.

(** [Tool::read(const XMLAttributes &)]. *)
Definition readXML (attrs : gmap string string) (tool : t) : result t :=
  let tool :=
    match attrs !! "units" with
    | Some text =>
        try_catch tool (u ← ToolUnits_parse text; Ok (setUnits u tool))
    | None => tool
    end in
  let tool :=
    match attrs !! "shape" with
    | Some text =>
        try_catch tool (s ← ToolShape_parse text; Ok (setShape s tool))
    | None => tool
    end in
  let scale := if decide (getUnits tool = UNITS_INCH) then 25.4 else 1 in
  tool ←
    match attrs !! "length" with
    | Some text => v ← String_parseDouble text; Ok (setLength (v * scale) tool)
    | None => Thrown "Tool missing length"
    end;
  tool ←
    match attrs !! "radius" with
    | Some text => v ← String_parseDouble text; Ok (setRadius (v * scale) tool)
    | None =>
        match attrs !! "diameter" with
        | Some text =>
            v ← String_parseDouble text; Ok (setRadius (v / 2 * scale) tool)
        | None => Thrown "Tool has neither radius or diameter"
        end
    end;
  match attrs !! "snub_diameter" with
  | Some text =>
      v ← String_parseDouble text; Ok (setSnubDiameter (v * scale) tool)
  | None => Ok tool
  end.

(** The tool after the two guarded assignments of [units] and [shape] at
    the start of [Tool::read(const XMLAttributes &)]. *)
Definition afterTokens (attrs : gmap string string) (tool : t) : t :=
  let tool :=
    match attrs !! "units" with
    | Some text =>
        try_catch tool (u ← ToolUnits_parse text; Ok (setUnits u tool))
    | None => tool
    end in
  match attrs !! "shape" with
  | Some text =>
      try_catch tool (s ← ToolShape_parse text; Ok (setShape s tool))
  | None => tool
  end.

(** The attributes that [Tool::write(XMLWriter &)] hands to
    [writer.simpleElement]. *)
Definition writeXML (tool : t) : gmap string string :=
  let scale := if decide (getUnits tool = UNITS_INCH) then 1 / 25.4 else 1 in
  let small := 0.0000001 in
  let attrs : gmap string string := ∅ in
  let attrs := <["number" := String_unsigned (number tool)]> attrs in
  let attrs := <["units" := ToolUnits_toString (getUnits tool)]> attrs in
  let attrs := <["shape" := ToolShape_toString (getShape tool)]> attrs in
  let attrs := <["length" := String_double (getLength tool * scale)]> attrs in
  let attrs := <["radius" := String_double (getRadius tool * scale)]> attrs in
  if decide (getShape tool = TS_SNUBNOSE /\ small < getSnubDiameter tool)
  then <["snub_diameter" := String_double (getSnubDiameter tool * scale)]> attrs
  else attrs.

(** The dictionary that [Tool::write(JSON::Sink &, bool)] emits. *)
Definition writeJSON (withNumber : bool) (tool : t) : gmap string JSONValue :=
  let dict : gmap string JSONValue := ∅ in
  let scale := if decide (units tool = UNITS_INCH) then 1 / 25.4 else 1 in
  let dict := if withNumber then <["number" := JNumber (IZR (number tool))]> dict
              else dict in
  let dict := <["units" := JString (ToolUnits_toString (getUnits tool))]> dict in
  let dict := <["shape" := JString (ToolShape_toString (getShape tool))]> dict in
  let dict := <["length" := JNumber (getLength tool * scale)]> dict in
  let dict := <["diameter" := JNumber (getDiameter tool * scale)]> dict in
  let dict :=
    if decide (getShape tool = TS_SNUBNOSE)
    then <["snub_diameter" := JNumber (getSnubDiameter tool * scale)]> dict
    else dict in
  <["description" := JString (getDescription tool)]> dict.

(** [JSON::Value::getU32(key, defaultValue)]: the default when the key is
    absent, an exception when the entry is not an unsigned 32-bit number. *)
Definition getU32 (value : gmap string JSONValue) (key : string) (dflt : Z)
  : result Z :=
  match value !! key with
  | None => Ok dflt
  | Some (JNumber v) =>
      let n := Int_part v in
      if decide (v = IZR n /\ (0 <= n < 2 ^ 32)%Z) then Ok n
      else Thrown "Value is not a 32-bit unsigned integer"
  | Some (JString _) => Thrown "Value is not a number"
  end.

(** [JSON::Value::getString(key, defaultValue)]. *)
Definition getStringOr (value : gmap string JSONValue) (key : string)
  (dflt : string) : result string :=
  match value !! key with
  | None => Ok dflt
  | Some (JString s) => Ok s
  | Some (JNumber _) => Thrown "Value is not a string"
  end.

(** [Tool::read(const JSON::Value &)]. *)
Definition readJSON (value : gmap string JSONValue) (tool : t) : result t :=
  n ← getU32 value "number" (number tool);
  let tool := setNumber n tool in
  tool ←
    match value !! "units" with
    | Some (JString text) => u ← ToolUnits_parse text; Ok (setUnits u tool)
    | _ => Ok tool
    end;
  let scale := if decide (units tool = UNITS_INCH) then 25.4 else 1 in
  tool ←
    match value !! "shape" with
    | Some (JString text) => s ← ToolShape_parse text; Ok (setShape s tool)
    | _ => Ok tool
    end;
  let tool :=
    match value !! "length" with
    | Some (JNumber v) => setLength (v * scale) tool
    | _ => tool
    end in
  let tool :=
    match value !! "diameter" with
    | Some (JNumber v) => setDiameter (v * scale) tool
    | _ => tool
    end in
  let tool :=
    match value !! "snub_diameter" with
    | Some (JNumber v) => setSnubDiameter (v * scale) tool
    | _ => tool
    end in
  d ← getStringOr value "description" EmptyString;
  Ok (setDescription d tool).

End Serialization.

End Tool.

(** ** Tool paths (gcode/Move.h, gcode/ToolPath.h) *)

Module Move.

Record t : Type := mk {
  type : MoveType;
  tool : Z;
  startPt : cb.Vector3D;
  endPt : cb.Vector3D
}.

Definition getType (move : t) : MoveType := type move.
Definition getTool (move : t) : Z := tool move.
Definition getStartPt (move : t) : cb.Vector3D := startPt move.
Definition getEndPt (move : t) : cb.Vector3D := endPt move.

End Move.

(** ** Functions of other translation units called by Project.cpp

    [ToolTable::get] and [ToolSweep::getSweep] may throw;
    [Sweep::getBBoxes(start, end, bboxes, 0)] appends the boxes it returns
    here; [Rectangle3D::isReal] tells whether all bounds are finite. *)

Class SweepLib : Type := {
  ToolTable_get : gmap Z Tool.t -> Z -> result Tool.t;
  ToolSweep_getSweep : Tool.t -> result Sweep;
  Sweep_getBBoxes : Sweep -> cb.Vector3D -> cb.Vector3D -> list cb.Rectangle3D;
  Rectangle3D_isReal : cb.Rectangle3D -> bool
}.

(** ** A boolean [cb::Option] (cbang/config/Option.h) *)

Module BoolOption.

(** The value that was set, if any, and the default, if any. *)
Record t : Type := mk { value : option bool; default : option bool }.

(** [Option::hasValue]: the option is set or has a default. *)
Definition hasValue (o : t) : bool :=
  match value o, default o with
  | None, None => false
  | _, _ => true
  end.

(** [Option::toBoolean]: the value set, else the default.  Project.cpp calls
    it only after [hasValue]. *)
Definition toBoolean (o : t) : bool :=
  match value o, default o with
  | Some b, _ => b
  | None, Some b => b
  | None, None => false
  end.

(** [Option::set(bool)]. *)
Definition set (b : bool) (o : t) : t := mk (Some b) (default o).

End BoolOption.

(** ** Project (Project.cpp) *)

Module Project.

Local Open Scope R_scope.

(** The state of a [Project].  An option of [options] is represented by the
    value its text stands for ([units], [resolutionMode],
    [automaticWorkpiece]) or by the member it targets ([resolution],
    [workpieceMargin], [workpieceMin], [workpieceMax]).  The file list, the
    render mode and the watch flag and time are left out: none of the
    functions below reads or writes them. *)
Record t : Type := mk {
  filename : string;
  units : ToolUnits;
  resolutionMode : ResolutionMode;
  resolution : R;
  automaticWorkpiece : BoolOption.t;
  workpieceMargin : R;
  workpieceMin : string;
  workpieceMax : string;
  workpiece : cb.Rectangle3D;
  tools : gmap Z Tool.t;
  dirty : bool
}.

Definition with_filename (v : string) (p : t) : t :=
  mk v (units p) (resolutionMode p) (resolution p) (automaticWorkpiece p)
     (workpieceMargin p) (workpieceMin p) (workpieceMax p) (workpiece p)
     (tools p) (dirty p).
Definition with_units (v : ToolUnits) (p : t) : t :=
  mk (filename p) v (resolutionMode p) (resolution p) (automaticWorkpiece p)
     (workpieceMargin p) (workpieceMin p) (workpieceMax p) (workpiece p)
     (tools p) (dirty p).
Definition with_resolutionMode (v : ResolutionMode) (p : t) : t :=
  mk (filename p) (units p) v (resolution p) (automaticWorkpiece p)
     (workpieceMargin p) (workpieceMin p) (workpieceMax p) (workpiece p)
     (tools p) (dirty p).
Definition with_resolution (v : R) (p : t) : t :=
  mk (filename p) (units p) (resolutionMode p) v (automaticWorkpiece p)
     (workpieceMargin p) (workpieceMin p) (workpieceMax p) (workpiece p)
     (tools p) (dirty p).
Definition with_automaticWorkpiece (v : BoolOption.t) (p : t) : t :=
  mk (filename p) (units p) (resolutionMode p) (resolution p) v
     (workpieceMargin p) (workpieceMin p) (workpieceMax p) (workpiece p)
     (tools p) (dirty p).
Definition with_workpieceMargin (v : R) (p : t) : t :=
  mk (filename p) (units p) (resolutionMode p) (resolution p)
     (automaticWorkpiece p) v (workpieceMin p) (workpieceMax p) (workpiece p)
     (tools p) (dirty p).
Definition with_workpieceMin (v : string) (p : t) : t :=
  mk (filename p) (units p) (resolutionMode p) (resolution p)
     (automaticWorkpiece p) (workpieceMargin p) v (workpieceMax p)
     (workpiece p) (tools p) (dirty p).
Definition with_workpieceMax (v : string) (p : t) : t :=
  mk (filename p) (units p) (resolutionMode p) (resolution p)
     (automaticWorkpiece p) (workpieceMargin p) (workpieceMin p) v
     (workpiece p) (tools p) (dirty p).
Definition with_workpiece (v : cb.Rectangle3D) (p : t) : t :=
  mk (filename p) (units p) (resolutionMode p) (resolution p)
     (automaticWorkpiece p) (workpieceMargin p) (workpieceMin p)
     (workpieceMax p) v (tools p) (dirty p).
Definition with_dirty (v : bool) (p : t) : t :=
  mk (filename p) (units p) (resolutionMode p) (resolution p)
     (automaticWorkpiece p) (workpieceMargin p) (workpieceMin p)
     (workpieceMax p) (workpiece p) (tools p) v.

(** [std::string::empty]. *)
Definition empty (s : string) : bool :=
  match s with EmptyString => true | String _ _ => false end.

Definition markDirty (p : t) : t := with_dirty true p.
Definition markClean (p : t) : t := with_dirty false p.
Definition isDirty (p : t) : bool := dirty p.

(** [Project::setFilename]. *)
Definition setFilename (_filename : string) (p : t) : t :=
  if empty _filename || bool_decide (filename p = _filename) then p
  else markDirty (with_filename _filename p).

Definition getUnits (p : t) : ToolUnits := units p.

(** [Project::setUnits]. *)
Definition setUnits (units : ToolUnits) (p : t) : t :=
  if decide (units = getUnits p) then p
  else markDirty (with_units units p).

Definition getResolutionMode (p : t) : ResolutionMode := resolutionMode p.
Definition getResolution (p : t) : R := resolution p.
Definition getWorkpieceMargin (p : t) : R := workpieceMargin p.

(** [Project::setResolution]. *)
Definition setResolution (x : R) (p : t) : t :=
  if decide (x = getResolution p) then p
  else
    let p := with_resolution x p in
    if decide (getResolutionMode p = RESOLUTION_MANUAL) then markDirty p else p.

(** The divisor chosen by the [switch] of [computeResolution]. *)
Definition divisor (mode : ResolutionMode) : R :=
  match mode with
  | RESOLUTION_LOW => 100000
  | RESOLUTION_HIGH => 5000000
  | RESOLUTION_VERY_HIGH => 10000000
  | _ => 250000
  end.

(** [Project::computeResolution]. *)
Definition computeResolution (mode : ResolutionMode) (bounds : cb.Rectangle3D)
  : R :=
  if bool_decide (mode = RESOLUTION_MANUAL)
     || bool_decide (bounds = cb.Rectangle3D_empty)
  then 1
  else cb.pow (cb.getVolume bounds / divisor mode) (1 / 3).

(** [Project::getAutomaticWorkpiece]. *)
Definition getAutomaticWorkpiece (p : t) : bool :=
  (BoolOption.hasValue (automaticWorkpiece p)
   && BoolOption.toBoolean (automaticWorkpiece p))
  || (empty (workpieceMin p) && empty (workpieceMax p)).

(** [Project::setAutomaticWorkpiece]. *)
Definition setAutomaticWorkpiece (x : bool) (p : t) : t :=
  let p := if negb (eqb (getAutomaticWorkpiece p) x) then markDirty p else p in
  with_automaticWorkpiece (BoolOption.set x (automaticWorkpiece p)) p.

(** [Project::setWorkpieceMargin]. *)
Definition setWorkpieceMargin (x : R) (p : t) : t :=
  if decide (getWorkpieceMargin p = x) then p
  else markDirty (with_workpieceMargin x p).

Section WithLibraries.
Context {conv : StringConv} {lib : SweepLib}.

(** [Project::getWorkpieceBounds]. *)
Definition getWorkpieceBounds (p : t) : result cb.Rectangle3D :=
  wpMin ← (if empty (workpieceMin p) then Ok cb.Vector3D_zero
            else Vector3D_parse (workpieceMin p));
  wpMax ← (if empty (workpieceMax p) then Ok cb.Vector3D_zero
            else Vector3D_parse (workpieceMax p));
  Ok (cb.Rectangle3D_of wpMin wpMax).

(** [Project::updateResolution]. *)
Definition updateResolution (p : t) : result t :=
  let mode := getResolutionMode p in
  if decide (mode <> RESOLUTION_MANUAL) then
    bounds ← getWorkpieceBounds p;
    Ok (setResolution (computeResolution mode bounds) p)
  else Ok p.

(** [Project::setResolutionMode]. *)
Definition setResolutionMode (x : ResolutionMode) (p : t) : result t :=
  if decide (x = getResolutionMode p) then Ok p
  else updateResolution (markDirty (with_resolutionMode x p)).

(** [Project::setWorkpieceBounds]. *)
Definition setWorkpieceBounds (bounds : cb.Rectangle3D) (p : t) : result t :=
  let p := with_workpieceMin (Vector3D_toString (cb.getMin bounds)) p in
  let p := with_workpieceMax (Vector3D_toString (cb.getMax bounds)) p in
  p ← updateResolution p;
  let p := if negb (getAutomaticWorkpiece p) then markDirty p else p in
  Ok (with_workpiece bounds p).

(** The state of the first loop of [updateAutomaticWorkpiece]: the sweeps
    cached by tool number and the boxes collected so far. *)
Definition SweepState : Type := (list (option Sweep) * list cb.Rectangle3D)%type.

(** One iteration of the first loop of [updateAutomaticWorkpiece]. *)
Definition collectMove (tools : gmap Z Tool.t) (st : SweepState)
  (move : Move.t) : result SweepState :=
  let '(sweeps, bboxes) := st in
  if decide (Move.getType move = MOVE_RAPID) then Ok st
  else
    let tool := Move.getTool move in
    if decide (tool < 0)%Z then Ok st
    else
      let slot := Z.to_nat tool in
      let sweeps :=
        if decide (List.length sweeps <= slot)%nat
        then resize (slot + 1) None sweeps else sweeps in
      sweeps ←
        match sweeps !! slot with
        | Some (Some _) => Ok sweeps
        | _ =>
            cutter ← ToolTable_get tools tool;
            sweep ← ToolSweep_getSweep cutter;
            Ok (<[slot := Some sweep]> sweeps)
        end;
      match sweeps !! slot with
      | Some (Some sweep) =>
          Ok (sweeps,
              (bboxes ++ Sweep_getBBoxes sweep (Move.getStartPt move)
                           (Move.getEndPt move))%list)
      | _ => Thrown "null sweep"
      end.

(** The first loop of [updateAutomaticWorkpiece], over the moves of the
    path in order. *)
Fixpoint collectBBoxes (tools : gmap Z Tool.t) (st : SweepState)
  (path : list Move.t) : result SweepState :=
  match path with
  | [] => Ok st
  | move :: rest =>
      st ← collectMove tools st move;
      collectBBoxes tools st rest
  end.

(** The second loop: [wpBounds.add(bboxes[i])] for every box. *)
Definition unionBBoxes (bboxes : list cb.Rectangle3D) : cb.Rectangle3D :=
  fold_left cb.addRect bboxes cb.Rectangle3D_empty.

(** Lines 297-304: the slab below z = 0, at least 2mm thick. *)
Definition slab (wpBounds : cb.Rectangle3D) : cb.Rectangle3D :=
  let bMin := cb.getMin wpBounds in
  let bMax := cb.getMax wpBounds in
  let wpBounds :=
    cb.Rectangle3D_of bMin (cb.mkVector3D (cb.x bMax) (cb.y bMax) 0) in
  if decide (cb.getHeight wpBounds < 2)
  then cb.addPoint wpBounds
         (cb.mkVector3D (cb.x bMin) (cb.y bMin) (cb.z bMin - 2))
  else wpBounds.

(** Lines 308-311: the margin. *)
Definition addMargin (workpieceMargin : R) (wpBounds : cb.Rectangle3D)
  : cb.Rectangle3D :=
  let margin :=
    cb.vdiv (cb.vscale (cb.getDimensions wpBounds) workpieceMargin) 100 in
  let wpBounds := cb.addPoint wpBounds (cb.vsub (cb.getMin wpBounds) margin) in
  cb.addPoint wpBounds
    (cb.vadd (cb.getMax wpBounds)
       (cb.mkVector3D (cb.x margin) (cb.y margin) 0)).

(** [Project::updateAutomaticWorkpiece]. *)
Definition updateAutomaticWorkpiece (path : list Move.t) (p : t) : result t :=
  if negb (getAutomaticWorkpiece p) then Ok p
  else
    let p := setAutomaticWorkpiece true p in
    st ← collectBBoxes (tools p) ([], []) path;
    let wpBounds := unionBBoxes st.2 in
    if decide (wpBounds = cb.Rectangle3D_empty) then Ok p
    else
      let wpBounds := slab wpBounds in
      if Rectangle3D_isReal wpBounds
      then setWorkpieceBounds (addMargin (getWorkpieceMargin p) wpBounds) p
      else Ok p.

End WithLibraries.

End Project.

(** ** The NC files of a project (Project.cpp, lines 214-249)

    [files] is the list of the project's [NCFile]s in the order they were
    added.  An [NCFile] is represented by the absolute path it was
    constructed with, which is what [getAbsolutePath] returns.
    [SystemUtilities::absolute] belongs to cbang. *)

Class FileSystem : Type := {
  SystemUtilities_absolute : string -> string
}.

Module NCFile.

Record t : Type := mk { absolutePath : string }.

Definition getAbsolutePath (file : t) : string := absolutePath file.

End NCFile.

Module ProjectFiles.

(** A project together with its [files] member. *)
Record t : Type := mk { project : Project.t; files : list NCFile.t }.

(** The loop of [Project::getFile]: [count] is the 32-bit counter. *)
Fixpoint getFileFrom (files : list NCFile.t) (count index : Z)
  : result NCFile.t :=
  match files with
  | [] => Thrown "Invalid file index"
  | file :: rest =>
      if count =? index then Ok file
      else getFileFrom rest (wrap 32 (count + 1)) index
  end.

(** [Project::getFile]. *)
Definition getFile (index : Z) (s : t) : result NCFile.t :=
  getFileFrom (files s) 0 index.

(** The loop of [Project::findFile]: the first file with the given absolute
    path; [None] is the null pointer. *)
Fixpoint findFrom (files : list NCFile.t) (abs : string) : option NCFile.t :=
  match files with
  | [] => None
  | file :: rest =>
      if bool_decide (NCFile.getAbsolutePath file = abs) then Some file
      else findFrom rest abs
  end.

(** The loop of [Project::removeFile]: the list without the element at
    [index], or [None] when the loop ends without erasing. *)
Fixpoint removeFrom (files : list NCFile.t) (count index : Z)
  : option (list NCFile.t) :=
  match files with
  | [] => None
  | file :: rest =>
      if count =? index then Some rest
      else cons file <$> removeFrom rest (wrap 32 (count + 1)) index
  end.

(** [Project::removeFile]. *)
Definition removeFile (index : Z) (s : t) : t :=
  match removeFrom (files s) 0 index with
  | Some files' => mk (Project.markDirty (project s)) files'
  | None => s
  end.

Section WithFileSystem.
Context {fs : FileSystem}.

(** [Project::findFile]. *)
Definition findFile (filename : string) (s : t) : option NCFile.t :=
  let abs := SystemUtilities_absolute filename in
  findFrom (files s) abs.

(** [Project::addFile]. *)
Definition addFile (filename : string) (s : t) : t :=
  let abs := SystemUtilities_absolute filename in
  match findFile abs s with
  | Some _ => s
  | None => mk (Project.markDirty (project s)) (files s ++ [NCFile.mk abs])%list
  end.

End WithFileSystem.

End ProjectFiles.

(** ** Reference instances of the library interfaces

    Concrete text conversions and a concrete sweep library, used to run the
    embedding on concrete inputs.  Numbers are printed and parsed as decimal
    integers, which is exact on integer-valued doubles; a text that is not a
    decimal integer (such as [1e999], which overflows a double) makes
    [parseDouble] throw. *)

Module Reference.

Local Open Scope R_scope.

Definition textOfZ (n : Z) : string := NilEmpty.string_of_int (Z.to_int n).

Definition parseZ (text : string) : option Z :=
  Z.of_int <$> NilEmpty.int_of_string text.

Definition formatDouble (v : R) : string := textOfZ (Int_part v).

Definition parseDouble (text : string) : result R :=
  match parseZ text with
  | Some n => Ok (IZR n)
  | None => Thrown "parseDouble() Invalid double"
  end.

Definition unitsToString (u : ToolUnits) : string :=
  match u with UNITS_MM => "MM" | UNITS_INCH => "INCH" end.

Definition unitsParse (text : string) : result ToolUnits :=
  if bool_decide (text = "MM") || bool_decide (text = "mm") then Ok UNITS_MM
  else if bool_decide (text = "INCH") || bool_decide (text = "inch")
       then Ok UNITS_INCH
  else Thrown "Failed to parse ToolUnits".

Definition shapeToString (s : ToolShape) : string :=
  match s with
  | TS_CYLINDRICAL => "CYLINDRICAL"
  | TS_CONICAL => "CONICAL"
  | TS_BALLNOSE => "BALLNOSE"
  | TS_SPHEROID => "SPHEROID"
  | TS_SNUBNOSE => "SNUBNOSE"
  | TS_OTHER _ => "UNKNOWN_ENUM"
  end.

Definition shapeParse (text : string) : result ToolShape :=
  if bool_decide (text = "CYLINDRICAL") then Ok TS_CYLINDRICAL
  else if bool_decide (text = "CONICAL") then Ok TS_CONICAL
  else if bool_decide (text = "BALLNOSE") then Ok TS_BALLNOSE
  else if bool_decide (text = "SPHEROID") then Ok TS_SPHEROID
  else if bool_decide (text = "SNUBNOSE") then Ok TS_SNUBNOSE
  else Thrown "Failed to parse ToolShape".

(** The pieces of [text] between the characters [(], [,] and [)]. *)
Fixpoint pieces (text : string) (cur : string) : list string :=
  match text with
  | EmptyString => [cur]
  | String c rest =>
      if Ascii.eqb c "("%char || Ascii.eqb c ","%char || Ascii.eqb c ")"%char
      then cur :: pieces rest EmptyString
      else pieces rest (cur +:+ String c EmptyString)
  end.

Definition vectorToString (v : cb.Vector3D) : string :=
  "(" +:+ formatDouble (cb.x v) +:+ "," +:+ formatDouble (cb.y v) +:+ ","
      +:+ formatDouble (cb.z v) +:+ ")".

Definition vectorParse (text : string) : result cb.Vector3D :=
  match pieces text EmptyString with
  | [_; a; b; c; _] =>
      vx ← parseDouble a; vy ← parseDouble b; vz ← parseDouble c;
      Ok (cb.mkVector3D vx vy vz)
  | _ => Thrown "Invalid vector"
  end.

#[local] Instance conv : StringConv := {|
  String_double := formatDouble;
  String_parseDouble := parseDouble;
  ToolUnits_toString := unitsToString;
  ToolUnits_parse := unitsParse;
  ToolShape_toString := shapeToString;
  ToolShape_parse := shapeParse;
  Vector3D_toString := vectorToString;
  Vector3D_parse := vectorParse
|}.

(** [ToolTable::get]: a missing tool is an error. *)
Definition toolTableGet (tools : gmap Z Tool.t) (number : Z) : result Tool.t :=
  match tools !! number with
  | Some tool => Ok tool
  | None => Thrown "Missing tool"
  end.

(** The largest radius and the total height of a sweep. *)
Fixpoint envelope (sweep : Sweep) : R * R :=
  match sweep with
  | ConicSweep length radius1 radius2 => (Rmax radius1 radius2, length)
  | SpheroidSweep radius length => (radius, length)
  | CompositeSweep children =>
      (fix all (cs : list (Sweep * R)) : R * R :=
         match cs with
         | [] => (0, 0)
         | (child, zOffset) :: rest =>
             let '(r, h) := envelope child in
             let '(r', h') := all rest in
             (Rmax r r', Rmax (zOffset + h) h')
         end) children
  end.

(** Modelled from the spec: Sweep.h and its subclasses are not among the
    sources; the spec asks [getBBoxes] for boxes that conservatively cover
    the solid swept from [start] to [end], and accepts a single box.  This
    one spans both end points, widened by the radius in x and y and raised
    by the height in z. *)
Definition getBBoxes (sweep : Sweep) (startPt endPt : cb.Vector3D)
  : list cb.Rectangle3D :=
  let '(r, h) := envelope sweep in
  [cb.mkRectangle3D
     (cb.mkVector3D (Rmin (cb.x startPt) (cb.x endPt) - r)
                    (Rmin (cb.y startPt) (cb.y endPt) - r)
                    (Rmin (cb.z startPt) (cb.z endPt)))
     (cb.mkVector3D (Rmax (cb.x startPt) (cb.x endPt) + r)
                    (Rmax (cb.y startPt) (cb.y endPt) + r)
                    (Rmax (cb.z startPt) (cb.z endPt) + h))].

#[local] Instance sweeps : SweepLib := {|
  ToolTable_get := toolTableGet;
  ToolSweep_getSweep := Tool.getSweep;
  Sweep_getBBoxes := getBBoxes;
  Rectangle3D_isReal := fun _ => true
|}.

(** [SystemUtilities::absolute] with the root as the current directory: a
    name that starts with a slash is absolute already, any other name is
    put under the root. *)
Definition absolute (path : string) : string :=
  match path with
  | String c _ => if Ascii.eqb c "/"%char then path else String "/"%char path
  | EmptyString => String "/"%char path
  end.

#[local] Instance fs : FileSystem := {|
  SystemUtilities_absolute := absolute
|}.

End Reference.

(** ** Sample data

    The concrete tools, projects and paths on which the embedding is run
    below. *)

Module Sample.

Local Open Scope R_scope.

(** A flat rectangle: one unit wide and deep, of height 0. *)
Definition flatBounds : cb.Rectangle3D :=
  cb.mkRectangle3D (cb.mkVector3D 0 0 0) (cb.mkVector3D 1 1 0).

(** The cutter of the example in the specification: its sweep has radius 5
    and height 1. *)
Definition cutter : Tool.t :=
  Tool.mk 1 0 UNITS_MM TS_CYLINDRICAL 1 5 0 EmptyString.

(** A newly constructed project without a file: units mm, medium resolution
    mode, a margin of 5 percent, no workpiece bounds, tool 1 in the table. *)
Definition project0 : Project.t :=
  Project.mk EmptyString UNITS_MM RESOLUTION_MEDIUM 1
    (BoolOption.mk None None) 5 EmptyString EmptyString
    (cb.mkRectangle3D cb.Vector3D_zero cb.Vector3D_zero)
    {[ 1%Z := cutter ]} false.

(** The same project in manual resolution mode. *)
Definition manualProject : Project.t :=
  Project.with_resolutionMode RESOLUTION_MANUAL project0.

(** One cutting move of tool 1 along x, on the surface z = 0. *)
Definition cuttingMove : Move.t :=
  Move.mk MOVE_CUTTING 1 (cb.mkVector3D 0 0 0) (cb.mkVector3D 10 0 0).

(** One rapid move of tool 1 above the surface. *)
Definition rapidMove : Move.t :=
  Move.mk MOVE_RAPID 1 (cb.mkVector3D 0 0 5) (cb.mkVector3D 10 0 5).

(** The box of [cuttingMove], the slab made of it, and the slab with a
    margin of 5 percent. *)
Definition cuttingBox : cb.Rectangle3D :=
  cb.mkRectangle3D (cb.mkVector3D (-5) (-5) 0) (cb.mkVector3D 15 5 1).

Definition cuttingSlab : cb.Rectangle3D :=
  cb.mkRectangle3D (cb.mkVector3D (-5) (-5) (-2)) (cb.mkVector3D 15 5 0).

Definition cuttingWorkpiece : cb.Rectangle3D :=
  cb.mkRectangle3D (cb.mkVector3D (-6) (-5.5) (-2.1)) (cb.mkVector3D 16 5.5 0).

(** A box that lies above the surface, between z = 1 and z = 4. *)
Definition raisedBox : cb.Rectangle3D :=
  cb.mkRectangle3D (cb.mkVector3D 0 0 1) (cb.mkVector3D 10 10 4).

(** A block of stock, 100 x 50 x 50 below the surface: volume 250000. *)
Definition stockBounds : cb.Rectangle3D :=
  cb.mkRectangle3D (cb.mkVector3D 0 0 (-50)) (cb.mkVector3D 100 50 0).

(** A project with two NC files. *)
Definition twoFiles : ProjectFiles.t :=
  ProjectFiles.mk project0 [NCFile.mk "/a.nc"; NCFile.mk "/b.nc"].

(** XML attributes of a tool whose length overflows a double. *)
Definition overflowAttrs : gmap string string :=
  {[ "length" := "1e999"; "radius" := "1" ]}.

(** XML attributes of a tool in inches, 2in long, given by its diameter
    of 4in. *)
Definition inchAttrs : gmap string string :=
  {[ "units" := "INCH"; "length" := "2"; "diameter" := "4" ]}.

(** The same with a radius of 1in beside the diameter. *)
Definition radiusAttrs : gmap string string :=
  <["radius" := "1"]> inchAttrs.

(** A JSON tool whose units are not a unit name. *)
Definition furlongValue : gmap string JSONValue :=
  {[ "units" := JString "furlong"; "length" := JNumber 2 ]}.

(** A snubnose tool in inches: 2in long, 1in radius, 1in snub diameter. *)
Definition inchTool : Tool.t :=
  Tool.mk 3 0 UNITS_INCH TS_SNUBNOSE 50.8 25.4 25.4 "snubnose".

(** A snubnose tool whose snub diameter is a hundred-millionth of a
    millimetre. *)
Definition tinySnubTool : Tool.t :=
  Tool.mk 1 0 UNITS_MM TS_SNUBNOSE 10 1 (1 / 100000000) EmptyString.

(** A conical tool 0.01 long with a radius of 1000. *)
Definition flatTool : Tool.t :=
  Tool.mk 1 0 UNITS_MM TS_CONICAL (1 / 100) 1000 0 EmptyString.

(** A conical tool as long as its radius. *)
Definition squareTool : Tool.t :=
  Tool.mk 1 0 UNITS_MM TS_CONICAL 1 1 0 EmptyString.

(** A snubnose tool in millimetres: 10 long, radius 2, snub diameter 1. *)
Definition snubTool : Tool.t :=
  Tool.mk 3 0 UNITS_MM TS_SNUBNOSE 10 2 1 "snubnose".

(** The new project with the bound texts of the block of stock. *)
Definition stockProject : Project.t :=
  Project.with_workpieceMax "(100,50,0)"
    (Project.with_workpieceMin "(0,0,-50)" project0).

End Sample.

(** * Properties *)

Import Sample.
Local Open Scope R_scope.

(** Settles a [decide], [bool_decide] or [Rmax]/[Rmin] test on real numbers
    that linear arithmetic decides. *)
Ltac settle_R :=
  repeat first
    [ progress (rewrite ?bool_decide_eq_true_2, ?bool_decide_eq_false_2 by
        (first [ lra | congruence | discriminate ]))
    | match goal with
      | |- context [decide ?P] => destruct (decide P); try lra; try tauto
      | |- context [Rle_dec ?a ?b] => destruct (Rle_dec a b); try lra
      end ].

(** ** Resolution *)

Lemma pow_zero_base (e : R) : 0 < e -> cb.pow 0 e = 0.
Proof.
  intros He. unfold cb.pow.
  destruct (decide (0 = 0)) as [_|Hne]; [|congruence].
  destruct (decide (0 < e)); [reflexivity|contradiction].
Qed.

Lemma pow_one_base (e : R) : cb.pow 1 e = 1.
Proof.
  unfold cb.pow. destruct (decide (1 = 0)) as [Heq|_]; [lra|].
  unfold Rpower. rewrite ln_1, Rmult_0_r. apply exp_0.
Qed.

Lemma pow_cube (v : R) : 0 <= v -> cb.pow v (1 / 3) ^ 3 = v.
Proof.
  intros Hv. unfold cb.pow.
  destruct (decide (v = 0)) as [->|Hne].
  - destruct (decide (0 < 1 / 3)); [|lra]. simpl. ring.
  - assert (Hpos : 0 < v) by lra.
    replace (Rpower v (1 / 3) ^ 3)
      with (Rpower v (1 / 3) * Rpower v (1 / 3) * Rpower v (1 / 3))
      by (simpl; ring).
    rewrite <- !Rpower_plus.
    replace (1 / 3 + 1 / 3 + 1 / 3) with 1 by field.
    apply Rpower_1, Hpos.
Qed.

(** C1 (as amended): [computeResolution] returns 1 in manual mode and for
    the default-constructed rectangle, and otherwise
    [pow(volume / divisor, 1/3)] with the divisors 100000 (low), 5000000
    (high), 10000000 (very high) and 250000 for every other mode; on a
    zero-volume rectangle other than the default one that value is 0. *)
Theorem computeResolution_cases (mode : ResolutionMode) (bounds : cb.Rectangle3D) :
  (mode = RESOLUTION_MANUAL \/ bounds = cb.Rectangle3D_empty ->
   Project.computeResolution mode bounds = 1)
  /\ (mode <> RESOLUTION_MANUAL -> bounds <> cb.Rectangle3D_empty ->
      Project.computeResolution mode bounds
      = cb.pow (cb.getVolume bounds / Project.divisor mode) (1 / 3))
  /\ (mode <> RESOLUTION_MANUAL -> bounds <> cb.Rectangle3D_empty ->
      cb.getVolume bounds = 0 -> Project.computeResolution mode bounds = 0)
  /\ Project.divisor RESOLUTION_LOW = 100000
  /\ Project.divisor RESOLUTION_MEDIUM = 250000
  /\ Project.divisor RESOLUTION_HIGH = 5000000
  /\ Project.divisor RESOLUTION_VERY_HIGH = 10000000
  /\ (mode <> RESOLUTION_LOW -> mode <> RESOLUTION_HIGH ->
      mode <> RESOLUTION_VERY_HIGH -> Project.divisor mode = 250000).
Proof.
  assert (Hgen : mode <> RESOLUTION_MANUAL -> bounds <> cb.Rectangle3D_empty ->
                 Project.computeResolution mode bounds
                 = cb.pow (cb.getVolume bounds / Project.divisor mode) (1 / 3)).
  { intros Hm Hb. unfold Project.computeResolution.
    rewrite !bool_decide_eq_false_2 by assumption. reflexivity. }
  repeat split; try reflexivity.
  - intros [Hm|Hb]; unfold Project.computeResolution.
    + rewrite (bool_decide_eq_true_2 _ Hm). reflexivity.
    + rewrite (bool_decide_eq_true_2 _ Hb), orb_true_r. reflexivity.
  - exact Hgen.
  - intros Hm Hb Hv. rewrite (Hgen Hm Hb), Hv.
    unfold Rdiv. rewrite Rmult_0_l. apply pow_zero_base. lra.
  - intros Hl Hh Hv. destruct mode; try reflexivity; congruence.
Qed.

Lemma DBL_MAX_pos : 0 < cb.DBL_MAX.
Proof. unfold cb.DBL_MAX. apply IZR_lt. reflexivity. Qed.

(** C1 (counterexample): a rectangle of volume 0 for which
    [computeResolution] in low mode is 0, not 1. *)
Lemma computeResolution_flat_bounds :
  cb.getVolume flatBounds = 0
  /\ Project.computeResolution RESOLUTION_LOW flatBounds = 0
  /\ Project.computeResolution RESOLUTION_LOW flatBounds <> 1.
Proof.
  assert (Hv : cb.getVolume flatBounds = 0).
  { unfold cb.getVolume, cb.getWidth, cb.getLength, cb.getHeight; simpl. ring. }
  assert (Hne : flatBounds <> cb.Rectangle3D_empty).
  { unfold flatBounds, cb.Rectangle3D_empty. intros Heq.
    injection Heq as Hx _. pose proof DBL_MAX_pos. lra. }
  assert (Hr : Project.computeResolution RESOLUTION_LOW flatBounds = 0).
  { unfold Project.computeResolution.
    rewrite (bool_decide_eq_false_2 _ Hne).
    rewrite bool_decide_eq_false_2 by discriminate. simpl.
    rewrite Hv. unfold Rdiv. rewrite Rmult_0_l. apply pow_zero_base. lra. }
  split; [exact Hv|]. split; [exact Hr|]. rewrite Hr. lra.
Qed.

(** The example of the specification: medium mode on a volume of 250000
    gives exactly 1. *)
Lemma computeResolution_medium_250000 (bounds : cb.Rectangle3D) :
  bounds <> cb.Rectangle3D_empty -> cb.getVolume bounds = 250000 ->
  Project.computeResolution RESOLUTION_MEDIUM bounds = 1.
Proof.
  intros Hb Hv. unfold Project.computeResolution.
  rewrite (bool_decide_eq_false_2 _ Hb).
  rewrite bool_decide_eq_false_2 by discriminate. simpl.
  rewrite Hv. replace (250000 / 250000) with 1 by field. apply pow_one_base.
Qed.

(** ** Sweeps *)

(** C4: [Tool::getSweep] maps each shape to its sweep, and throws on any
    value that is none of the five shapes. *)
Theorem getSweep_by_shape (tool : Tool.t) :
  let length := Tool.getLength tool in
  let radius := Tool.getRadius tool in
  (Tool.getShape tool = TS_CYLINDRICAL ->
   Tool.getSweep tool = Ok (ConicSweep length radius radius))
  /\ (Tool.getShape tool = TS_CONICAL ->
      Tool.getSweep tool = Ok (ConicSweep length radius 0))
  /\ (Tool.getShape tool = TS_BALLNOSE ->
      Tool.getSweep tool
      = Ok (CompositeSweep [(SpheroidSweep radius (2 * radius), 0);
                            (ConicSweep length radius radius, radius)]))
  /\ (Tool.getShape tool = TS_SPHEROID ->
      Tool.getSweep tool = Ok (SpheroidSweep radius length))
  /\ (Tool.getShape tool = TS_SNUBNOSE ->
      Tool.getSweep tool
      = Ok (ConicSweep length radius (Tool.getSnubDiameter tool / 2)))
  /\ (forall raw, Tool.getShape tool = TS_OTHER raw ->
      Tool.getSweep tool = Thrown "Invalid tool shape").
Proof.
  cbv zeta. unfold Tool.getSweep.
  repeat split; intros;
    match goal with Hs : Tool.getShape _ = _ |- _ => rewrite Hs end;
    reflexivity.
Qed.

(** [getSweep] succeeds exactly on the five shapes. *)
Lemma getSweep_Ok_iff (tool : Tool.t) :
  is_Ok (Tool.getSweep tool) = true
  <-> In (Tool.getShape tool)
        [TS_CYLINDRICAL; TS_CONICAL; TS_BALLNOSE; TS_SPHEROID; TS_SNUBNOSE].
Proof.
  unfold Tool.getSweep. simpl.
  destruct (Tool.getShape tool); simpl; intuition congruence.
Qed.

(** ** Dirty tracking of the mutators *)

Section Mutators.
Context {conv : StringConv}.

Lemma updateResolution_fields (p p' : Project.t) :
  Project.updateResolution p = Ok p' ->
  Project.resolutionMode p' = Project.resolutionMode p
  /\ Project.dirty p' = Project.dirty p
  /\ Project.workpiece p' = Project.workpiece p
  /\ Project.workpieceMin p' = Project.workpieceMin p
  /\ Project.workpieceMax p' = Project.workpieceMax p
  /\ Project.automaticWorkpiece p' = Project.automaticWorkpiece p
  /\ Project.workpieceMargin p' = Project.workpieceMargin p.
Proof.
  unfold Project.updateResolution.
  destruct (decide (Project.getResolutionMode p <> RESOLUTION_MANUAL)) as [Hm|Hm].
  - destruct (Project.getWorkpieceBounds p) as [bounds|what]; simpl;
      [|discriminate].
    intros [= <-]. unfold Project.setResolution, Project.getResolutionMode in *.
    repeat case_decide; simpl in *; repeat split; try reflexivity; congruence.
  - intros [= <-]. repeat split; reflexivity.
Qed.

(** C7 (as amended): [setUnits], [setWorkpieceMargin] and
    [setResolutionMode] leave the project as it is when the new value is the
    current one, and otherwise store the value and mark the project dirty;
    [setFilename] does so too, but also ignores an empty name;
    [setResolution] stores a new value and marks the project dirty only in
    manual resolution mode. *)
Theorem mutators_mark_dirty (p : Project.t) :
  (forall u, u = Project.getUnits p -> Project.setUnits u p = p)
  /\ (forall u, u <> Project.getUnits p ->
      Project.getUnits (Project.setUnits u p) = u
      /\ Project.isDirty (Project.setUnits u p) = true)
  /\ (forall x, x = Project.getWorkpieceMargin p ->
      Project.setWorkpieceMargin x p = p)
  /\ (forall x, x <> Project.getWorkpieceMargin p ->
      Project.getWorkpieceMargin (Project.setWorkpieceMargin x p) = x
      /\ Project.isDirty (Project.setWorkpieceMargin x p) = true)
  /\ (forall f, f = Project.filename p \/ f = EmptyString ->
      Project.setFilename f p = p)
  /\ (forall f, f <> Project.filename p -> f <> EmptyString ->
      Project.filename (Project.setFilename f p) = f
      /\ Project.isDirty (Project.setFilename f p) = true)
  /\ (forall x, x = Project.getResolution p -> Project.setResolution x p = p)
  /\ (forall x, x <> Project.getResolution p ->
      Project.getResolution (Project.setResolution x p) = x
      /\ Project.isDirty (Project.setResolution x p)
         = (bool_decide (Project.getResolutionMode p = RESOLUTION_MANUAL)
            || Project.isDirty p))
  /\ (forall m, m = Project.getResolutionMode p ->
      Project.setResolutionMode m p = Ok p)
  /\ (forall m p', m <> Project.getResolutionMode p ->
      Project.setResolutionMode m p = Ok p' ->
      Project.getResolutionMode p' = m /\ Project.isDirty p' = true).
Proof.
  repeat split.
  - intros u ->. unfold Project.setUnits. destruct (decide _); [reflexivity|congruence].
  - unfold Project.setUnits. destruct (decide _); [congruence|reflexivity].
  - unfold Project.setUnits. destruct (decide _); [congruence|reflexivity].
  - intros x ->. unfold Project.setWorkpieceMargin.
    destruct (decide _); [reflexivity|congruence].
  - unfold Project.setWorkpieceMargin. destruct (decide _); [congruence|reflexivity].
  - unfold Project.setWorkpieceMargin. destruct (decide _); [congruence|reflexivity].
  - intros f [->| ->]; unfold Project.setFilename.
    + rewrite bool_decide_eq_true_2 by reflexivity. rewrite orb_true_r. reflexivity.
    + reflexivity.
  - unfold Project.setFilename.
    rewrite bool_decide_eq_false_2 by congruence.
    destruct f; [congruence|reflexivity].
  - unfold Project.setFilename.
    rewrite bool_decide_eq_false_2 by congruence.
    destruct f; [congruence|reflexivity].
  - intros x ->. unfold Project.setResolution.
    destruct (decide _); [reflexivity|congruence].
  - unfold Project.setResolution. destruct (decide (x = _)); [congruence|].
    simpl. destruct (decide _); reflexivity.
  - unfold Project.setResolution. destruct (decide (x = _)); [congruence|].
    simpl. unfold Project.getResolutionMode at 1. simpl.
    destruct (decide (Project.resolutionMode p = RESOLUTION_MANUAL)) as [Hm|Hm].
    + rewrite (bool_decide_eq_true_2 _ Hm). reflexivity.
    + rewrite (bool_decide_eq_false_2 _ Hm). reflexivity.
  - intros m ->. unfold Project.setResolutionMode.
    destruct (decide _); [reflexivity|congruence].
  - unfold Project.setResolutionMode in *.
    destruct (decide _); [congruence|].
    match goal with Hu : Project.updateResolution _ = Ok _ |- _ =>
      apply updateResolution_fields in Hu; destruct Hu as (Hm & _) end.
    exact Hm.
  - unfold Project.setResolutionMode in *.
    destruct (decide _); [congruence|].
    match goal with Hu : Project.updateResolution _ = Ok _ |- _ =>
      apply updateResolution_fields in Hu; destruct Hu as (_ & Hd & _) end.
    exact Hd.
Qed.

End Mutators.

(** C7 (counterexample): in medium resolution mode [setResolution] stores a
    different resolution and leaves the project clean. *)
Lemma setResolution_keeps_clean :
  Project.getResolution project0 = 1
  /\ Project.getResolution (Project.setResolution 2 project0) = 2
  /\ Project.isDirty (Project.setResolution 2 project0) = false.
Proof.
  unfold Project.setResolution, project0; simpl.
  destruct (decide (2 = 1)) as [Heq|_]; [lra|]. simpl.
  repeat split; reflexivity.
Qed.

(** ** Automatic workpiece *)

(** C10: with both workpiece-bound strings empty, [getAutomaticWorkpiece]
    is true whatever the automatic-workpiece option holds, also right
    after [setAutomaticWorkpiece(false)]. *)
Theorem getAutomaticWorkpiece_without_bounds (p : Project.t) :
  Project.workpieceMin p = EmptyString ->
  Project.workpieceMax p = EmptyString ->
  Project.getAutomaticWorkpiece p = true
  /\ (forall o,
      Project.getAutomaticWorkpiece (Project.with_automaticWorkpiece o p) = true)
  /\ Project.getAutomaticWorkpiece (Project.setAutomaticWorkpiece false p) = true
  /\ BoolOption.toBoolean
       (Project.automaticWorkpiece (Project.setAutomaticWorkpiece false p))
     = false.
Proof.
  intros Hmin Hmax.
  assert (Hall : forall o,
    Project.getAutomaticWorkpiece (Project.with_automaticWorkpiece o p) = true).
  { intros o. unfold Project.getAutomaticWorkpiece. simpl.
    rewrite Hmin, Hmax. simpl. apply orb_true_r. }
  split; [|split; [exact Hall|split]].
  - unfold Project.getAutomaticWorkpiece. rewrite Hmin, Hmax. simpl.
    apply orb_true_r.
  - unfold Project.setAutomaticWorkpiece, Project.getAutomaticWorkpiece.
    destruct (negb _); simpl; rewrite Hmin, Hmax; simpl;
      first [reflexivity | apply orb_true_r].
  - unfold Project.setAutomaticWorkpiece. destruct (negb _); reflexivity.
Qed.

(** The new project has no workpiece bounds: it stays automatic after
    [setAutomaticWorkpiece(false)]. *)
Lemma getAutomaticWorkpiece_without_bounds_witness :
  Project.getAutomaticWorkpiece
    (Project.setAutomaticWorkpiece false project0) = true.
Proof.
  exact (proj1 (proj2 (proj2
    (getAutomaticWorkpiece_without_bounds project0 eq_refl eq_refl)))).
Defined.

(** *** The slab and the margin *)

Ltac unfold_rect :=
  unfold Project.addMargin, Project.slab, cb.addPoint, cb.addRect,
    cb.Rectangle3D_of, cb.getDimensions, cb.getHeight, cb.getWidth,
    cb.getLength, cb.getMin, cb.getMax, cb.vsub, cb.vadd, cb.vscale, cb.vdiv,
    cb.lower, cb.raise, cb.swapMin, cb.swapMax in *.

Lemma slab_height (u : cb.Rectangle3D) : 2 <= cb.getHeight (Project.slab u).
Proof.
  unfold Project.slab. case_decide as Hthin; [|lra].
  unfold_rect. simpl in *. repeat case_decide; simpl in *; lra.
Qed.

Lemma slab_top (u : cb.Rectangle3D) :
  cb.z (cb.rmin u) <= 0 -> cb.z (cb.rmax (Project.slab u)) = 0.
Proof.
  intros Hz. unfold Project.slab. case_decide as Hthin;
    unfold_rect; simpl in *; repeat case_decide; simpl in *; lra.
Qed.

Lemma slab_ordered (u : cb.Rectangle3D) :
  0 <= cb.getWidth (Project.slab u) /\ 0 <= cb.getLength (Project.slab u).
Proof.
  unfold Project.slab. case_decide as Hthin;
    unfold_rect; simpl in *; split; repeat case_decide; simpl in *; lra.
Qed.

Lemma lower_below (cur d : R) : 0 <= d -> cb.lower cur (cur - d) = cur - d.
Proof. intros Hd. unfold cb.lower. case_decide; lra. Qed.

Lemma lower_above (cur p : R) : cur <= p -> cb.lower cur p = cur.
Proof. intros Hp. unfold cb.lower. case_decide; lra. Qed.

Lemma raise_above (cur d : R) : 0 <= d -> cb.raise cur (cur + d) = cur + d.
Proof. intros Hd. unfold cb.raise. case_decide; lra. Qed.

Lemma raise_below (cur p : R) : p <= cur -> cb.raise cur p = cur.
Proof. intros Hp. unfold cb.raise. case_decide; lra. Qed.

Lemma lower_le (cur p : R) : cb.lower cur p <= cur.
Proof. unfold cb.lower. case_decide; lra. Qed.

Lemma raise_ge (cur p : R) : cur <= cb.raise cur p.
Proof. unfold cb.raise. case_decide; lra. Qed.

(** [add] never shrinks the z-extent. *)
Lemma addPoint_height (r : cb.Rectangle3D) (p : cb.Vector3D) :
  cb.getHeight r <= cb.getHeight (cb.addPoint r p).
Proof.
  unfold cb.getHeight, cb.addPoint. simpl.
  pose proof (lower_le (cb.z (cb.rmin r)) (cb.z p)).
  pose proof (raise_ge (cb.z (cb.rmax r)) (cb.z p)). lra.
Qed.

Lemma addMargin_height (m : R) (s : cb.Rectangle3D) :
  cb.getHeight s <= cb.getHeight (Project.addMargin m s).
Proof.
  unfold Project.addMargin.
  eapply Rle_trans; [|apply addPoint_height]. apply addPoint_height.
Qed.

(** The margin step on a well-ordered rectangle, for a margin that is not
    negative: every face moves outwards by its share of the margin, except
    the top face, which stays. *)
Lemma addMargin_faces (m : R) (s : cb.Rectangle3D) :
  0 <= m -> 0 <= cb.getWidth s -> 0 <= cb.getLength s -> 0 <= cb.getHeight s ->
  Project.addMargin m s
  = cb.mkRectangle3D
      (cb.mkVector3D (cb.x (cb.rmin s) - cb.getWidth s * m / 100)
                     (cb.y (cb.rmin s) - cb.getLength s * m / 100)
                     (cb.z (cb.rmin s) - cb.getHeight s * m / 100))
      (cb.mkVector3D (cb.x (cb.rmax s) + cb.getWidth s * m / 100)
                     (cb.y (cb.rmax s) + cb.getLength s * m / 100)
                     (cb.z (cb.rmax s))).
Proof.
  intros Hm Hw Hl Hh.
  pose proof (Rmult_le_pos _ _ Hw Hm) as Hwm.
  pose proof (Rmult_le_pos _ _ Hl Hm) as Hlm.
  pose proof (Rmult_le_pos _ _ Hh Hm) as Hhm.
  unfold cb.getWidth, cb.getLength, cb.getHeight in *.
  unfold Project.addMargin, cb.addPoint, cb.getDimensions, cb.getMin,
    cb.getMax, cb.vsub, cb.vadd, cb.vscale, cb.vdiv. simpl.
  rewrite !lower_below by lra.
  rewrite !(raise_below _ (_ - _)) by lra.
  rewrite !raise_above by lra.
  rewrite !lower_above by lra.
  rewrite Rplus_0_r. reflexivity.
Qed.

(** *** [updateAutomaticWorkpiece] *)

Section AutomaticWorkpiece.
Context {conv : StringConv} {lib : SweepLib}.

Lemma setAutomaticWorkpiece_enabled (p : Project.t) :
  Project.getAutomaticWorkpiece p = true ->
  Project.setAutomaticWorkpiece true p
  = Project.with_automaticWorkpiece
      (BoolOption.set true (Project.automaticWorkpiece p)) p.
Proof.
  intros Hauto. unfold Project.setAutomaticWorkpiece. rewrite Hauto. reflexivity.
Qed.

Lemma setWorkpieceBounds_fields (bounds : cb.Rectangle3D) (p p' : Project.t) :
  Project.setWorkpieceBounds bounds p = Ok p' ->
  Project.workpiece p' = bounds
  /\ Project.workpieceMin p' = Vector3D_toString (cb.getMin bounds)
  /\ Project.workpieceMax p' = Vector3D_toString (cb.getMax bounds).
Proof.
  unfold Project.setWorkpieceBounds.
  destruct (Project.updateResolution _) as [q|what] eqn:Hq; simpl;
    [|discriminate].
  apply updateResolution_fields in Hq.
  destruct Hq as (_ & _ & _ & Hmin & Hmax & _).
  intros [= <-]. destruct (negb _); simpl; rewrite Hmin, Hmax; auto.
Qed.

Lemma collectMove_skips (tools : gmap Z Tool.t) (st : Project.SweepState)
  (move : Move.t) :
  Move.getType move = MOVE_RAPID \/ (Move.getTool move < 0)%Z ->
  Project.collectMove tools st move = Ok st.
Proof.
  intros Hskip. unfold Project.collectMove. destruct st as [sweeps bboxes].
  destruct (decide (Move.getType move = MOVE_RAPID)); [reflexivity|].
  destruct (decide (Move.getTool move < 0)%Z); [reflexivity|tauto].
Qed.

Lemma collectBBoxes_skips (tools : gmap Z Tool.t) (st : Project.SweepState)
  (path : list Move.t) :
  Forall (fun move =>
            Move.getType move = MOVE_RAPID \/ (Move.getTool move < 0)%Z) path ->
  Project.collectBBoxes tools st path = Ok st.
Proof.
  induction 1 as [|move rest Hmove _ IH]; simpl; [reflexivity|].
  rewrite (collectMove_skips _ _ _ Hmove). exact IH.
Qed.

(** C8: [updateAutomaticWorkpiece] leaves the workpiece bounds as they are
    when the automatic workpiece is disabled (nothing changes at all), and
    when every move of the path is rapid or has a negative tool number. *)
Theorem updateAutomaticWorkpiece_keeps_bounds (path : list Move.t)
  (p : Project.t) :
  Project.getAutomaticWorkpiece p = false
  \/ Forall (fun move =>
               Move.getType move = MOVE_RAPID \/ (Move.getTool move < 0)%Z)
            path ->
  exists p',
    Project.updateAutomaticWorkpiece path p = Ok p'
    /\ Project.workpiece p' = Project.workpiece p
    /\ Project.workpieceMin p' = Project.workpieceMin p
    /\ Project.workpieceMax p' = Project.workpieceMax p
    /\ (Project.getAutomaticWorkpiece p = false -> p' = p).
Proof.
  intros Hcase. unfold Project.updateAutomaticWorkpiece.
  destruct (Project.getAutomaticWorkpiece p) eqn:Hauto; simpl.
  - destruct Hcase as [Hoff|Hpath]; [discriminate|].
    rewrite (setAutomaticWorkpiece_enabled _ Hauto).
    rewrite (collectBBoxes_skips _ _ _ Hpath). simpl.
    unfold Project.unionBBoxes. simpl.
    destruct (decide (cb.Rectangle3D_empty = cb.Rectangle3D_empty))
      as [_|Hne]; [|congruence].
    eexists. split; [reflexivity|]. simpl.
    repeat split; intros; discriminate.
  - exists p. repeat split; reflexivity.
Qed.

(** C2 (as amended): when [updateAutomaticWorkpiece] commits bounds, they
    are the slab with the margin added; the slab and the committed bounds
    are at least 2 high; for a margin that is not negative the margin
    moves the four sides outwards by margin percent of the width and depth
    and lowers the bottom by margin percent of the height, while the top
    face stays, at z = 0 when the collected boxes reach z <= 0. *)
Theorem updateAutomaticWorkpiece_commits (path : list Move.t)
  (p p' : Project.t) (st : Project.SweepState) :
  Project.getAutomaticWorkpiece p = true ->
  Project.collectBBoxes (Project.tools p) ([], []) path = Ok st ->
  Project.unionBBoxes st.2 <> cb.Rectangle3D_empty ->
  Rectangle3D_isReal (Project.slab (Project.unionBBoxes st.2)) = true ->
  Project.updateAutomaticWorkpiece path p = Ok p' ->
  let s := Project.slab (Project.unionBBoxes st.2) in
  let w := Project.workpiece p' in
  let m := Project.getWorkpieceMargin p in
  w = Project.addMargin m s
  /\ 2 <= cb.getHeight s <= cb.getHeight w
  /\ (0 <= m ->
      w = cb.mkRectangle3D
            (cb.mkVector3D (cb.x (cb.rmin s) - cb.getWidth s * m / 100)
                           (cb.y (cb.rmin s) - cb.getLength s * m / 100)
                           (cb.z (cb.rmin s) - cb.getHeight s * m / 100))
            (cb.mkVector3D (cb.x (cb.rmax s) + cb.getWidth s * m / 100)
                           (cb.y (cb.rmax s) + cb.getLength s * m / 100)
                           (cb.z (cb.rmax s))))
  /\ (0 <= m -> cb.z (cb.rmin (Project.unionBBoxes st.2)) <= 0 ->
      cb.z (cb.rmax s) = 0 /\ cb.z (cb.rmax w) = 0).
Proof.
  intros Hauto Hst Hne Hreal Hup. cbv zeta.
  unfold Project.updateAutomaticWorkpiece in Hup.
  rewrite Hauto, (setAutomaticWorkpiece_enabled _ Hauto) in Hup.
  simpl in Hup. rewrite Hst in Hup. simpl in Hup.
  destruct (decide (Project.unionBBoxes st.2 = cb.Rectangle3D_empty));
    [contradiction|].
  rewrite Hreal in Hup.
  apply setWorkpieceBounds_fields in Hup. destruct Hup as (Hw & _).
  unfold Project.getWorkpieceMargin in *. simpl in Hw.
  pose proof (slab_height (Project.unionBBoxes st.2)) as Hh.
  pose proof (slab_ordered (Project.unionBBoxes st.2)) as [Hwd Hln].
  assert (Hfaces : 0 <= Project.workpieceMargin p ->
    Project.workpiece p' = _) by
    (intros Hm; rewrite Hw; apply addMargin_faces; [exact Hm|lra..]).
  split; [exact Hw|]. split; [|split; [exact Hfaces|]].
  - split; [exact Hh|]. rewrite Hw.
    eapply Rle_trans; [|apply addMargin_height]. lra.
  - intros Hm Hz. pose proof (slab_top _ Hz) as Htop.
    split; [exact Htop|]. rewrite (Hfaces Hm). simpl. exact Htop.
Qed.

(** In manual resolution mode committing needs no text conversion, and
    [updateAutomaticWorkpiece] returns. *)
Lemma updateAutomaticWorkpiece_manual (path : list Move.t) (p : Project.t)
  (st : Project.SweepState) :
  Project.getResolutionMode p = RESOLUTION_MANUAL ->
  Project.getAutomaticWorkpiece p = true ->
  Project.collectBBoxes (Project.tools p) ([], []) path = Ok st ->
  Project.unionBBoxes st.2 <> cb.Rectangle3D_empty ->
  Rectangle3D_isReal (Project.slab (Project.unionBBoxes st.2)) = true ->
  exists p',
    Project.updateAutomaticWorkpiece path p = Ok p'
    /\ Project.workpiece p'
       = Project.addMargin (Project.getWorkpieceMargin p)
           (Project.slab (Project.unionBBoxes st.2)).
Proof.
  intros Hmode Hauto Hst Hne Hreal.
  unfold Project.updateAutomaticWorkpiece.
  rewrite Hauto, (setAutomaticWorkpiece_enabled _ Hauto). simpl.
  rewrite Hst. simpl.
  destruct (decide (Project.unionBBoxes st.2 = cb.Rectangle3D_empty));
    [contradiction|].
  rewrite Hreal.
  unfold Project.setWorkpieceBounds, Project.updateResolution,
    Project.getResolutionMode in *. simpl.
  rewrite Hmode.
  destruct (decide (RESOLUTION_MANUAL <> RESOLUTION_MANUAL)) as [Hx|_];
    [congruence|]. simpl.
  eexists. split; [reflexivity|]. simpl. repeat case_match; reflexivity.
Qed.

End AutomaticWorkpiece.

(** *** A concrete run: one cutting move of a flat cutter

    The example of the specification: a tool whose sweep has radius 5 and
    height 1 makes one cutting move from the origin to (10, 0, 0). *)

Arguments cb.DBL_MAX : simpl never.

Lemma DBL_MAX_large : 1000000 < cb.DBL_MAX.
Proof. unfold cb.DBL_MAX. apply IZR_lt. reflexivity. Qed.

Lemma rect_eq (x1 y1 z1 x2 y2 z2 x1' y1' z1' x2' y2' z2' : R) :
  x1 = x1' -> y1 = y1' -> z1 = z1' -> x2 = x2' -> y2 = y2' -> z2 = z2' ->
  cb.mkRectangle3D (cb.mkVector3D x1 y1 z1) (cb.mkVector3D x2 y2 z2)
  = cb.mkRectangle3D (cb.mkVector3D x1' y1' z1') (cb.mkVector3D x2' y2' z2').
Proof. intros; subst; reflexivity. Qed.

(** Evaluates rectangle operations on concrete coordinates. *)
Ltac eval_rect :=
  pose proof DBL_MAX_large;
  unfold_rect; unfold Rmin, Rmax in *; simpl in *;
  repeat first
    [ case_decide; simpl in *; try (exfalso; lra)
    | match goal with
      | |- context [Rle_dec ?a ?b] =>
          destruct (Rle_dec a b); simpl in *; try (exfalso; lra)
      end ];
  try (apply rect_eq; lra); try lra.

Lemma collect_cuttingMove :
  Project.collectBBoxes (lib := Reference.sweeps) (Project.tools manualProject)
    ([], []) [cuttingMove]
  = Ok ([None; Some (ConicSweep 1 5 5)], [cuttingBox]).
Proof.
  simpl. unfold Project.collectMove. simpl.
  unfold Reference.toolTableGet. rewrite lookup_singleton_eq. simpl.
  do 3 f_equal. unfold cuttingBox, Reference.getBBoxes. simpl.
  f_equal. eval_rect.
Qed.

Lemma union_cuttingBox : Project.unionBBoxes [cuttingBox] = cuttingBox.
Proof. unfold Project.unionBBoxes, cb.Rectangle3D_empty, cuttingBox. simpl. eval_rect. Qed.

Lemma cuttingBox_not_empty : cuttingBox <> cb.Rectangle3D_empty.
Proof.
  unfold cuttingBox, cb.Rectangle3D_empty. intros [= Hx _].
  pose proof DBL_MAX_large. lra.
Qed.

Lemma slab_cuttingBox : Project.slab cuttingBox = cuttingSlab.
Proof.
  unfold Project.slab, cuttingBox, cuttingSlab.
  case_decide as Hthin.
  - eval_rect.
  - exfalso. apply Hthin. eval_rect.
Qed.

Lemma addMargin_cuttingSlab : Project.addMargin 5 cuttingSlab = cuttingWorkpiece.
Proof.
  rewrite addMargin_faces;
    unfold cuttingSlab, cuttingWorkpiece, cb.getWidth, cb.getLength,
      cb.getHeight; simpl; try lra.
  apply rect_eq; lra.
Qed.

(** Under boxes that lie entirely above z = 0 the slab reaches up to the
    lowest z of the boxes: its top face is not at z = 0. *)
Lemma slab_raisedBox :
  Project.slab raisedBox
  = cb.mkRectangle3D (cb.mkVector3D 0 0 (-1)) (cb.mkVector3D 10 10 1).
Proof.
  unfold Project.slab, raisedBox.
  case_decide as Hthin.
  - eval_rect.
  - exfalso. apply Hthin. eval_rect.
Qed.

(** C2 (counterexample): the run commits a workpiece whose bottom the
    margin step has lowered from z = -2 to z = -2.1, so the margin is not
    applied in X and Y only. *)
Lemma margin_lowers_bottom :
  exists p',
    Project.updateAutomaticWorkpiece (conv := Reference.conv)
      (lib := Reference.sweeps) [cuttingMove] manualProject = Ok p'
    /\ Project.workpiece p' = Project.addMargin 5 cuttingSlab
    /\ cb.getHeight cuttingSlab = 2
    /\ cb.getHeight (Project.workpiece p') = 2.1
    /\ cb.getHeight (Project.workpiece p') <> cb.getHeight cuttingSlab.
Proof.
  destruct (updateAutomaticWorkpiece_manual (conv := Reference.conv)
              (lib := Reference.sweeps) [cuttingMove] manualProject _
              eq_refl eq_refl collect_cuttingMove) as (p' & Hrun & Hw).
  - simpl. rewrite union_cuttingBox. apply cuttingBox_not_empty.
  - reflexivity.
  - simpl in Hw. rewrite union_cuttingBox, slab_cuttingBox in Hw.
    exists p'. split; [exact Hrun|]. split; [exact Hw|].
    rewrite Hw, addMargin_cuttingSlab.
    unfold cuttingSlab, cuttingWorkpiece, cb.getHeight. simpl.
    repeat split; lra.
Qed.

(** The run of the cutting move commits the slab from z = -2.1 to z = 0. *)
Lemma updateAutomaticWorkpiece_commits_witness :
  exists p',
    Project.updateAutomaticWorkpiece (conv := Reference.conv)
      (lib := Reference.sweeps) [cuttingMove] manualProject = Ok p'
    /\ Project.workpiece p' = cuttingWorkpiece
    /\ 2 <= cb.getHeight (Project.workpiece p')
    /\ cb.z (cb.rmax (Project.workpiece p')) = 0.
Proof.
  assert (Hne : Project.unionBBoxes
                  ([None; Some (ConicSweep 1 5 5)], [cuttingBox]).2
                <> cb.Rectangle3D_empty).
  { simpl. rewrite union_cuttingBox. apply cuttingBox_not_empty. }
  destruct (updateAutomaticWorkpiece_manual (conv := Reference.conv)
              (lib := Reference.sweeps) [cuttingMove] manualProject _
              eq_refl eq_refl collect_cuttingMove Hne eq_refl)
    as (p' & Hrun & _).
  destruct (updateAutomaticWorkpiece_commits (conv := Reference.conv)
              (lib := Reference.sweeps) [cuttingMove] manualProject p' _
              eq_refl collect_cuttingMove Hne eq_refl Hrun)
    as (Hw & Hheight & _ & Htop).
  cbn [snd] in Hw, Hheight, Htop.
  rewrite union_cuttingBox, slab_cuttingBox in Hw, Hheight, Htop.
  exists p'. split; [exact Hrun|]. split; [|split].
  - rewrite Hw. apply addMargin_cuttingSlab.
  - lra.
  - destruct Htop as [_ Htop]; [| |exact Htop];
      unfold Project.getWorkpieceMargin, cuttingBox; simpl; lra.
Defined.

(** A path of one rapid move leaves the new project without bounds. *)
Lemma updateAutomaticWorkpiece_keeps_bounds_witness :
  exists p',
    Project.updateAutomaticWorkpiece (conv := Reference.conv)
      (lib := Reference.sweeps) [rapidMove] project0 = Ok p'
    /\ Project.workpiece p' = Project.workpiece project0
    /\ Project.workpieceMin p' = EmptyString
    /\ Project.workpieceMax p' = EmptyString.
Proof.
  destruct (updateAutomaticWorkpiece_keeps_bounds (conv := Reference.conv)
              (lib := Reference.sweeps) [rapidMove] project0)
    as (p' & Hrun & Hw & Hmin & Hmax & _).
  - right. repeat constructor.
  - exists p'. auto.
Defined.

(** ** Reading a tool from XML attributes *)

Section ReadXML.
Context {conv : StringConv}.

Lemma readXML_fields (attrs : gmap string string) (tool tool' : Tool.t) :
  Tool.readXML attrs tool = Ok tool' ->
  Tool.units tool' = Tool.units (Tool.afterTokens attrs tool)
  /\ Tool.shape tool' = Tool.shape (Tool.afterTokens attrs tool)
  /\ (attrs !! "snub_diameter" = None ->
      Tool.snubDiameter tool' = Tool.snubDiameter tool).
Proof.
  unfold Tool.readXML. fold (Tool.afterTokens attrs tool).
  assert (Hsnub : Tool.snubDiameter (Tool.afterTokens attrs tool)
                  = Tool.snubDiameter tool).
  { unfold Tool.afterTokens, try_catch.
    destruct (attrs !! "units") as [tu|];
      [destruct (ToolUnits_parse tu); simpl|];
      (destruct (attrs !! "shape") as [ts|];
       [destruct (ToolShape_parse ts); simpl|]); reflexivity. }
  revert Hsnub. generalize (Tool.afterTokens attrs tool) as base. intros base Hsnub.
  intros Hread.
  destruct (attrs !! "length") as [tl|]; simpl in Hread; [|discriminate].
  destruct (String_parseDouble tl); simpl in Hread; [|discriminate].
  assert (Hlast : forall cur : Tool.t,
    Tool.units cur = Tool.units base -> Tool.shape cur = Tool.shape base ->
    Tool.snubDiameter cur = Tool.snubDiameter tool ->
    match attrs !! "snub_diameter" with
    | Some text =>
        v ← String_parseDouble text;
        Ok (Tool.setSnubDiameter
              (v * (if decide (Tool.getUnits base = UNITS_INCH)
                    then 25.4 else 1)) cur)
    | None => Ok cur
    end = Ok tool' ->
    Tool.units tool' = Tool.units base /\ Tool.shape tool' = Tool.shape base
    /\ (attrs !! "snub_diameter" = None ->
        Tool.snubDiameter tool' = Tool.snubDiameter tool)).
  { intros cur Hu Hs Hd Hend.
    destruct (attrs !! "snub_diameter") as [ts|].
    - destruct (String_parseDouble ts); simpl in Hend; [|discriminate].
      injection Hend as <-. simpl. repeat split; auto. discriminate.
    - injection Hend as <-. auto. }
  destruct (attrs !! "radius") as [tr|]; simpl in Hread.
  - destruct (String_parseDouble tr); simpl in Hread; [|discriminate].
    eapply Hlast; [| | |exact Hread]; reflexivity || exact Hsnub.
  - destruct (attrs !! "diameter") as [td|]; simpl in Hread; [|discriminate].
    destruct (String_parseDouble td); simpl in Hread; [|discriminate].
    eapply Hlast; [| | |exact Hread]; reflexivity || exact Hsnub.
Qed.

(** C5 (as amended): [Tool::read(XMLAttributes)] throws exactly when the
    [length] attribute is missing, or [radius] and [diameter] are both
    missing, or the text of a numeric attribute that is read ([length];
    [radius], else [diameter]; [snub_diameter]) makes [parseDouble] throw.
    A [units] or [shape] text that does not parse never makes it throw: the
    read goes on as if the attribute were absent. *)
Theorem readXML_throws_iff (attrs : gmap string string) (tool : Tool.t) :
  (is_Ok (Tool.readXML attrs tool) = false
   <-> attrs !! "length" = None
       \/ (attrs !! "radius" = None /\ attrs !! "diameter" = None)
       \/ (exists text, attrs !! "length" = Some text
                        /\ is_Ok (String_parseDouble text) = false)
       \/ (exists text, attrs !! "radius" = Some text
                        /\ is_Ok (String_parseDouble text) = false)
       \/ (exists text, attrs !! "radius" = None
                        /\ attrs !! "diameter" = Some text
                        /\ is_Ok (String_parseDouble text) = false)
       \/ (exists text, attrs !! "snub_diameter" = Some text
                        /\ is_Ok (String_parseDouble text) = false))
  /\ (forall text, attrs !! "units" = Some text ->
      is_Ok (ToolUnits_parse text) = false ->
      Tool.readXML attrs tool = Tool.readXML (delete "units" attrs) tool)
  /\ (forall text, attrs !! "shape" = Some text ->
      is_Ok (ToolShape_parse text) = false ->
      Tool.readXML attrs tool = Tool.readXML (delete "shape" attrs) tool).
Proof.
  split; [|split].
  - unfold Tool.readXML. fold (Tool.afterTokens attrs tool).
    generalize (Tool.afterTokens attrs tool) as base. intros base.
    destruct (attrs !! "length") as [tl|]; simpl; [|naive_solver].
    destruct (String_parseDouble tl) as [vl|?] eqn:Hl; simpl;
      [|split; [intros _|reflexivity]; right; right; left; exists tl;
        rewrite Hl; auto].
    destruct (attrs !! "radius") as [tr|]; simpl.
    + destruct (String_parseDouble tr) as [vr|?] eqn:Hr; simpl;
        [|split; [intros _|reflexivity]; do 3 right; left; exists tr;
          rewrite Hr; auto].
      destruct (attrs !! "snub_diameter") as [ts|]; simpl.
      * destruct (String_parseDouble ts) as [vs|?] eqn:Hs; simpl.
        -- split; [discriminate|]. intros Hcase.
           destruct Hcase as [?|[[? _]|[(? & ? & Hx)|[(? & ? & Hx)|
             [(? & ? & _)|(? & ? & Hx)]]]]]; simplify_eq;
             first [rewrite Hl in Hx | rewrite Hr in Hx | rewrite Hs in Hx];
             discriminate.
        -- split; [intros _|reflexivity]. do 5 right. exists ts.
           rewrite Hs; auto.
      * split; [discriminate|]. intros Hcase.
        destruct Hcase as [?|[[? _]|[(? & ? & Hx)|[(? & ? & Hx)|
          [(? & ? & _)|(? & ? & _)]]]]]; simplify_eq;
          first [rewrite Hl in Hx | rewrite Hr in Hx]; discriminate.
    + destruct (attrs !! "diameter") as [td|]; simpl; [|naive_solver].
      destruct (String_parseDouble td) as [vd|?] eqn:Hd; simpl;
        [|split; [intros _|reflexivity]; do 4 right; left; exists td;
          rewrite Hd; auto].
      destruct (attrs !! "snub_diameter") as [ts|]; simpl.
      * destruct (String_parseDouble ts) as [vs|?] eqn:Hs; simpl.
        -- split; [discriminate|]. intros Hcase.
           destruct Hcase as [?|[[_ ?]|[(? & ? & Hx)|[(? & ? & _)|
             [(? & _ & ? & Hx)|(? & ? & Hx)]]]]]; simplify_eq;
             first [rewrite Hl in Hx | rewrite Hd in Hx | rewrite Hs in Hx];
             discriminate.
        -- split; [intros _|reflexivity]. do 5 right. exists ts.
           rewrite Hs; auto.
      * split; [discriminate|]. intros Hcase.
        destruct Hcase as [?|[[_ ?]|[(? & ? & Hx)|[(? & ? & _)|
          [(? & _ & ? & Hx)|(? & ? & _)]]]]]; simplify_eq;
          first [rewrite Hl in Hx | rewrite Hd in Hx]; discriminate.
  - intros text Hu Hfail. unfold Tool.readXML.
    rewrite Hu, lookup_delete_eq.
    rewrite !lookup_delete_ne by discriminate.
    destruct (ToolUnits_parse text); [discriminate|]. reflexivity.
  - intros text Hs Hfail. unfold Tool.readXML.
    rewrite Hs, lookup_delete_eq.
    rewrite !lookup_delete_ne by discriminate.
    destruct (ToolShape_parse text); [discriminate|]. reflexivity.
Qed.

End ReadXML.

(** C5 (counterexample): [length] and [radius] are both present, and the
    read throws, because the text of [length] is not a number a double can
    hold. *)
Lemma readXML_throws_on_overflow :
  overflowAttrs !! "length" = Some "1e999"
  /\ overflowAttrs !! "radius" = Some "1"
  /\ Tool.readXML (conv := Reference.conv) overflowAttrs (Tool.new 1 0 UNITS_MM)
     = Thrown "parseDouble() Invalid double".
Proof.
  assert (Hl : overflowAttrs !! "length" = Some "1e999")
    by (vm_compute; reflexivity).
  assert (Hr : overflowAttrs !! "radius" = Some "1")
    by (vm_compute; reflexivity).
  assert (Hu : overflowAttrs !! "units" = None) by (vm_compute; reflexivity).
  assert (Hs : overflowAttrs !! "shape" = None) by (vm_compute; reflexivity).
  split; [exact Hl|]. split; [exact Hr|].
  unfold Tool.readXML. rewrite Hl, Hu, Hs. reflexivity.
Qed.

(** ** Writing a tool and reading it back *)

Lemma Int_part_IZR (n : Z) : Int_part (IZR n) = n.
Proof. symmetry. apply Int_part_spec. lra. Qed.

Section RoundTrip.
Context {conv : StringConv}.

Lemma writeXML_lookup (tool : Tool.t) :
  let scale := if decide (Tool.units tool = UNITS_INCH) then 1 / 25.4 else 1 in
  let attrs := Tool.writeXML tool in
  attrs !! "units" = Some (ToolUnits_toString (Tool.units tool))
  /\ attrs !! "shape" = Some (ToolShape_toString (Tool.shape tool))
  /\ attrs !! "length" = Some (String_double (Tool.length tool * scale))
  /\ attrs !! "radius" = Some (String_double (Tool.radius tool * scale))
  /\ attrs !! "snub_diameter"
     = if decide (Tool.shape tool = TS_SNUBNOSE
                  /\ 0.0000001 < Tool.snubDiameter tool)
       then Some (String_double (Tool.snubDiameter tool * scale))
       else None.
Proof.
  cbv zeta. unfold Tool.writeXML, Tool.getUnits, Tool.getShape,
    Tool.getLength, Tool.getRadius, Tool.getSnubDiameter.
  destruct (decide (Tool.shape tool = TS_SNUBNOSE
                    /\ 0.0000001 < Tool.snubDiameter tool));
    simplify_map_eq; repeat split; reflexivity.
Qed.

Lemma writeJSON_lookup (withNumber : bool) (tool : Tool.t) :
  let scale := if decide (Tool.units tool = UNITS_INCH) then 1 / 25.4 else 1 in
  let dict := Tool.writeJSON withNumber tool in
  dict !! "number"
  = (if withNumber then Some (JNumber (IZR (Tool.number tool))) else None)
  /\ dict !! "units" = Some (JString (ToolUnits_toString (Tool.units tool)))
  /\ dict !! "shape" = Some (JString (ToolShape_toString (Tool.shape tool)))
  /\ dict !! "length" = Some (JNumber (Tool.length tool * scale))
  /\ dict !! "diameter" = Some (JNumber (2 * Tool.radius tool * scale))
  /\ dict !! "snub_diameter"
     = (if decide (Tool.shape tool = TS_SNUBNOSE)
        then Some (JNumber (Tool.snubDiameter tool * scale)) else None)
  /\ dict !! "description" = Some (JString (Tool.description tool)).
Proof.
  cbv zeta. unfold Tool.writeJSON, Tool.getUnits, Tool.getShape,
    Tool.getLength, Tool.getDiameter, Tool.getSnubDiameter,
    Tool.getDescription.
  destruct withNumber; destruct (decide (Tool.shape tool = TS_SNUBNOSE));
    simplify_map_eq; repeat split; reflexivity.
Qed.

(** C6 (as amended): lengths are written multiplied by 1/25.4 for a tool in
    inches and as they are for a tool in millimetres, and read multiplied
    by 25.4 or as they are.  A tool whose snub diameter is 0 unless its
    shape is snubnose, written and read back into a newly constructed tool,
    comes back with the same units and shape; its length, radius and snub
    diameter come back multiplied by the factor of writing and then by the
    factor of reading, which for a tool in millimetres is the value itself
    (when the texts written parse back to the values they were printed
    from).  For the XML form this needs the snub diameter of a snubnose
    tool to exceed 0.0000001 or to be 0, as smaller values are not
    written. *)
Theorem tool_round_trip (tool : Tool.t) (number pocket : Z) (units0 : ToolUnits)
  (withNumber : bool) :
  ToolUnits_parse (ToolUnits_toString (Tool.units tool)) = Ok (Tool.units tool) ->
  ToolShape_parse (ToolShape_toString (Tool.shape tool)) = Ok (Tool.shape tool) ->
  (Tool.shape tool <> TS_SNUBNOSE -> Tool.snubDiameter tool = 0) ->
  let fresh := Tool.new number pocket units0 in
  let written := if decide (Tool.units tool = UNITS_INCH) then 1 / 25.4 else 1 in
  let read := if decide (Tool.units tool = UNITS_INCH) then 25.4 else 1 in
  (Tool.writeXML tool !! "length"
   = Some (String_double (Tool.length tool * written))
   /\ Tool.writeXML tool !! "radius"
      = Some (String_double (Tool.radius tool * written))
   /\ Tool.writeJSON withNumber tool !! "length"
      = Some (JNumber (Tool.length tool * written))
   /\ Tool.writeJSON withNumber tool !! "diameter"
      = Some (JNumber (2 * Tool.radius tool * written)))
  /\ ((forall v,
         In v [Tool.length tool * written; Tool.radius tool * written;
               Tool.snubDiameter tool * written] ->
         String_parseDouble (String_double v) = Ok v) ->
      0.0000001 < Tool.snubDiameter tool \/ Tool.snubDiameter tool = 0 ->
      exists tool',
        Tool.readXML (Tool.writeXML tool) fresh = Ok tool'
        /\ Tool.units tool' = Tool.units tool
        /\ Tool.shape tool' = Tool.shape tool
        /\ Tool.length tool' = Tool.length tool * written * read
        /\ Tool.radius tool' = Tool.radius tool * written * read
        /\ Tool.snubDiameter tool' = Tool.snubDiameter tool * written * read
        /\ (Tool.units tool = UNITS_MM ->
            Tool.length tool' = Tool.length tool
            /\ Tool.radius tool' = Tool.radius tool
            /\ Tool.snubDiameter tool' = Tool.snubDiameter tool))
  /\ ((0 <= Tool.number tool < 2 ^ 32)%Z ->
      exists tool',
        Tool.readJSON (Tool.writeJSON withNumber tool) fresh = Ok tool'
        /\ Tool.units tool' = Tool.units tool
        /\ Tool.shape tool' = Tool.shape tool
        /\ Tool.length tool' = Tool.length tool * written * read
        /\ Tool.radius tool' = 2 * Tool.radius tool * written * read / 2
        /\ Tool.snubDiameter tool' = Tool.snubDiameter tool * written * read
        /\ (Tool.units tool = UNITS_MM ->
            Tool.length tool' = Tool.length tool
            /\ Tool.radius tool' = Tool.radius tool
            /\ Tool.snubDiameter tool' = Tool.snubDiameter tool)).
Proof.
  intros Hunits Hshape Hsnub0. cbv zeta. split; [|split].
  - destruct (writeXML_lookup tool) as (_ & _ & Hl & Hr & _).
    destruct (writeJSON_lookup withNumber tool) as (_ & _ & _ & Hjl & Hjd & _).
    auto.
  - intros Hnum Hsmall.
    destruct (writeXML_lookup tool) as (Hu & Hs & Hl & Hr & Hd).
    cbv zeta in Hl, Hr, Hd.
    unfold Tool.readXML. rewrite Hu, Hs, Hl, Hr, Hd, Hunits, Hshape. simpl.
    unfold Tool.getUnits. simpl.
    rewrite !Hnum by (simpl; auto). simpl.
    destruct (decide (Tool.shape tool = TS_SNUBNOSE
                      /\ 0.0000001 < Tool.snubDiameter tool)) as [Hyes|Hno].
    + rewrite Hnum by (simpl; auto). simpl.
      eexists. split; [reflexivity|]. simpl.
      destruct (decide (Tool.units tool = UNITS_INCH)) as [Hin|Hmm];
        repeat split; try reflexivity; try lra; congruence.
    + eexists. split; [reflexivity|]. simpl.
      assert (Hzero : Tool.snubDiameter tool = 0).
      { destruct (decide (Tool.shape tool = TS_SNUBNOSE)) as [Hsn|Hsn].
        - destruct Hsmall as [Hbig|Hz]; [|exact Hz]. tauto.
        - apply Hsnub0, Hsn. }
      rewrite Hzero.
      destruct (decide (Tool.units tool = UNITS_INCH)) as [Hin|Hmm];
        repeat split; try reflexivity; try congruence;
        (destruct (decide (units0 = UNITS_MM)); simpl; lra).
  - intros Hrange.
    destruct (writeJSON_lookup withNumber tool)
      as (Hn & Hu & Hs & Hl & Hd & Hsd & Hde).
    cbv zeta in Hl, Hd, Hsd.
    assert (Hnumber : exists n,
      Tool.getU32 (Tool.writeJSON withNumber tool) "number"
        (Tool.number (Tool.new number pocket units0)) = Ok n).
    { unfold Tool.getU32. rewrite Hn. destruct withNumber; [|eauto].
      rewrite Int_part_IZR.
      destruct (decide (IZR (Tool.number tool) = IZR (Tool.number tool)
                        /\ (0 <= Tool.number tool < 2 ^ 32)%Z))
        as [_|Hbad]; [eauto|]. exfalso. apply Hbad. auto. }
    destruct Hnumber as [n Hnumber].
    unfold Tool.readJSON, Tool.getStringOr.
    rewrite Hnumber, Hu, Hs, Hl, Hd, Hsd, Hde. simpl.
    rewrite Hunits. simpl. rewrite Hshape. simpl.
    eexists. split; [reflexivity|].
    unfold Tool.setDiameter.
    destruct (decide (Tool.shape tool = TS_SNUBNOSE)) as [Hsn|Hsn]; simpl;
      destruct (decide (Tool.units tool = UNITS_INCH)) as [Hin|Hmm];
      repeat split; try reflexivity; try congruence; try lra;
      rewrite (Hsnub0 Hsn);
      destruct (decide (units0 = UNITS_MM)); simpl; lra.
Qed.

(** Whatever the text conversions, a snub diameter that [write] leaves out
    is not restored by [read]. *)
Lemma readXML_keeps_snubDiameter (tool fresh tool' : Tool.t) :
  Tool.snubDiameter tool <= 0.0000001 ->
  Tool.readXML (Tool.writeXML tool) fresh = Ok tool' ->
  Tool.snubDiameter tool' = Tool.snubDiameter fresh.
Proof.
  intros Hsmall Hread. apply readXML_fields in Hread.
  destruct Hread as (_ & _ & Hkeep). apply Hkeep.
  destruct (writeXML_lookup tool) as (_ & _ & _ & _ & Hd).
  cbv zeta in Hd. rewrite Hd.
  destruct (decide _) as [[_ Hbig]|_]; [lra|reflexivity].
Qed.

End RoundTrip.

(** The reference conversions are exact on integer values. *)
Lemma reference_parse_format (n : Z) (v : R) :
  v = IZR n -> Reference.parseDouble (Reference.formatDouble v) = Ok v.
Proof.
  intros ->.
  unfold Reference.parseDouble, Reference.formatDouble, Reference.parseZ,
    Reference.textOfZ.
  rewrite Int_part_IZR, NilEmpty.isi. simpl. rewrite DecimalZ.of_to.
  reflexivity.
Qed.

(** The snubnose tool in millimetres comes back from XML and from JSON as
    it was written. *)
Lemma tool_round_trip_witness :
  (exists tool',
     Tool.readXML (conv := Reference.conv)
       (Tool.writeXML (conv := Reference.conv) snubTool)
       (Tool.new 3 0 UNITS_INCH) = Ok tool'
     /\ Tool.length tool' = 10 /\ Tool.radius tool' = 2
     /\ Tool.snubDiameter tool' = 1)
  /\ (exists tool',
        Tool.readJSON (conv := Reference.conv)
          (Tool.writeJSON (conv := Reference.conv) true snubTool)
          (Tool.new 3 0 UNITS_INCH) = Ok tool'
        /\ Tool.length tool' = 10 /\ Tool.radius tool' = 2
        /\ Tool.snubDiameter tool' = 1).
Proof.
  destruct (tool_round_trip (conv := Reference.conv) snubTool 3 0 UNITS_INCH
              true) as (_ & Hxml & Hjson).
  - reflexivity.
  - reflexivity.
  - intros Hshape. exfalso. apply Hshape. reflexivity.
  - split.
    + destruct Hxml as (tool' & Hread & _ & _ & _ & _ & _ & Hmm).
      * intros v Hv. simpl in Hv.
        destruct Hv as [<-|[<-|[<-|[]]]];
          [apply (reference_parse_format 10)
          |apply (reference_parse_format 2)
          |apply (reference_parse_format 1)]; lra.
      * left. simpl. lra.
      * exists tool'. split; [exact Hread|]. apply Hmm. reflexivity.
    + destruct Hjson as (tool' & Hread & _ & _ & _ & _ & _ & Hmm).
      * simpl. lia.
      * exists tool'. split; [exact Hread|]. apply Hmm. reflexivity.
Defined.

(** C6 (counterexample): a snubnose tool with positive radius, length and
    snub diameter, whose snub diameter comes back from XML as 0. *)
Lemma tiny_snub_lost_in_XML :
  0 < Tool.radius tinySnubTool /\ 0 < Tool.length tinySnubTool
  /\ Tool.shape tinySnubTool = TS_SNUBNOSE
  /\ 0 < Tool.snubDiameter tinySnubTool
  /\ exists tool',
       Tool.readXML (conv := Reference.conv)
         (Tool.writeXML (conv := Reference.conv) tinySnubTool)
         (Tool.new 1 0 UNITS_MM) = Ok tool'
       /\ Tool.length tool' = 10 /\ Tool.radius tool' = 1
       /\ Tool.snubDiameter tool' = 0
       /\ Tool.snubDiameter tool' <> Tool.snubDiameter tinySnubTool.
Proof.
  simpl. repeat (split; [lra || reflexivity|]).
  destruct (writeXML_lookup (conv := Reference.conv) tinySnubTool)
    as (Hu & Hs & Hl & Hr & Hd).
  simpl in Hu, Hs, Hl, Hr, Hd.
  destruct (decide (TS_SNUBNOSE = TS_SNUBNOSE /\ 0.0000001 < 1 / 100000000))
    as [[_ Hbig]|_]; [lra|].
  unfold Tool.readXML. rewrite Hu, Hs, Hl, Hr, Hd. simpl.
  rewrite (reference_parse_format 10 (10 * 1)) by lra.
  rewrite (reference_parse_format 1 (1 * 1)) by lra. simpl.
  eexists. split; [reflexivity|]. simpl.
  repeat split; lra.
Qed.

(** ** The angle of a conical tool *)

Lemma round_near (v : R) : - / 2 <= cb.round v - v <= / 2.
Proof.
  unfold cb.round. destruct (decide (0 <= v)).
  - destruct (base_Int_part (v + / 2)). lra.
  - destruct (base_Int_part (- v + / 2)). lra.
Qed.

Lemma round_to (n : Z) (v : R) :
  0 <= v -> IZR n - / 2 <= v < IZR n + / 2 -> cb.round v = IZR n.
Proof.
  intros Hv Hn. unfold cb.round. destruct (decide (0 <= v)); [|contradiction].
  f_equal. symmetry. apply Int_part_spec. lra.
Qed.

Lemma PI_above_3 : 3 < PI.
Proof. pose proof PI2_3_2. lra. Qed.

Lemma sin_lb_small : 1 / 100000 < sin_lb (1 / 40000).
Proof.
  unfold sin_lb, sin_approx. simpl sum_f_R0. unfold sin_term.
  simpl fact. rewrite !INR_IZR_INZ.
  cbv [Z.of_nat Pos.of_succ_nat Pos.succ]. simpl pow. lra.
Qed.

Lemma atan_small : 0 < atan (1 / 100000) < 1 / 40000.
Proof.
  pose proof PI_above_3 as Hpi. split.
  - rewrite <- atan_0. apply atan_increasing. lra.
  - rewrite <- (atan_tan (1 / 40000)) by lra.
    apply atan_increasing.
    eapply Rlt_le_trans; [apply sin_lb_small|].
    assert (Hsin : sin_lb (1 / 40000) <= sin (1 / 40000)) by (apply SIN; lra).
    eapply Rle_trans; [exact Hsin|].
    assert (Hcos : 0 < cos (1 / 40000)) by (apply cos_gt_0; lra).
    assert (Hcos1 : cos (1 / 40000) <= 1) by apply COS_bound.
    assert (Hs0 : 0 < sin (1 / 40000)) by (apply sin_gt_0; lra).
    unfold tan. apply (Rmult_le_reg_r (cos (1 / 40000))); [exact Hcos|].
    unfold Rdiv. rewrite Rmult_assoc, Rinv_l by lra. nra.
Qed.

Lemma atan_pos_range (v : R) : 0 < v -> 0 < atan v / PI < 1 / 2.
Proof.
  intros Hv. pose proof PI_above_3 as Hpi.
  assert (Hlo : 0 < atan v) by (rewrite <- atan_0; apply atan_increasing, Hv).
  destruct (atan_bound v) as [_ Hhi].
  split; [apply Rdiv_lt_0_compat; lra|].
  apply (Rmult_lt_reg_r PI); [lra|].
  unfold Rdiv at 1. rewrite Rmult_assoc, Rinv_l, Rmult_1_r by lra. lra.
Qed.

Lemma round_range (v : R) (n : Z) :
  0 <= v <= IZR n -> 0 <= cb.round v <= IZR n.
Proof.
  intros [Hlo Hhi]. unfold cb.round. destruct (decide (0 <= v)); [|contradiction].
  destruct (base_Int_part (v + / 2)) as [Hle Hgt].
  set (m := Int_part (v + / 2)) in *.
  assert (Hm0 : (-1 < m)%Z) by (apply lt_IZR; lra).
  assert (Hmn : (m < n + 1)%Z) by (apply lt_IZR; rewrite plus_IZR; lra).
  split; [apply IZR_le; lia|apply IZR_le; lia].
Qed.

(** [setLengthFromAngle] of an angle strictly between 0 and 180 degrees
    sets a positive length whose angle before rounding is that angle. *)
Lemma setLengthFromAngle_exactAngle (tool : Tool.t) (a : R) :
  0 < Tool.radius tool -> 0 < a < 180 ->
  Tool.exactAngle (Tool.setLengthFromAngle a tool) = a
  /\ 0 < Tool.length (Tool.setLengthFromAngle a tool).
Proof.
  intros Hr Ha. pose proof PI_above_3 as Hpi.
  set (c := 1 - a / 180).
  assert (Hc : 0 < c < 1) by (unfold c; lra).
  assert (Htheta : 0 < c * PI / 2 < PI / 2).
  { assert (0 < c * PI) by (apply Rmult_lt_0_compat; lra).
    assert (c * PI < 1 * PI) by (apply Rmult_lt_compat_r; lra). lra. }
  assert (Htan : 0 < tan (c * PI / 2)) by (apply tan_gt_0; lra).
  split.
  - unfold Tool.exactAngle, Tool.setLengthFromAngle, Tool.getLength,
      Tool.getRadius. simpl. fold c.
    replace (Tool.radius tool * tan (c * PI / 2) / Tool.radius tool)
      with (tan (c * PI / 2)) by (field; lra).
    rewrite atan_tan by lra. unfold c. field. lra.
  - unfold Tool.setLengthFromAngle, Tool.getRadius. simpl. fold c.
    apply Rmult_lt_0_compat; assumption.
Qed.

(** C9 (as amended): [getAngle] is a whole number of hundredths of a
    degree between 0 and 180, within 0.005 of
    [180 - 360 atan(length/radius)/pi]; when it lies strictly between 0
    and 180, [setLengthFromAngle(getAngle())] sets a positive length that
    has the same [getAngle()]. *)
Theorem setLengthFromAngle_keeps_getAngle (tool : Tool.t) :
  0 < Tool.radius tool -> 0 < Tool.length tool ->
  (exists k : Z, (0 <= k <= 18000)%Z /\ Tool.getAngle tool = IZR k / 100)
  /\ Rabs (Tool.getAngle tool
           - (180 - 360 * atan (Tool.length tool / Tool.radius tool) / PI))
     <= 0.005
  /\ (0 < Tool.getAngle tool < 180 ->
      Tool.getAngle (Tool.setLengthFromAngle (Tool.getAngle tool) tool)
      = Tool.getAngle tool
      /\ 0 < Tool.length (Tool.setLengthFromAngle (Tool.getAngle tool) tool)).
Proof.
  intros Hr Hl.
  assert (Hq : 0 < Tool.length tool / Tool.radius tool)
    by (apply Rdiv_lt_0_compat; assumption).
  pose proof (atan_pos_range _ Hq) as Ha.
  set (angle := 180 - 360 * atan (Tool.length tool / Tool.radius tool) / PI).
  assert (Hangle : 0 < angle < 180).
  { unfold angle.
    replace (360 * atan (Tool.length tool / Tool.radius tool) / PI)
      with (360 * (atan (Tool.length tool / Tool.radius tool) / PI))
      by (field; apply PI_neq0).
    lra. }
  assert (Hget : Tool.getAngle tool = cb.round (angle * 100) / 100)
    by reflexivity.
  assert (Hk : exists k : Z,
    (0 <= k <= 18000)%Z /\ Tool.getAngle tool = IZR k / 100).
  { rewrite Hget. unfold cb.round.
    destruct (decide (0 <= angle * 100)) as [_|Hneg]; [|lra].
    exists (Int_part (angle * 100 + / 2)). split; [|reflexivity].
    destruct (base_Int_part (angle * 100 + / 2)) as [Hle Hgt].
    set (m := Int_part (angle * 100 + / 2)) in *.
    assert (Hm0 : (-1 < m)%Z) by (apply lt_IZR; lra).
    assert (Hmn : (m < 18000 + 1)%Z)
      by (apply lt_IZR; rewrite plus_IZR; lra).
    lia. }
  split; [exact Hk|]. split.
  - rewrite Hget. pose proof (round_near (angle * 100)) as Hnear.
    apply Rabs_le. lra.
  - intros Hin. destruct Hk as (k & Hrange & Hk). rewrite Hk in *.
    assert (Hk0 : (0 < k)%Z) by (apply lt_IZR; lra).
    assert (Hk1 : (k < 18000)%Z) by (apply lt_IZR; lra).
    apply IZR_lt in Hk0, Hk1.
    destruct (setLengthFromAngle_exactAngle tool (IZR k / 100) Hr Hin)
      as [Hexact Hpos].
    split; [|exact Hpos].
    unfold Tool.getAngle. fold (Tool.exactAngle
                                  (Tool.setLengthFromAngle (IZR k / 100) tool)).
    rewrite Hexact.
    replace (IZR k / 100 * 100) with (IZR k) by lra.
    rewrite (round_to k); [reflexivity|lra|lra].
Qed.

(** A tool as long as its radius has an angle of 90 degrees, and
    [setLengthFromAngle] of that angle keeps it. *)
Lemma setLengthFromAngle_keeps_getAngle_witness :
  Tool.getAngle squareTool = 90
  /\ Tool.getAngle (Tool.setLengthFromAngle (Tool.getAngle squareTool) squareTool)
     = Tool.getAngle squareTool.
Proof.
  assert (Hangle : Tool.getAngle squareTool = 90).
  { unfold Tool.getAngle, squareTool, Tool.getLength, Tool.getRadius. simpl.
    replace (1 / 1) with 1 by lra. rewrite atan_1.
    replace ((180 - 360 * (PI / 4) / PI) * 100) with 9000
      by (field; apply PI_neq0).
    rewrite (round_to 9000); lra. }
  split; [exact Hangle|].
  destruct (setLengthFromAngle_keeps_getAngle squareTool) as (_ & _ & Hkeep);
    [simpl; lra|simpl; lra|].
  apply Hkeep. rewrite Hangle. lra.
Defined.

(** C9 (counterexample): the angle of this tool rounds to 180 degrees, and
    [setLengthFromAngle] of 180 degrees sets the length to 0. *)
Lemma setLengthFromAngle_getAngle_flat :
  0 < Tool.radius flatTool /\ 0 < Tool.length flatTool
  /\ Tool.getAngle flatTool = 180
  /\ Tool.length (Tool.setLengthFromAngle (Tool.getAngle flatTool) flatTool) = 0
  /\ Tool.length (Tool.setLengthFromAngle (Tool.getAngle flatTool) flatTool)
     <> Tool.length flatTool.
Proof.
  assert (Hangle : Tool.getAngle flatTool = 180).
  { unfold Tool.getAngle, flatTool, Tool.getLength, Tool.getRadius. simpl.
    replace (1 / 100 / 1000) with (1 / 100000) by lra.
    pose proof atan_small as [Hlo Hhi]. pose proof PI_above_3 as Hpi.
    set (a := atan (1 / 100000)) in *.
    assert (Hq : 0 < a / PI < 1 / 100000).
    { split; [apply Rdiv_lt_0_compat; lra|].
      apply (Rmult_lt_reg_r PI); [lra|].
      unfold Rdiv at 1. rewrite Rmult_assoc, Rinv_l, Rmult_1_r by lra. nra. }
    replace (360 * a / PI) with (360 * (a / PI)) by (field; lra).
    rewrite (round_to 18000); lra. }
  assert (Hlen : Tool.length
                   (Tool.setLengthFromAngle (Tool.getAngle flatTool) flatTool)
                 = 0).
  { rewrite Hangle. unfold Tool.setLengthFromAngle, Tool.getRadius. simpl.
    replace ((1 - 180 / 180) * PI / 2) with 0 by lra.
    rewrite tan_0. lra. }
  split; [simpl; lra|]. split; [simpl; lra|]. split; [exact Hangle|].
  split; [exact Hlen|]. rewrite Hlen. simpl. lra.
Qed.

(** ** Percent-encoding of file names *)

Section Filenames.
Import Filename.
Local Open Scope Z_scope.

Lemma append_cons (d : ascii) (a b : string) :
  String d a +:+ b = String d (a +:+ b).
Proof. reflexivity. Qed.

Lemma append_nil_l (a : string) : EmptyString +:+ a = a.
Proof. reflexivity. Qed.

Lemma length_append (a b : string) :
  String.length (a +:+ b) = (String.length a + String.length b)%nat.
Proof.
  induction a as [|c a IH]; [reflexivity|].
  rewrite append_cons. cbn [String.length]. rewrite IH. reflexivity.
Qed.

Lemma append_assoc (a b c : string) : (a +:+ b) +:+ c = a +:+ (b +:+ c).
Proof.
  induction a as [|d a IH]; [reflexivity|].
  rewrite !append_cons, IH. reflexivity.
Qed.

Lemma append_nil_r (a : string) : a +:+ EmptyString = a.
Proof.
  induction a as [|d a IH]; [reflexivity|]. rewrite append_cons, IH. reflexivity.
Qed.

Lemma get_append_at (pre : string) (c : ascii) (s : string) :
  String.get (String.length pre) (pre +:+ String c s) = Some c.
Proof.
  induction pre as [|d pre IH]; [reflexivity|].
  rewrite append_cons. cbn [String.length String.get]. exact IH.
Qed.

Lemma substring_append_at (pre : string) (c h1 h2 : ascii) (s : string) :
  substring (String.length pre + 1) 2
    (pre +:+ String c (String h1 (String h2 s)))
  = String h1 (String h2 EmptyString).
Proof.
  induction pre as [|d pre IH]; [destruct s; reflexivity|].
  rewrite append_cons. cbn [String.length Nat.add substring]. exact IH.
Qed.

Lemma wrap_small (bits z : Z) : 0 <= z < 2 ^ bits -> wrap bits z = z.
Proof. intros Hz. unfold wrap. apply Z.mod_small, Hz. Qed.

(** What [encodeChar] appends: the character itself, which is not [%], or
    [%] and two hexadecimal digits that [parseU8] reads back as the
    character, except that a tab comes back as the character 7. *)
Lemma encodeChar_cases (c : ascii) :
  (encodeChar c = String c EmptyString /\ Ascii.eqb c PERCENT = false
   /\ roundTripChar c = c)
  \/ (exists h1 h2,
        encodeChar c = String PERCENT (String h1 (String h2 EmptyString))
        /\ parseU8_0x (String h1 (String h2 EmptyString))
           = Ok (roundTripChar c)).
Proof.
  unfold encodeChar, roundTripChar.
  destruct (Ascii.eqb_spec c TAB) as [->|Htab];
    [right; eexists _, _; split; reflexivity|].
  destruct (Ascii.eqb_spec c LF) as [->|Hlf];
    [right; eexists _, _; split; reflexivity|].
  destruct (Ascii.eqb_spec c VT) as [->|Hvt];
    [right; eexists _, _; split; reflexivity|].
  destruct (Ascii.eqb_spec c CR) as [->|Hcr];
    [right; eexists _, _; split; reflexivity|].
  destruct (Ascii.eqb_spec c PERCENT) as [->|Hpc];
    [right; eexists _, _; split; reflexivity|].
  destruct (Ascii.eqb_spec c SPACE) as [->|Hsp];
    [right; eexists _, _; split; reflexivity|].
  left. auto.
Qed.

Lemma decodeLoop_done (fuel : nat) (filename acc : string) (i : Z) :
  Z.of_nat (String.length filename) <= i ->
  decodeLoop fuel filename i acc = Ok acc.
Proof.
  intros Hi. destruct fuel; simpl;
    (destruct (Z.leb_spec (Z.of_nat (String.length filename)) i);
     [reflexivity|lia]).
Qed.

Lemma decodeLoop_step (fuel : nat) (filename acc : string) (i : Z) :
  i < Z.of_nat (String.length filename) ->
  decodeLoop (S fuel) filename i acc
  = match String.get (Z.to_nat i) filename with
    | None => Thrown "index out of range"
    | Some c =>
        if Ascii.eqb c PERCENT
           && (i <? wrap 64 (Z.of_nat (String.length filename) - 2))
        then
          b ← parseU8_0x (substring (Z.to_nat (i + 1)) 2 filename);
          decodeLoop fuel filename (wrap 32 (wrap 32 (i + 2) + 1))
            (acc +:+ String b EmptyString)
        else
          decodeLoop fuel filename (wrap 32 (i + 1))
            (acc +:+ String c EmptyString)
    end.
Proof.
  intros Hi. simpl.
  destruct (Z.leb_spec (Z.of_nat (String.length filename)) i); [lia|].
  reflexivity.
Qed.

Lemma get_in_range (s : string) :
  forall n : nat, (n < String.length s)%nat -> exists c, String.get n s = Some c.
Proof.
  induction s as [|d s IH]; intros n Hn; cbn [String.length] in Hn; [lia|].
  destruct n as [|n]; [exists d; reflexivity|].
  cbn [String.get]. apply IH. lia.
Qed.

(** The fuel that [decodeFilename] passes is enough on every name shorter
    than 2^32 - 3: the loop never stops for lack of fuel. *)
Lemma decodeLoop_fuel (filename : string) :
  Z.of_nat (String.length filename) < 2 ^ 32 - 3 ->
  forall (fuel : nat) (i : Z) (acc : string),
    0 <= i -> Z.of_nat (String.length filename) - i <= Z.of_nat fuel ->
    decodeLoop fuel filename i acc <> Thrown "out of fuel".
Proof.
  intros Hsize. induction fuel as [|fuel IH]; intros i acc Hi Hfuel.
  - rewrite decodeLoop_done by lia. discriminate.
  - destruct (Z.le_gt_cases (Z.of_nat (String.length filename)) i) as [Hend|Hin].
    + rewrite decodeLoop_done by lia. discriminate.
    + rewrite decodeLoop_step by lia.
      destruct (get_in_range filename (Z.to_nat i)) as [c Hc]; [lia|].
      rewrite Hc.
      destruct (Ascii.eqb c PERCENT
                && (i <? wrap 64 (Z.of_nat (String.length filename) - 2))).
      * destruct (parseU8_0x _) as [b|what] eqn:Hparse; simpl.
        -- rewrite (wrap_small 32 (i + 2)), wrap_small by lia. apply IH; lia.
        -- unfold parseU8_0x in Hparse.
           destruct (255 <? _); inversion Hparse. discriminate.
      * rewrite wrap_small by lia. apply IH; lia.
Qed.

Lemma decodeFilename_fuel (filename : string) :
  Z.of_nat (String.length filename) < 2 ^ 32 - 3 ->
  decodeFilename filename <> Thrown "out of fuel".
Proof.
  intros Hsize. unfold decodeFilename. apply decodeLoop_fuel; lia.
Qed.

(** The loop of [decodeFilename] on an encoded suffix. *)
Lemma decodeLoop_encoded (rest : string) :
  forall (pre acc : string) (fuel : nat),
    Z.of_nat (String.length (pre +:+ encodeFilename rest)) < 2 ^ 32 ->
    (String.length (encodeFilename rest) <= fuel)%nat ->
    decodeLoop fuel (pre +:+ encodeFilename rest)
      (Z.of_nat (String.length pre)) acc
    = Ok (acc +:+ roundTrip rest).
Proof.
  induction rest as [|c rest IH]; intros pre acc fuel Hsize Hfuel.
  - simpl. rewrite !append_nil_r. apply decodeLoop_done. lia.
  - simpl encodeFilename in *. simpl roundTrip.
    rewrite !length_append in *.
    destruct (encodeChar_cases c) as [(Henc & Hpc & Hrt)|(h1 & h2 & Henc & Hparse)];
      rewrite Henc in *; simpl String.length in *.
    + destruct fuel as [|fuel]; [lia|].
      rewrite decodeLoop_step by (rewrite length_append; simpl; lia).
      rewrite Nat2Z.id. rewrite !append_cons, append_nil_l.
      rewrite get_append_at, Hpc. simpl andb. cbv iota.
      rewrite wrap_small by lia.
      replace (Z.of_nat (String.length pre) + 1)
        with (Z.of_nat (String.length (pre +:+ String c EmptyString)))
        by (rewrite length_append; simpl; lia).
      replace (pre +:+ String c (encodeFilename rest))
        with ((pre +:+ String c EmptyString) +:+ encodeFilename rest)
        by (rewrite append_assoc; reflexivity).
      rewrite IH.
      * rewrite Hrt, append_assoc. reflexivity.
      * rewrite !length_append. simpl. lia.
      * lia.
    + destruct fuel as [|fuel]; [lia|].
      rewrite decodeLoop_step by (rewrite length_append; simpl; lia).
      rewrite Nat2Z.id. rewrite !append_cons, append_nil_l.
      rewrite get_append_at, Ascii.eqb_refl.
      rewrite length_append. simpl String.length.
      rewrite (wrap_small 64) by lia.
      destruct (Z.ltb_spec (Z.of_nat (String.length pre))
                  (Z.of_nat (String.length pre
                             + S (S (S (String.length (encodeFilename rest)))))
                   - 2)) as [_|Hge]; [|lia].
      simpl andb. cbv iota.
      replace (Z.to_nat (Z.of_nat (String.length pre) + 1))
        with (String.length pre + 1)%nat by lia.
      rewrite substring_append_at, Hparse. simpl.
      rewrite (wrap_small 32 (_ + 2)) by lia. rewrite wrap_small by lia.
      replace (Z.of_nat (String.length pre) + 2 + 1)
        with (Z.of_nat (String.length
                          (pre +:+ String PERCENT
                                     (String h1 (String h2 EmptyString)))))
        by (rewrite length_append; simpl; lia).
      replace (pre +:+ String PERCENT
                         (String h1 (String h2 (encodeFilename rest))))
        with ((pre +:+ String PERCENT (String h1 (String h2 EmptyString)))
              +:+ encodeFilename rest)
        by (rewrite append_assoc; reflexivity).
      rewrite IH.
      * rewrite append_assoc. reflexivity.
      * rewrite !length_append. simpl. lia.
      * lia.
Qed.

(** Decoding an encoded name returns, and gives the name with every tab
    replaced by the character 7. *)
Lemma decodeFilename_encodeFilename (s : string) :
  Z.of_nat (String.length (encodeFilename s)) < 2 ^ 32 ->
  decodeFilename (encodeFilename s) = Ok (roundTrip s).
Proof.
  intros Hsize. unfold decodeFilename.
  apply (decodeLoop_encoded s EmptyString EmptyString); simpl; [exact Hsize|lia].
Qed.

Lemma roundTrip_id (s : string) : contains TAB s = false -> roundTrip s = s.
Proof.
  induction s as [|c s IH]; [reflexivity|]. cbn [contains roundTrip].
  intros Hno. apply orb_false_iff in Hno as [Hc Hs].
  rewrite (IH Hs). unfold roundTripChar.
  rewrite Ascii.eqb_sym, Hc. reflexivity.
Qed.

(** X1: a name without a tab, encoded and decoded again, comes back
    unchanged (for encoded names shorter than 2^32 characters). *)
Lemma decodeFilename_encodeFilename_no_tab (s : string) :
  Z.of_nat (String.length (encodeFilename s)) < 2 ^ 32 ->
  contains TAB s = false ->
  decodeFilename (encodeFilename s) = Ok s.
Proof.
  intros Hsize Hno. rewrite (decodeFilename_encodeFilename s Hsize).
  rewrite (roundTrip_id s Hno). reflexivity.
Qed.

End Filenames.

(** C3 (the failing input): a name that is a single tab is encoded as
    [%07] and decoded as the character 7, not as the tab. *)
Theorem decodeFilename_encodeFilename_tab :
  Filename.encodeFilename (String Filename.TAB EmptyString) = "%07"
  /\ Filename.decodeFilename
       (Filename.encodeFilename (String Filename.TAB EmptyString))
     = Ok (String Filename.BEL EmptyString)
  /\ String Filename.BEL EmptyString <> String Filename.TAB EmptyString.
Proof. repeat split; try (vm_compute; reflexivity). discriminate. Qed.

Example decodeFilename_encodeFilename_sample :
  Filename.decodeFilename (Filename.encodeFilename "a b%c") = Ok "a b%c".
Proof. vm_compute. reflexivity. Qed.

(** * Further properties of the two files *)

(** ** File names *)

Section MoreFilenames.
Import Filename.
Local Open Scope Z_scope.

Lemma contains_append (c : ascii) (a b : string) :
  contains c (a +:+ b) = contains c a || contains c b.
Proof.
  induction a as [|d a IH]; [reflexivity|].
  rewrite append_cons. cbn [contains]. rewrite IH, orb_assoc. reflexivity.
Qed.

(** The seven cases of the [switch] of [encodeFilename]. *)
Lemma encodeChar_spec (c : ascii) :
  (c = TAB /\ encodeChar c = "%07")
  \/ (c = LF /\ encodeChar c = "%0A")
  \/ (c = VT /\ encodeChar c = "%0B")
  \/ (c = CR /\ encodeChar c = "%0D")
  \/ (c = PERCENT /\ encodeChar c = "%25")
  \/ (c = SPACE /\ encodeChar c = "%20")
  \/ (c <> TAB /\ c <> LF /\ c <> VT /\ c <> CR /\ c <> PERCENT /\ c <> SPACE
      /\ encodeChar c = String c EmptyString).
Proof.
  unfold encodeChar.
  destruct (Ascii.eqb_spec c TAB) as [->|Htab]; [tauto|].
  destruct (Ascii.eqb_spec c LF) as [->|Hlf]; [tauto|].
  destruct (Ascii.eqb_spec c VT) as [->|Hvt]; [tauto|].
  destruct (Ascii.eqb_spec c CR) as [->|Hcr]; [tauto|].
  destruct (Ascii.eqb_spec c PERCENT) as [->|Hpc]; [tauto|].
  destruct (Ascii.eqb_spec c SPACE) as [->|Hsp]; [tauto|].
  do 6 right. auto 10.
Qed.

(** X3: an encoded name contains no tab, line feed, vertical tab, carriage
    return or space. *)
Theorem encodeFilename_no_whitespace (s : string) :
  contains TAB (encodeFilename s) = false
  /\ contains LF (encodeFilename s) = false
  /\ contains VT (encodeFilename s) = false
  /\ contains CR (encodeFilename s) = false
  /\ contains SPACE (encodeFilename s) = false.
Proof.
  induction s as [|c s (Ht & Hl & Hv & Hc & Hs)]; [repeat split; reflexivity|].
  cbn [encodeFilename]. rewrite !contains_append, Ht, Hl, Hv, Hc, Hs, !orb_false_r.
  destruct (encodeChar_spec c)
    as [[-> ->]|[[-> ->]|[[-> ->]|[[-> ->]|[[-> ->]|[[-> ->]|
        (Htab & Hlf & Hvt & Hcr & Hpc & Hsp & ->)]]]]]];
    try (repeat split; reflexivity).
  cbn [contains]. rewrite !orb_false_r.
  repeat split; apply Ascii.eqb_neq; congruence.
Qed.

(** X4: encoding is done character by character: the encoding of a
    concatenation is the concatenation of the encodings, and an encoded
    name is at least as long as the name and at most three times as long. *)
Theorem encodeFilename_append_length (a b : string) :
  encodeFilename (a +:+ b) = encodeFilename a +:+ encodeFilename b
  /\ (String.length a <= String.length (encodeFilename a)
      <= 3 * String.length a)%nat.
Proof.
  split.
  - induction a as [|c a IH]; [reflexivity|].
    rewrite append_cons. cbn [encodeFilename]. rewrite IH, append_assoc.
    reflexivity.
  - induction a as [|c a IH]; [simpl; lia|].
    cbn [encodeFilename String.length]. rewrite length_append.
    destruct (encodeChar_spec c)
      as [[_ ->]|[[_ ->]|[[_ ->]|[[_ ->]|[[_ ->]|[[_ ->]|
          (_ & _ & _ & _ & _ & _ & ->)]]]]]]; cbn [String.length]; lia.
Qed.

Lemma encodeChar_append_inj (c1 c2 : ascii) (e1 e2 : string) :
  encodeChar c1 +:+ e1 = encodeChar c2 +:+ e2 -> c1 = c2 /\ e1 = e2.
Proof.
  destruct (encodeChar_spec c1)
    as [[-> ->]|[[-> ->]|[[-> ->]|[[-> ->]|[[-> ->]|[[-> ->]|
        (Htab & Hlf & Hvt & Hcr & Hpc & Hsp & ->)]]]]]];
    destruct (encodeChar_spec c2)
      as [[-> ->]|[[-> ->]|[[-> ->]|[[-> ->]|[[-> ->]|[[-> ->]|
          (Htab' & Hlf' & Hvt' & Hcr' & Hpc' & Hsp' & ->)]]]]]];
    rewrite ?append_cons, ?append_nil_l; intros Heq;
    try (injection Heq as Heq; subst; auto; fail);
    try discriminate;
    try (injection Heq as Hc _; exfalso; unfold PERCENT in *; congruence).
Qed.

(** X5: different names have different encodings. *)
Theorem encodeFilename_inj (s1 s2 : string) :
  encodeFilename s1 = encodeFilename s2 -> s1 = s2.
Proof.
  revert s2. induction s1 as [|c1 s1 IH]; intros [|c2 s2] Heq.
  - reflexivity.
  - exfalso. cbn [encodeFilename] in Heq.
    destruct (encodeChar_spec c2)
      as [[_ He]|[[_ He]|[[_ He]|[[_ He]|[[_ He]|[[_ He]|
          (_ & _ & _ & _ & _ & _ & He)]]]]]];
      rewrite He in Heq; discriminate.
  - exfalso. cbn [encodeFilename] in Heq.
    destruct (encodeChar_spec c1)
      as [[_ He]|[[_ He]|[[_ He]|[[_ He]|[[_ He]|[[_ He]|
          (_ & _ & _ & _ & _ & _ & He)]]]]]];
      rewrite He in Heq; discriminate.
  - cbn [encodeFilename] in Heq.
    apply encodeChar_append_inj in Heq as [-> Htail].
    rewrite (IH s2 Htail). reflexivity.
Qed.

(** The loop of [decodeFilename] on a suffix without a percent sign. *)
Lemma decodeLoop_plain (rest : string) :
  forall (pre acc : string) (fuel : nat),
    contains PERCENT rest = false ->
    Z.of_nat (String.length (pre +:+ rest)) < 2 ^ 32 ->
    (String.length rest <= fuel)%nat ->
    decodeLoop fuel (pre +:+ rest) (Z.of_nat (String.length pre)) acc
    = Ok (acc +:+ rest).
Proof.
  induction rest as [|c rest IH]; intros pre acc fuel Hno Hsize Hfuel.
  - rewrite !append_nil_r. apply decodeLoop_done. lia.
  - cbn [contains] in Hno. apply orb_false_iff in Hno as [Hc Hrest].
    rewrite length_append in Hsize. cbn [String.length] in Hsize, Hfuel.
    destruct fuel as [|fuel]; [lia|].
    rewrite decodeLoop_step by (rewrite length_append; cbn [String.length]; lia).
    rewrite Nat2Z.id, get_append_at, Ascii.eqb_sym, Hc. simpl andb. cbv iota.
    rewrite wrap_small by lia.
    replace (Z.of_nat (String.length pre) + 1)
      with (Z.of_nat (String.length (pre +:+ String c EmptyString)))
      by (rewrite length_append; simpl; lia).
    replace (pre +:+ String c rest)
      with ((pre +:+ String c EmptyString) +:+ rest)
      by (rewrite append_assoc; reflexivity).
    rewrite IH.
    + rewrite append_assoc. reflexivity.
    + exact Hrest.
    + rewrite !length_append. simpl. lia.
    + lia.
Qed.

(** X2: [decodeFilename] returns a name without a percent sign as it is. *)
Theorem decodeFilename_plain (s : string) :
  Z.of_nat (String.length s) < 2 ^ 32 ->
  contains PERCENT s = false ->
  decodeFilename s = Ok s.
Proof.
  intros Hsize Hno. unfold decodeFilename.
  apply (decodeLoop_plain s EmptyString EmptyString); simpl; auto.
Qed.

End MoreFilenames.

(** [decodeFilename] on the plain name [part.nc]. *)
Lemma decodeFilename_plain_witness :
  Filename.decodeFilename "part.nc" = Ok "part.nc".
Proof. apply decodeFilename_plain; [simpl; lia|reflexivity]. Defined.

(** A name with a space, a percent sign and a line feed. *)
Lemma decodeFilename_encodeFilename_no_tab_witness :
  Filename.decodeFilename
    (Filename.encodeFilename
       (String.append "my part 50%.nc" (String Filename.LF EmptyString)))
  = Ok (String.append "my part 50%.nc" (String Filename.LF EmptyString)).
Proof.
  apply decodeFilename_encodeFilename_no_tab;
    [vm_compute; reflexivity|reflexivity].
Defined.

(** ** Resolution *)

Lemma divisor_pos (mode : ResolutionMode) : 0 < Project.divisor mode.
Proof. destruct mode; simpl; lra. Qed.

Lemma getVolume_empty : cb.getVolume cb.Rectangle3D_empty < 0.
Proof.
  pose proof DBL_MAX_pos as Hm.
  unfold cb.getVolume, cb.getWidth, cb.getLength, cb.getHeight,
    cb.Rectangle3D_empty. simpl.
  set (m := cb.DBL_MAX) in *.
  assert (Hsq : 0 < (m + m) * (m + m)) by (apply Rmult_lt_0_compat; lra).
  replace (1 * (- m - m) * (- m - m) * (- m - m))
    with (- ((m + m) * (m + m) * (m + m))) by ring.
  assert (0 < (m + m) * (m + m) * (m + m)) by (apply Rmult_lt_0_compat; lra).
  lra.
Qed.

Lemma pow_pos (v e : R) : 0 < v -> 0 < cb.pow v e.
Proof.
  intros Hv. unfold cb.pow. destruct (decide (v = 0)); [lra|].
  unfold Rpower. apply exp_pos.
Qed.

Lemma computeResolution_positive (mode : ResolutionMode)
  (bounds : cb.Rectangle3D) :
  mode <> RESOLUTION_MANUAL -> 0 < cb.getVolume bounds ->
  Project.computeResolution mode bounds
  = Rpower (cb.getVolume bounds / Project.divisor mode) (1 / 3).
Proof.
  intros Hmode Hvol. unfold Project.computeResolution.
  rewrite (bool_decide_eq_false_2 _ Hmode).
  rewrite bool_decide_eq_false_2.
  - simpl. unfold cb.pow. destruct (decide _) as [Hz|_]; [|reflexivity].
    pose proof (divisor_pos mode) as Hd.
    assert (0 < cb.getVolume bounds / Project.divisor mode)
      by (apply Rdiv_lt_0_compat; assumption). lra.
  - intros ->. pose proof getVolume_empty. lra.
Qed.

(** X6: in an automatic mode and on bounds of positive volume, the
    resolution is positive; it is at most 1 when the volume is at most the
    divisor of the mode and at least 1 when the volume is at least the
    divisor. *)
Theorem computeResolution_against_one (mode : ResolutionMode)
  (bounds : cb.Rectangle3D) :
  mode <> RESOLUTION_MANUAL -> 0 < cb.getVolume bounds ->
  0 < Project.computeResolution mode bounds
  /\ (cb.getVolume bounds <= Project.divisor mode ->
      Project.computeResolution mode bounds <= 1)
  /\ (Project.divisor mode <= cb.getVolume bounds ->
      1 <= Project.computeResolution mode bounds).
Proof.
  intros Hmode Hvol. pose proof (divisor_pos mode) as Hd.
  assert (Hq : 0 < cb.getVolume bounds / Project.divisor mode)
    by (apply Rdiv_lt_0_compat; assumption).
  rewrite (computeResolution_positive mode bounds Hmode Hvol).
  assert (Hone : Rpower 1 (1 / 3) = 1)
    by (unfold Rpower; rewrite ln_1, Rmult_0_r; apply exp_0).
  split; [unfold Rpower; apply exp_pos|]. split; intros Hcmp.
  - rewrite <- Hone at 2. apply Rle_Rpower_l; [lra|]. split; [exact Hq|].
    apply (Rmult_le_reg_r (Project.divisor mode)); [exact Hd|].
    unfold Rdiv. rewrite Rmult_assoc, Rinv_l by lra. lra.
  - rewrite <- Hone at 1. apply Rle_Rpower_l; [lra|]. split; [lra|].
    apply (Rmult_le_reg_r (Project.divisor mode)); [exact Hd|].
    unfold Rdiv. rewrite Rmult_assoc, Rinv_l by lra. lra.
Qed.

(** The block of stock holds 250000 cubic millimetres: in medium mode its
    resolution is 1. *)
Lemma computeResolution_against_one_witness :
  Project.computeResolution RESOLUTION_MEDIUM stockBounds = 1.
Proof.
  assert (Hvol : cb.getVolume stockBounds = 250000).
  { unfold cb.getVolume, cb.getWidth, cb.getLength, cb.getHeight, stockBounds.
    simpl. lra. }
  destruct (computeResolution_against_one RESOLUTION_MEDIUM stockBounds)
    as (_ & Hle & Hge); [discriminate|lra|].
  apply Rle_antisym; [apply Hle|apply Hge]; rewrite Hvol; simpl; lra.
Defined.

(** X7: on bounds of positive volume a finer mode gives a smaller
    resolution: very high < high < medium < low. *)
Theorem computeResolution_decreasing (bounds : cb.Rectangle3D) :
  0 < cb.getVolume bounds ->
  Project.computeResolution RESOLUTION_VERY_HIGH bounds
  < Project.computeResolution RESOLUTION_HIGH bounds
  /\ Project.computeResolution RESOLUTION_HIGH bounds
     < Project.computeResolution RESOLUTION_MEDIUM bounds
  /\ Project.computeResolution RESOLUTION_MEDIUM bounds
     < Project.computeResolution RESOLUTION_LOW bounds.
Proof.
  intros Hvol.
  rewrite !computeResolution_positive by (discriminate || assumption).
  simpl Project.divisor.
  assert (Hstep : forall d1 d2, 0 < d1 < d2 ->
    Rpower (cb.getVolume bounds / d2) (1 / 3)
    < Rpower (cb.getVolume bounds / d1) (1 / 3)).
  { intros d1 d2 [H1 H2]. apply Rlt_Rpower_l; [lra|]. split.
    - apply Rdiv_lt_0_compat; lra.
    - unfold Rdiv. apply Rmult_lt_compat_l; [exact Hvol|].
      apply Rinv_lt_contravar; [apply Rmult_lt_0_compat; lra|exact H2]. }
  repeat split; apply Hstep; lra.
Qed.

Lemma computeResolution_decreasing_witness :
  Project.computeResolution RESOLUTION_HIGH stockBounds
  < Project.computeResolution RESOLUTION_MEDIUM stockBounds.
Proof.
  apply (computeResolution_decreasing stockBounds).
  unfold cb.getVolume, cb.getWidth, cb.getLength, cb.getHeight, stockBounds.
  simpl. lra.
Defined.

(** ** The angle of a tool *)

(** X8: for a tool with positive radius and length the angle before
    rounding lies strictly between 0 and 180 degrees, and [getAngle] lies
    between 0 and 180 degrees. *)
Theorem getAngle_range (tool : Tool.t) :
  0 < Tool.radius tool -> 0 < Tool.length tool ->
  0 < Tool.exactAngle tool < 180 /\ 0 <= Tool.getAngle tool <= 180.
Proof.
  intros Hr Hl.
  assert (Hq : 0 < Tool.length tool / Tool.radius tool)
    by (apply Rdiv_lt_0_compat; assumption).
  pose proof (atan_pos_range _ Hq) as Ha.
  assert (Hexact : 0 < Tool.exactAngle tool < 180).
  { unfold Tool.exactAngle, Tool.getLength, Tool.getRadius.
    replace (360 * atan (Tool.length tool / Tool.radius tool) / PI)
      with (360 * (atan (Tool.length tool / Tool.radius tool) / PI))
      by (field; apply PI_neq0).
    lra. }
  split; [exact Hexact|].
  unfold Tool.getAngle. fold (Tool.exactAngle tool).
  pose proof (round_range (Tool.exactAngle tool * 100) 18000) as Hround.
  lra.
Qed.

(** The cutter of radius 5 and length 1. *)
Lemma getAngle_range_witness : 0 <= Tool.getAngle cutter <= 180.
Proof. apply (getAngle_range cutter); simpl; lra. Defined.

(** X9: an angle of [k] hundredths of a degree, strictly between 0 and 180
    degrees, given to [setLengthFromAngle] on a tool of positive radius,
    is the angle [getAngle] then returns, and the length set is positive. *)
Theorem getAngle_setLengthFromAngle (tool : Tool.t) (k : Z) :
  0 < Tool.radius tool -> (0 < k < 18000)%Z ->
  Tool.getAngle (Tool.setLengthFromAngle (IZR k / 100) tool) = IZR k / 100
  /\ 0 < Tool.length (Tool.setLengthFromAngle (IZR k / 100) tool).
Proof.
  intros Hr [Hk0 Hk1]. pose proof PI_above_3 as Hpi.
  apply IZR_lt in Hk0, Hk1.
  set (c := 1 - IZR k / 100 / 180).
  assert (Hc : 0 < c < 1) by (unfold c; lra).
  assert (Htheta : 0 < c * PI / 2 < PI / 2).
  { assert (0 < c * PI) by (apply Rmult_lt_0_compat; lra).
    assert (c * PI < 1 * PI) by (apply Rmult_lt_compat_r; lra). lra. }
  assert (Htan : 0 < tan (c * PI / 2)) by (apply tan_gt_0; lra).
  split.
  - unfold Tool.getAngle, Tool.setLengthFromAngle, Tool.getLength,
      Tool.getRadius. simpl. fold c.
    replace (Tool.radius tool * tan (c * PI / 2) / Tool.radius tool)
      with (tan (c * PI / 2)) by (field; lra).
    rewrite atan_tan by lra.
    replace ((180 - 360 * (c * PI / 2) / PI) * 100) with (IZR k)
      by (unfold c; field; lra).
    rewrite (round_to k); [reflexivity|lra|lra].
  - unfold Tool.setLengthFromAngle, Tool.getRadius. simpl. fold c.
    apply Rmult_lt_0_compat; assumption.
Qed.

(** A 60 degree angle on the cutter. *)
Lemma getAngle_setLengthFromAngle_witness :
  Tool.getAngle (Tool.setLengthFromAngle (6000 / 100) cutter) = 6000 / 100.
Proof.
  apply (getAngle_setLengthFromAngle cutter 6000); [simpl; lra|lia].
Defined.

(** ** Reading tools *)

Section ReadTools.
Context {conv : StringConv}.

Lemma afterTokens_fields (attrs : gmap string string) (tool : Tool.t) :
  Tool.number (Tool.afterTokens attrs tool) = Tool.number tool
  /\ Tool.pocket (Tool.afterTokens attrs tool) = Tool.pocket tool
  /\ Tool.description (Tool.afterTokens attrs tool) = Tool.description tool.
Proof.
  unfold Tool.afterTokens, try_catch.
  destruct (attrs !! "units") as [tu|];
    [destruct (ToolUnits_parse tu); simpl|];
    (destruct (attrs !! "shape") as [ts|];
     [destruct (ToolShape_parse ts); simpl|]); auto.
Qed.

(** X10: when [Tool::read(XMLAttributes)] succeeds, the length and the
    radius of the tool are the numbers read from [length] and from
    [radius] (or half the number read from [diameter] when there is no
    [radius]), multiplied by 25.4 exactly when the units the tool ends up
    with are inches; number, pocket and description are as before. *)
Theorem readXML_scaled (attrs : gmap string string) (tool tool' : Tool.t) :
  Tool.readXML attrs tool = Ok tool' ->
  let scale := if decide (Tool.units tool' = UNITS_INCH) then 25.4 else 1 in
  (exists text v,
     attrs !! "length" = Some text /\ String_parseDouble text = Ok v
     /\ Tool.length tool' = v * scale)
  /\ (exists text v,
        String_parseDouble text = Ok v
        /\ ((attrs !! "radius" = Some text /\ Tool.radius tool' = v * scale)
            \/ (attrs !! "radius" = None /\ attrs !! "diameter" = Some text
                /\ Tool.radius tool' = v / 2 * scale)))
  /\ Tool.number tool' = Tool.number tool
  /\ Tool.pocket tool' = Tool.pocket tool
  /\ Tool.description tool' = Tool.description tool.
Proof.
  intros Hread. pose proof (readXML_fields _ _ _ Hread) as (Hunits & _ & _).
  cbv zeta. rewrite Hunits.
  destruct (afterTokens_fields attrs tool) as (Hn & Hp & Hd).
  revert Hread Hn Hp Hd. unfold Tool.readXML. fold (Tool.afterTokens attrs tool).
  unfold Tool.getUnits.
  generalize (Tool.afterTokens attrs tool) as base. intros base Hread Hn Hp Hd.
  destruct (attrs !! "length") as [tl|]; simpl in Hread; [|discriminate].
  destruct (String_parseDouble tl) as [vl|] eqn:Hl; simpl in Hread;
    [|discriminate].
  assert (Hlast : forall cur : Tool.t,
    match attrs !! "snub_diameter" with
    | Some text =>
        v ← String_parseDouble text;
        Ok (Tool.setSnubDiameter
              (v * (if decide (Tool.units base = UNITS_INCH)
                    then 25.4 else 1)) cur)
    | None => Ok cur
    end = Ok tool' ->
    Tool.length tool' = Tool.length cur /\ Tool.radius tool' = Tool.radius cur
    /\ Tool.number tool' = Tool.number cur
    /\ Tool.pocket tool' = Tool.pocket cur
    /\ Tool.description tool' = Tool.description cur).
  { intros cur Hend. destruct (attrs !! "snub_diameter") as [ts|].
    - destruct (String_parseDouble ts); simpl in Hend; [|discriminate].
      injection Hend as <-. simpl. auto.
    - injection Hend as <-. auto. }
  destruct (attrs !! "radius") as [tr|]; simpl in Hread.
  - destruct (String_parseDouble tr) as [vr|] eqn:Hr; simpl in Hread;
      [|discriminate].
    apply Hlast in Hread as (Hl' & Hr' & Hn' & Hp' & Hd'). simpl in *.
    repeat split; try congruence.
    + exists tl, vl. auto.
    + exists tr, vr. auto.
  - destruct (attrs !! "diameter") as [td|]; simpl in Hread; [|discriminate].
    destruct (String_parseDouble td) as [vd|] eqn:Hdm; simpl in Hread;
      [|discriminate].
    apply Hlast in Hread as (Hl' & Hr' & Hn' & Hp' & Hd'). simpl in *.
    repeat split; try congruence.
    + exists tl, vl. auto.
    + exists td, vd. auto.
Qed.

(** X11: a [radius] attribute takes precedence: when it is present, the
    [diameter] attribute is not looked at. *)
Theorem readXML_radius_first (attrs : gmap string string) (tool : Tool.t)
  (text : string) :
  attrs !! "radius" = Some text ->
  Tool.readXML attrs tool = Tool.readXML (delete "diameter" attrs) tool.
Proof.
  intros Hr. unfold Tool.readXML.
  assert (Hne : forall key : string,
    key <> "diameter" -> delete "diameter" attrs !! key = attrs !! key).
  { intros key Hkey. apply lookup_delete_ne. congruence. }
  rewrite (Hne "units"), (Hne "shape"), (Hne "length"), (Hne "radius"),
    (Hne "snub_diameter") by discriminate.
  rewrite Hr. reflexivity.
Qed.

(** X12: unlike the XML form, [Tool::read(JSON::Value)] throws when the
    text of [units] or of [shape] does not parse. *)
Theorem readJSON_bad_token (value : gmap string JSONValue) (tool : Tool.t)
  (text : string) :
  (value !! "units" = Some (JString text)
   /\ is_Ok (ToolUnits_parse text) = false)
  \/ (value !! "shape" = Some (JString text)
      /\ is_Ok (ToolShape_parse text) = false) ->
  is_Ok (Tool.readJSON value tool) = false.
Proof.
  intros Hbad. unfold Tool.readJSON.
  destruct (Tool.getU32 value "number" (Tool.number tool)) as [n|];
    [simpl|reflexivity].
  destruct Hbad as [[Hu Hfail]|[Hs Hfail]].
  - rewrite Hu. destruct (ToolUnits_parse text); [discriminate|reflexivity].
  - destruct (match value !! "units" with
              | Some (JString t) => _
              | _ => _
              end) as [cur|]; [simpl|reflexivity].
    rewrite Hs. destruct (ToolShape_parse text); [discriminate|reflexivity].
Qed.

(** X13: when [Tool::read(JSON::Value)] succeeds, an absent [number]
    leaves the number as it was; [units] or [shape] that is absent or not a
    string, and [length], [diameter] or [snub_diameter] that is absent or
    not a number, leave the tool's value as it is; the pocket is never
    changed; an absent [description] resets the description to the empty
    string. *)
Theorem readJSON_absent_keys (value : gmap string JSONValue)
  (tool tool' : Tool.t) :
  Tool.readJSON value tool = Ok tool' ->
  (value !! "number" = None -> Tool.number tool' = Tool.number tool)
  /\ ((forall text, value !! "units" <> Some (JString text)) ->
      Tool.units tool' = Tool.units tool)
  /\ ((forall text, value !! "shape" <> Some (JString text)) ->
      Tool.shape tool' = Tool.shape tool)
  /\ ((forall v, value !! "length" <> Some (JNumber v)) ->
      Tool.length tool' = Tool.length tool)
  /\ ((forall v, value !! "diameter" <> Some (JNumber v)) ->
      Tool.radius tool' = Tool.radius tool)
  /\ ((forall v, value !! "snub_diameter" <> Some (JNumber v)) ->
      Tool.snubDiameter tool' = Tool.snubDiameter tool)
  /\ (value !! "description" = None -> Tool.description tool' = EmptyString)
  /\ Tool.pocket tool' = Tool.pocket tool.
Proof.
  unfold Tool.readJSON. intros Hread.
  destruct (Tool.getU32 value "number" (Tool.number tool)) as [n|] eqn:Hn;
    simpl in Hread; [|discriminate].
  assert (Hnum : value !! "number" = None -> n = Tool.number tool).
  { intros Hnone. unfold Tool.getU32 in Hn. rewrite Hnone in Hn.
    congruence. }
  destruct (match value !! "units" with
            | Some (JString text) => _
            | _ => _
            end) as [t1|] eqn:Hu; simpl in Hread; [|discriminate].
  assert (H1 : Tool.number t1 = n /\ Tool.pocket t1 = Tool.pocket tool
    /\ Tool.shape t1 = Tool.shape tool /\ Tool.length t1 = Tool.length tool
    /\ Tool.radius t1 = Tool.radius tool
    /\ Tool.snubDiameter t1 = Tool.snubDiameter tool
    /\ ((forall text, value !! "units" <> Some (JString text)) ->
        Tool.units t1 = Tool.units tool)).
  { destruct (value !! "units") as [[v|text]|].
    - injection Hu as <-. repeat split.
    - destruct (ToolUnits_parse text); simpl in Hu; [|discriminate].
      injection Hu as <-. repeat split. intros Hno. exfalso.
      exact (Hno text eq_refl).
    - injection Hu as <-. repeat split. }
  destruct H1 as (N1 & P1 & S1 & L1 & R1' & D1 & U1).
  destruct (match value !! "shape" with
            | Some (JString text) => _
            | _ => _
            end) as [t2|] eqn:Hs; simpl in Hread; [|discriminate].
  assert (H2 : Tool.number t2 = n /\ Tool.pocket t2 = Tool.pocket tool
    /\ Tool.units t2 = Tool.units t1 /\ Tool.length t2 = Tool.length tool
    /\ Tool.radius t2 = Tool.radius tool
    /\ Tool.snubDiameter t2 = Tool.snubDiameter tool
    /\ ((forall text, value !! "shape" <> Some (JString text)) ->
        Tool.shape t2 = Tool.shape tool)).
  { destruct (value !! "shape") as [[v|text]|].
    - injection Hs as <-. repeat split; intros; first [assumption|reflexivity].
    - destruct (ToolShape_parse text); simpl in Hs; [|discriminate].
      injection Hs as <-.
      repeat split; simpl; try first [assumption|reflexivity].
      intros Hno. exfalso. exact (Hno text eq_refl).
    - injection Hs as <-. repeat split; intros; first [assumption|reflexivity]. }
  destruct H2 as (N2 & P2 & U2 & L2 & R2' & D2 & S2).
  destruct (Tool.getStringOr value "description" EmptyString) as [d|] eqn:Hd;
    simpl in Hread; [|discriminate].
  assert (Hdesc : value !! "description" = None -> d = EmptyString).
  { intros Hnone. unfold Tool.getStringOr in Hd. rewrite Hnone in Hd.
    congruence. }
  injection Hread as <-. unfold Tool.setDiameter.
  destruct (value !! "length") as [[?|?]|];
    destruct (value !! "diameter") as [[?|?]|];
    destruct (value !! "snub_diameter") as [[?|?]|];
    simpl; repeat split; intros;
    first [ congruence
          | rewrite N2; auto; fail
          | rewrite U2; auto; fail
          | auto; fail
          | match goal with
            | H : forall _, _ <> _ |- _ => exact (False_ind _ (H _ eq_refl))
            end ].
Qed.

End ReadTools.

Lemma encodeFilename_inj_witness :
  Filename.encodeFilename "a b" = Filename.encodeFilename "a b"
  /\ "a b" = "a b".
Proof.
  split; [reflexivity|].
  apply (encodeFilename_inj "a b" "a b"). reflexivity.
Defined.

Lemma read_inchAttrs :
  Tool.readXML (conv := Reference.conv) inchAttrs (Tool.new 1 0 UNITS_MM)
  = Ok (Tool.setRadius (4 / 2 * 25.4)
          (Tool.setLength (2 * 25.4)
             (Tool.setUnits UNITS_INCH (Tool.new 1 0 UNITS_MM)))).
Proof.
  assert (Hu : inchAttrs !! "units" = Some "INCH") by (vm_compute; reflexivity).
  assert (Hs : inchAttrs !! "shape" = None) by (vm_compute; reflexivity).
  assert (Hl : inchAttrs !! "length" = Some "2") by (vm_compute; reflexivity).
  assert (Hr : inchAttrs !! "radius" = None) by (vm_compute; reflexivity).
  assert (Hd : inchAttrs !! "diameter" = Some "4")
    by (vm_compute; reflexivity).
  assert (Hn : inchAttrs !! "snub_diameter" = None)
    by (vm_compute; reflexivity).
  unfold Tool.readXML. rewrite Hu, Hs, Hl, Hr, Hd, Hn. reflexivity.
Qed.

Lemma readXML_scaled_witness :
  exists tool',
    Tool.readXML (conv := Reference.conv) inchAttrs (Tool.new 1 0 UNITS_MM)
    = Ok tool'
    /\ Tool.number tool' = 1%Z /\ Tool.description tool' = EmptyString.
Proof.
  pose proof read_inchAttrs as Hread. eexists. split; [exact Hread|].
  destruct (readXML_scaled (conv := Reference.conv) _ _ _ Hread)
    as (_ & _ & Hn & _ & Hd).
  split; assumption.
Defined.

Lemma readXML_radius_first_witness :
  Tool.readXML (conv := Reference.conv) radiusAttrs (Tool.new 1 0 UNITS_MM)
  = Tool.readXML (conv := Reference.conv) (delete "diameter" radiusAttrs)
      (Tool.new 1 0 UNITS_MM).
Proof.
  apply (readXML_radius_first (conv := Reference.conv) radiusAttrs _ "1").
  vm_compute. reflexivity.
Defined.

Lemma readJSON_bad_token_witness :
  is_Ok (Tool.readJSON (conv := Reference.conv) furlongValue
           (Tool.new 1 0 UNITS_MM)) = false.
Proof.
  apply (readJSON_bad_token (conv := Reference.conv) _ _ "furlong").
  left. split; vm_compute; reflexivity.
Defined.

Lemma readJSON_absent_keys_witness :
  exists tool',
    Tool.readJSON (conv := Reference.conv) ∅ inchTool = Ok tool'
    /\ Tool.length tool' = Tool.length inchTool
    /\ Tool.description tool' = EmptyString.
Proof.
  assert (Hread :
    Tool.readJSON (conv := Reference.conv) ∅ inchTool
    = Ok (Tool.setDescription EmptyString
            (Tool.setNumber (Tool.number inchTool) inchTool)))
    by reflexivity.
  eexists. split; [exact Hread|].
  destruct (readJSON_absent_keys (conv := Reference.conv) _ _ _ Hread)
    as (_ & _ & _ & Hl & _ & _ & Hd & _).
  split; [apply Hl|apply Hd]; [intros v; rewrite lookup_empty; discriminate|].
  apply lookup_empty.
Defined.

(** ** The setters of a project *)

Section MoreProject.
Context {conv : StringConv} {lib : SweepLib}.

Lemma getAutomaticWorkpiece_after_set (x : bool) (p : Project.t) :
  Project.getAutomaticWorkpiece (Project.setAutomaticWorkpiece x p)
  = x || (Project.empty (Project.workpieceMin p)
          && Project.empty (Project.workpieceMax p)).
Proof.
  unfold Project.setAutomaticWorkpiece.
  destruct (negb (eqb (Project.getAutomaticWorkpiece p) x)); reflexivity.
Qed.

(** X14: every setter of a project is idempotent: calling it a second time
    with the same value changes nothing more. *)
Theorem setters_idempotent (p : Project.t) (u : ToolUnits) (x : R)
  (f : string) (b : bool) (m : ResolutionMode) :
  Project.setUnits u (Project.setUnits u p) = Project.setUnits u p
  /\ Project.setWorkpieceMargin x (Project.setWorkpieceMargin x p)
     = Project.setWorkpieceMargin x p
  /\ Project.setFilename f (Project.setFilename f p) = Project.setFilename f p
  /\ Project.setResolution x (Project.setResolution x p)
     = Project.setResolution x p
  /\ Project.setAutomaticWorkpiece b (Project.setAutomaticWorkpiece b p)
     = Project.setAutomaticWorkpiece b p
  /\ (forall p', Project.setResolutionMode m p = Ok p' ->
      Project.setResolutionMode m p' = Ok p').
Proof.
  repeat split.
  - unfold Project.setUnits, Project.getUnits.
    destruct (decide (u = Project.units p)) as [Hu|Hu].
    + destruct (decide (u = Project.units p)); [reflexivity|contradiction].
    + simpl. destruct (decide (u = u)); [reflexivity|congruence].
  - unfold Project.setWorkpieceMargin, Project.getWorkpieceMargin.
    destruct (decide (Project.workpieceMargin p = x)) as [Hx|Hx].
    + destruct (decide (Project.workpieceMargin p = x));
        [reflexivity|contradiction].
    + simpl. destruct (decide (x = x)); [reflexivity|congruence].
  - unfold Project.setFilename. destruct f as [|c f]; [reflexivity|]. simpl.
    destruct (bool_decide (Project.filename p = String c f)) eqn:Hf.
    + rewrite Hf. reflexivity.
    + simpl. rewrite bool_decide_eq_true_2 by reflexivity. reflexivity.
  - unfold Project.setResolution, Project.getResolution,
      Project.getResolutionMode.
    destruct (decide (x = Project.resolution p)) as [Hx|Hx].
    + destruct (decide (x = Project.resolution p));
        [reflexivity|contradiction].
    + simpl.
      destruct (decide (Project.resolutionMode p = RESOLUTION_MANUAL)); simpl;
        (destruct (decide (x = x)); [reflexivity|congruence]).
  - unfold Project.setAutomaticWorkpiece at 1.
    rewrite getAutomaticWorkpiece_after_set.
    destruct b; simpl.
    + unfold Project.setAutomaticWorkpiece.
      destruct (negb (eqb (Project.getAutomaticWorkpiece p) true));
        reflexivity.
    + destruct (Project.empty (Project.workpieceMin p)
                && Project.empty (Project.workpieceMax p)) eqn:He; simpl.
      * assert (Hauto : Project.getAutomaticWorkpiece p = true)
          by (unfold Project.getAutomaticWorkpiece; rewrite He;
              apply orb_true_r).
        unfold Project.setAutomaticWorkpiece. rewrite Hauto. reflexivity.
      * unfold Project.setAutomaticWorkpiece.
        destruct (negb (eqb (Project.getAutomaticWorkpiece p) false));
          reflexivity.
  - intros p'. unfold Project.setResolutionMode.
    destruct (decide (m = Project.getResolutionMode p)) as [Hm|Hm].
    + intros [= <-].
      destruct (decide (m = Project.getResolutionMode p));
        [reflexivity|contradiction].
    + intros Hup. apply updateResolution_fields in Hup as (Hmode & _).
      unfold Project.getResolutionMode. simpl in Hmode.
      destruct (decide (m = Project.resolutionMode p'));
        [reflexivity|congruence].
Qed.

(** X15: after [setAutomaticWorkpiece(x)] the automatic workpiece reads as
    [x] only if one of the two bound texts is not empty: without bounds it
    reads as enabled whatever was set, and the project is dirty exactly
    when it was dirty before or [x] differs from what was read before. *)
Theorem setAutomaticWorkpiece_reads_back (x : bool) (p : Project.t) :
  Project.getAutomaticWorkpiece (Project.setAutomaticWorkpiece x p)
  = x || (Project.empty (Project.workpieceMin p)
          && Project.empty (Project.workpieceMax p))
  /\ Project.isDirty (Project.setAutomaticWorkpiece x p)
     = Project.isDirty p || negb (eqb (Project.getAutomaticWorkpiece p) x).
Proof.
  split; [apply getAutomaticWorkpiece_after_set|].
  unfold Project.setAutomaticWorkpiece, Project.isDirty.
  destruct (negb (eqb (Project.getAutomaticWorkpiece p) x)); simpl.
  - symmetry. apply orb_true_r.
  - symmetry. apply orb_false_r.
Qed.

Lemma updateResolution_shape (p p' : Project.t) :
  Project.updateResolution p = Ok p' ->
  p' = Project.with_resolution (Project.resolution p') p.
Proof.
  unfold Project.updateResolution.
  destruct (decide (Project.getResolutionMode p <> RESOLUTION_MANUAL))
    as [Hm|Hm]; [|intros [= <-]; destruct p; reflexivity].
  destruct (Project.getWorkpieceBounds p) as [bounds|what]; simpl;
    [|discriminate].
  intros [= <-].
  unfold Project.setResolution, Project.getResolution,
    Project.getResolutionMode in *.
  destruct (decide (_ = Project.resolution p)) as [Hx|Hx];
    [destruct p; reflexivity|].
  simpl. destruct (decide (Project.resolutionMode p = RESOLUTION_MANUAL));
    [contradiction|reflexivity].
Qed.

(** X16: [updateResolution] changes nothing but the resolution: in manual
    mode the project stays as it is, in every other mode the resolution
    becomes the one computed for the mode from the workpiece bounds, and
    the dirty flag is as before. *)
Theorem updateResolution_only_resolution (p p' : Project.t) :
  Project.updateResolution p = Ok p' ->
  p' = Project.with_resolution (Project.resolution p') p
  /\ (Project.getResolutionMode p = RESOLUTION_MANUAL -> p' = p)
  /\ (Project.getResolutionMode p <> RESOLUTION_MANUAL ->
      exists bounds,
        Project.getWorkpieceBounds p = Ok bounds
        /\ Project.resolution p'
           = Project.computeResolution (Project.getResolutionMode p) bounds).
Proof.
  intros Hup. split; [apply updateResolution_shape; exact Hup|].
  revert Hup. unfold Project.updateResolution.
  destruct (decide (Project.getResolutionMode p <> RESOLUTION_MANUAL))
    as [Hm|Hm].
  - destruct (Project.getWorkpieceBounds p) as [bounds|what]; simpl;
      [|discriminate].
    intros [= <-]. split; [intros Hmanual; contradiction|].
    intros _. exists bounds. split; [reflexivity|].
    unfold Project.setResolution, Project.getResolution,
      Project.getResolutionMode in *.
    destruct (decide (_ = Project.resolution p)) as [Hx|Hx].
    + symmetry. exact Hx.
    + simpl.
      destruct (decide (Project.resolutionMode p = RESOLUTION_MANUAL));
        reflexivity.
  - intros [= <-]. split; [reflexivity|]. intros Hne. contradiction.
Qed.

(** X17: [updateAutomaticWorkpiece] never marks the project dirty and never
    switches the automatic workpiece off; file name, units, resolution
    mode, margin and tool table stay as they are. *)
Theorem updateAutomaticWorkpiece_frame (path : list Move.t)
  (p p' : Project.t) :
  Project.updateAutomaticWorkpiece path p = Ok p' ->
  Project.dirty p' = Project.dirty p
  /\ Project.getAutomaticWorkpiece p' = Project.getAutomaticWorkpiece p
  /\ Project.filename p' = Project.filename p
  /\ Project.units p' = Project.units p
  /\ Project.resolutionMode p' = Project.resolutionMode p
  /\ Project.workpieceMargin p' = Project.workpieceMargin p
  /\ Project.tools p' = Project.tools p.
Proof.
  unfold Project.updateAutomaticWorkpiece.
  destruct (Project.getAutomaticWorkpiece p) eqn:Hauto; simpl;
    [|intros [= <-]; rewrite Hauto; repeat split; reflexivity].
  rewrite (setAutomaticWorkpiece_enabled _ Hauto).
  set (q := Project.with_automaticWorkpiece _ p).
  assert (Hq : Project.getAutomaticWorkpiece q = true) by reflexivity.
  destruct (Project.collectBBoxes _ _ path) as [st|what]; simpl;
    [|discriminate].
  assert (Hkeep : Ok q = Ok p' ->
    Project.dirty p' = Project.dirty p /\ Project.getAutomaticWorkpiece p' = true
    /\ Project.filename p' = Project.filename p
    /\ Project.units p' = Project.units p
    /\ Project.resolutionMode p' = Project.resolutionMode p
    /\ Project.workpieceMargin p' = Project.workpieceMargin p
    /\ Project.tools p' = Project.tools p)
    by (intros [= <-]; repeat split; reflexivity).
  destruct (decide (Project.unionBBoxes st.2 = cb.Rectangle3D_empty));
    [exact Hkeep|].
  destruct (Rectangle3D_isReal _); [|exact Hkeep].
  clear Hkeep. unfold Project.setWorkpieceBounds.
  destruct (Project.updateResolution _) as [r|what] eqn:Hr; simpl;
    [|discriminate].
  pose proof (updateResolution_shape _ _ Hr) as Hshape.
  intros [= <-]. rewrite Hshape.
  unfold Project.getAutomaticWorkpiece. simpl. repeat split; reflexivity.
Qed.

End MoreProject.

Lemma getWorkpieceBounds_stockProject :
  Project.getWorkpieceBounds (conv := Reference.conv) stockProject
  = Ok stockBounds.
Proof.
  assert (Hmin : Vector3D_parse (StringConv := Reference.conv) "(0,0,-50)"
                 = Ok (cb.mkVector3D 0 0 (-50))) by reflexivity.
  assert (Hmax : Vector3D_parse (StringConv := Reference.conv) "(100,50,0)"
                 = Ok (cb.mkVector3D 100 50 0)) by reflexivity.
  unfold Project.getWorkpieceBounds.
  change (Project.workpieceMin stockProject) with "(0,0,-50)".
  change (Project.workpieceMax stockProject) with "(100,50,0)".
  cbn [Project.empty]. rewrite Hmin, Hmax. simpl. f_equal.
  unfold stockBounds, cb.Rectangle3D_of, cb.swapMin, cb.swapMax. simpl.
  repeat case_decide; try lra. reflexivity.
Qed.

(** In medium mode the resolution of the project with the block of stock
    becomes the one computed from its bounds; nothing else changes. *)
Lemma updateResolution_only_resolution_witness :
  exists p',
    Project.updateResolution (conv := Reference.conv) stockProject = Ok p'
    /\ p' = Project.with_resolution (Project.resolution p') stockProject
    /\ Project.resolution p'
       = Project.computeResolution RESOLUTION_MEDIUM stockBounds.
Proof.
  assert (Hrun : exists p',
    Project.updateResolution (conv := Reference.conv) stockProject = Ok p').
  { unfold Project.updateResolution.
    destruct (decide (Project.getResolutionMode stockProject
                      <> RESOLUTION_MANUAL)) as [_|Hm];
      [|exfalso; apply Hm; discriminate].
    rewrite getWorkpieceBounds_stockProject. simpl. eauto. }
  destruct Hrun as (p' & Hrun). exists p'. split; [exact Hrun|].
  destruct (updateResolution_only_resolution (conv := Reference.conv) _ _ Hrun)
    as (Hshape & _ & Hres).
  split; [exact Hshape|].
  destruct Hres as (bounds & Hbounds & Hr); [discriminate|].
  rewrite getWorkpieceBounds_stockProject in Hbounds.
  injection Hbounds as <-. exact Hr.
Defined.

Lemma updateAutomaticWorkpiece_frame_witness :
  exists p',
    Project.updateAutomaticWorkpiece (conv := Reference.conv)
      (lib := Reference.sweeps) [cuttingMove] manualProject = Ok p'
    /\ Project.dirty p' = false
    /\ Project.getAutomaticWorkpiece p' = true.
Proof.
  destruct (updateAutomaticWorkpiece_manual (conv := Reference.conv)
              (lib := Reference.sweeps) [cuttingMove] manualProject _
              eq_refl eq_refl collect_cuttingMove) as (p' & Hrun & _).
  - simpl. rewrite union_cuttingBox. apply cuttingBox_not_empty.
  - reflexivity.
  - exists p'. split; [exact Hrun|].
    destruct (updateAutomaticWorkpiece_frame (conv := Reference.conv)
                (lib := Reference.sweeps) _ _ _ Hrun) as (Hd & Ha & _).
    split; [exact Hd|exact Ha].
Defined.

(** ** The automatic workpiece covers the boxes *)

Lemma lower_le_point (cur p : R) : cb.lower cur p <= p.
Proof. unfold cb.lower. case_decide; lra. Qed.

Lemma raise_ge_point (cur p : R) : p <= cb.raise cur p.
Proof. unfold cb.raise. case_decide; lra. Qed.

Section Covering.
Context {conv : StringConv} {lib : SweepLib}.

(** [outer] reaches at least as far as [inner] on each of the six sides. *)
Local Abbreviation encloses outer inner :=
  (cb.x (cb.rmin outer) <= cb.x (cb.rmin inner)
   /\ cb.y (cb.rmin outer) <= cb.y (cb.rmin inner)
   /\ cb.z (cb.rmin outer) <= cb.z (cb.rmin inner)
   /\ cb.x (cb.rmax inner) <= cb.x (cb.rmax outer)
   /\ cb.y (cb.rmax inner) <= cb.y (cb.rmax outer)
   /\ cb.z (cb.rmax inner) <= cb.z (cb.rmax outer)).

Lemma addRect_encloses (r o : cb.Rectangle3D) :
  encloses (cb.addRect r o) r /\ encloses (cb.addRect r o) o.
Proof.
  unfold cb.addRect. simpl.
  repeat split;
    first [apply lower_le | apply raise_ge | apply lower_le_point
          | apply raise_ge_point].
Qed.

Lemma fold_addRect_encloses (bboxes : list cb.Rectangle3D)
  (acc : cb.Rectangle3D) :
  encloses (fold_left cb.addRect bboxes acc) acc
  /\ forall b, In b bboxes -> encloses (fold_left cb.addRect bboxes acc) b.
Proof.
  revert acc. induction bboxes as [|b0 rest IH]; intros acc; simpl.
  - split; [repeat split; lra|]. intros b [].
  - destruct (IH (cb.addRect acc b0)) as [Hacc Hrest].
    destruct (addRect_encloses acc b0) as [Ha Hb].
    split; [repeat split; lra|].
    intros b [<-|Hin]; [repeat split; lra|]. apply Hrest. exact Hin.
Qed.

Lemma slab_encloses (u : cb.Rectangle3D) :
  cb.x (cb.rmin (Project.slab u)) <= cb.x (cb.rmin u)
  /\ cb.y (cb.rmin (Project.slab u)) <= cb.y (cb.rmin u)
  /\ cb.z (cb.rmin (Project.slab u)) <= cb.z (cb.rmin u)
  /\ cb.x (cb.rmax u) <= cb.x (cb.rmax (Project.slab u))
  /\ cb.y (cb.rmax u) <= cb.y (cb.rmax (Project.slab u)).
Proof.
  unfold Project.slab. case_decide as Hthin;
    unfold_rect; simpl in *; repeat split; repeat case_decide; simpl in *; lra.
Qed.

Lemma addMargin_encloses (m : R) (s : cb.Rectangle3D) :
  encloses (Project.addMargin m s) s.
Proof.
  unfold Project.addMargin, cb.addPoint. simpl.
  repeat split;
    first [ eapply Rle_trans; [apply lower_le|apply lower_le]
          | eapply Rle_trans; [apply raise_ge|apply raise_ge] ].
Qed.

(** X18: whatever the margin, the workpiece that [updateAutomaticWorkpiece]
    commits reaches at least as far as every collected box in X and in Y,
    and at least as far down; only the tops of the boxes may stick out. *)
Theorem workpiece_covers_boxes (path : list Move.t) (p p' : Project.t)
  (st : Project.SweepState) (b : cb.Rectangle3D) :
  Project.getAutomaticWorkpiece p = true ->
  Project.collectBBoxes (Project.tools p) ([], []) path = Ok st ->
  Project.unionBBoxes st.2 <> cb.Rectangle3D_empty ->
  Rectangle3D_isReal (Project.slab (Project.unionBBoxes st.2)) = true ->
  Project.updateAutomaticWorkpiece path p = Ok p' ->
  In b st.2 ->
  cb.x (cb.rmin (Project.workpiece p')) <= cb.x (cb.rmin b)
  /\ cb.y (cb.rmin (Project.workpiece p')) <= cb.y (cb.rmin b)
  /\ cb.z (cb.rmin (Project.workpiece p')) <= cb.z (cb.rmin b)
  /\ cb.x (cb.rmax b) <= cb.x (cb.rmax (Project.workpiece p'))
  /\ cb.y (cb.rmax b) <= cb.y (cb.rmax (Project.workpiece p')).
Proof.
  intros Hauto Hst Hne Hreal Hup Hin.
  unfold Project.updateAutomaticWorkpiece in Hup.
  rewrite Hauto, (setAutomaticWorkpiece_enabled _ Hauto) in Hup.
  simpl in Hup. rewrite Hst in Hup. simpl in Hup.
  destruct (decide (Project.unionBBoxes st.2 = cb.Rectangle3D_empty));
    [contradiction|].
  rewrite Hreal in Hup.
  apply setWorkpieceBounds_fields in Hup. destruct Hup as (Hw & _).
  rewrite Hw.
  match goal with
  | |- context [Project.addMargin ?m ?s] =>
      pose proof (addMargin_encloses m s) as Hm
  end.
  pose proof (slab_encloses (Project.unionBBoxes st.2)) as Hs.
  destruct (fold_addRect_encloses st.2 cb.Rectangle3D_empty) as [_ Hu].
  specialize (Hu b Hin). fold (Project.unionBBoxes st.2) in Hu.
  repeat split; lra.
Qed.

End Covering.

Lemma workpiece_covers_boxes_witness :
  exists p',
    Project.updateAutomaticWorkpiece (conv := Reference.conv)
      (lib := Reference.sweeps) [cuttingMove] manualProject = Ok p'
    /\ cb.x (cb.rmin (Project.workpiece p')) <= cb.x (cb.rmin cuttingBox)
    /\ cb.x (cb.rmax cuttingBox) <= cb.x (cb.rmax (Project.workpiece p')).
Proof.
  assert (Hne : Project.unionBBoxes
                  ([None; Some (ConicSweep 1 5 5)], [cuttingBox]).2
                <> cb.Rectangle3D_empty).
  { simpl. rewrite union_cuttingBox. apply cuttingBox_not_empty. }
  destruct (updateAutomaticWorkpiece_manual (conv := Reference.conv)
              (lib := Reference.sweeps) [cuttingMove] manualProject _
              eq_refl eq_refl collect_cuttingMove Hne eq_refl)
    as (p' & Hrun & _).
  exists p'. split; [exact Hrun|].
  destruct (workpiece_covers_boxes (conv := Reference.conv)
              (lib := Reference.sweeps) [cuttingMove] manualProject p' _
              cuttingBox eq_refl collect_cuttingMove Hne eq_refl Hrun)
    as (Hx & _ & _ & Hx' & _).
  - left. reflexivity.
  - split; assumption.
Defined.

(** ** Workpiece bounds as text *)

Section BoundsText.
Context {conv : StringConv}.

(** X19: [getWorkpieceBounds] returns the bounds given to
    [setWorkpieceBounds] when the two corners are in order, their texts are
    not empty and each text parses back to its corner. *)
Theorem setWorkpieceBounds_getWorkpieceBounds (bounds : cb.Rectangle3D)
  (p p' : Project.t) :
  Project.setWorkpieceBounds bounds p = Ok p' ->
  Vector3D_toString (cb.getMin bounds) <> EmptyString ->
  Vector3D_toString (cb.getMax bounds) <> EmptyString ->
  Vector3D_parse (Vector3D_toString (cb.getMin bounds)) = Ok (cb.getMin bounds) ->
  Vector3D_parse (Vector3D_toString (cb.getMax bounds)) = Ok (cb.getMax bounds) ->
  cb.x (cb.rmin bounds) <= cb.x (cb.rmax bounds) ->
  cb.y (cb.rmin bounds) <= cb.y (cb.rmax bounds) ->
  cb.z (cb.rmin bounds) <= cb.z (cb.rmax bounds) ->
  Project.getWorkpieceBounds p' = Ok bounds.
Proof.
  intros Hset Hmin Hmax Pmin Pmax Hx Hy Hz.
  apply setWorkpieceBounds_fields in Hset as (_ & Tmin & Tmax).
  unfold Project.getWorkpieceBounds. rewrite Tmin, Tmax.
  destruct (Vector3D_toString (cb.getMin bounds)) as [|c1 t1] eqn:E1;
    [contradiction|].
  destruct (Vector3D_toString (cb.getMax bounds)) as [|c2 t2] eqn:E2;
    [contradiction|].
  simpl. rewrite Pmin. simpl. rewrite Pmax. simpl.
  destruct bounds as [[x1 y1 z1] [x2 y2 z2]]. simpl in *.
  unfold cb.Rectangle3D_of, cb.swapMin, cb.swapMax. simpl.
  repeat case_decide; try lra. reflexivity.
Qed.

End BoundsText.

Lemma reference_vector_stock :
  Reference.vectorParse (Reference.vectorToString (cb.getMin stockBounds))
  = Ok (cb.getMin stockBounds)
  /\ Reference.vectorParse (Reference.vectorToString (cb.getMax stockBounds))
     = Ok (cb.getMax stockBounds).
Proof.
  unfold Reference.vectorToString, Reference.formatDouble, stockBounds.
  simpl. rewrite !Int_part_IZR. split; reflexivity.
Qed.

Lemma setWorkpieceBounds_getWorkpieceBounds_witness :
  exists p',
    Project.setWorkpieceBounds (conv := Reference.conv) stockBounds
      manualProject = Ok p'
    /\ Project.getWorkpieceBounds (conv := Reference.conv) p' = Ok stockBounds.
Proof.
  assert (Hrun : exists p',
    Project.setWorkpieceBounds (conv := Reference.conv) stockBounds
      manualProject = Ok p') by (eexists; reflexivity).
  destruct Hrun as (p' & Hrun). exists p'. split; [exact Hrun|].
  destruct reference_vector_stock as [Pmin Pmax].
  apply (setWorkpieceBounds_getWorkpieceBounds (conv := Reference.conv)
           stockBounds manualProject p' Hrun); simpl;
    try exact Pmin; try exact Pmax; try lra;
    unfold Reference.vectorToString; rewrite append_cons; discriminate.
Defined.

(** ** The NC files of a project *)

Section Files.
Context {fs : FileSystem}.

Local Open Scope Z_scope.

Lemma getFileFrom_lookup (files : list NCFile.t) (count index : Z) :
  0 <= count <= index -> index < 2 ^ 32 ->
  ProjectFiles.getFileFrom files count index
  = match files !! Z.to_nat (index - count) with
    | Some file => Ok file
    | None => Thrown "Invalid file index"
    end.
Proof.
  revert count. induction files as [|file rest IH]; intros count Hc Hi; simpl.
  - reflexivity.
  - destruct (Z.eqb_spec count index) as [->|Hne].
    + rewrite Z.sub_diag. reflexivity.
    + rewrite wrap_small by lia. rewrite IH by lia.
      replace (Z.to_nat (index - count)) with (S (Z.to_nat (index - (count + 1))))
        by lia.
      reflexivity.
Qed.

(** X20: for an index an [unsigned] can hold, [getFile] returns the file at
    that position of the list, and throws when the list is shorter. *)
Theorem getFile_lookup (index : Z) (s : ProjectFiles.t) :
  0 <= index < 2 ^ 32 ->
  ProjectFiles.getFile index s
  = match ProjectFiles.files s !! Z.to_nat index with
    | Some file => Ok file
    | None => Thrown "Invalid file index"
    end.
Proof.
  intros Hi. unfold ProjectFiles.getFile.
  rewrite getFileFrom_lookup by lia. rewrite Z.sub_0_r. reflexivity.
Qed.

Lemma removeFrom_delete (files : list NCFile.t) (count index : Z) :
  0 <= count <= index -> index < 2 ^ 32 ->
  ProjectFiles.removeFrom files count index
  = if decide (Z.to_nat (index - count) < length files)%nat
    then Some (delete (Z.to_nat (index - count)) files)
    else None.
Proof.
  revert count. induction files as [|file rest IH]; intros count Hc Hi;
    cbn [ProjectFiles.removeFrom].
  - case_decide as Hlt; [simpl in Hlt; lia|reflexivity].
  - destruct (Z.eqb_spec count index) as [->|Hne].
    + rewrite Z.sub_diag. case_decide as Hlt; [reflexivity|simpl in Hlt; lia].
    + rewrite wrap_small by lia. rewrite IH by lia.
      replace (Z.to_nat (index - count)) with (S (Z.to_nat (index - (count + 1))))
        by lia.
      case_decide as Hrest; case_decide as Hall; simpl in Hall;
        try lia; reflexivity.
Qed.

(** X21: [removeFile] with an index inside the list removes exactly the
    file at that position and marks the project dirty; with an index past
    the end it changes nothing, and the project is not marked dirty. *)
Theorem removeFile_delete (index : Z) (s : ProjectFiles.t) :
  0 <= index < 2 ^ 32 ->
  ((Z.to_nat index < length (ProjectFiles.files s))%nat ->
   ProjectFiles.removeFile index s
   = ProjectFiles.mk (Project.markDirty (ProjectFiles.project s))
       (delete (Z.to_nat index) (ProjectFiles.files s)))
  /\ ((length (ProjectFiles.files s) <= Z.to_nat index)%nat ->
      ProjectFiles.removeFile index s = s).
Proof.
  intros Hi. unfold ProjectFiles.removeFile.
  rewrite removeFrom_delete by lia. rewrite Z.sub_0_r.
  case_decide; split; intros; try lia; reflexivity.
Qed.

Lemma findFrom_Some (files : list NCFile.t) (abs : string) (file : NCFile.t) :
  ProjectFiles.findFrom files abs = Some file ->
  In file files /\ NCFile.getAbsolutePath file = abs.
Proof.
  induction files as [|f rest IH]; simpl; [discriminate|].
  case_bool_decide as Hf.
  - intros [= <-]. auto.
  - intros Hfind. destruct (IH Hfind). auto.
Qed.

Lemma findFrom_None (files : list NCFile.t) (abs : string) :
  ProjectFiles.findFrom files abs = None
  <-> ~ In abs (NCFile.getAbsolutePath <$> files).
Proof.
  induction files as [|f rest IH]; simpl; [tauto|].
  case_bool_decide as Hf.
  - split; [discriminate|]. intros Hnot. exfalso. apply Hnot. auto.
  - rewrite IH. tauto.
Qed.

Lemma findFrom_app (files more : list NCFile.t) (abs : string) :
  ProjectFiles.findFrom (files ++ more) abs
  = match ProjectFiles.findFrom files abs with
    | Some file => Some file
    | None => ProjectFiles.findFrom more abs
    end.
Proof.
  induction files as [|f rest IH]; simpl; [reflexivity|].
  case_bool_decide; [reflexivity|exact IH].
Qed.

(** X22: [findFile] returns a file of the list whose absolute path is the
    absolute form of the name, and the null pointer exactly when no file
    of the list has that path. *)
Theorem findFile_spec (filename : string) (s : ProjectFiles.t) :
  (forall file, ProjectFiles.findFile filename s = Some file ->
     In file (ProjectFiles.files s)
     /\ NCFile.getAbsolutePath file = SystemUtilities_absolute filename)
  /\ (ProjectFiles.findFile filename s = None
      <-> ~ In (SystemUtilities_absolute filename)
               (NCFile.getAbsolutePath <$> ProjectFiles.files s)).
Proof.
  unfold ProjectFiles.findFile. split.
  - intros file. apply findFrom_Some.
  - apply findFrom_None.
Qed.

(** X23: [addFile] compares the paths of the list with the absolute form
    of the absolute form of the name: when one of them is equal it changes
    nothing, and otherwise it appends one file, whose path is the absolute
    form of the name, and marks the project dirty. *)
Theorem addFile_appends (filename : string) (s : ProjectFiles.t) :
  let abs := SystemUtilities_absolute filename in
  (In (SystemUtilities_absolute abs)
      (NCFile.getAbsolutePath <$> ProjectFiles.files s) ->
   ProjectFiles.addFile filename s = s)
  /\ (~ In (SystemUtilities_absolute abs)
           (NCFile.getAbsolutePath <$> ProjectFiles.files s) ->
      ProjectFiles.addFile filename s
      = ProjectFiles.mk (Project.markDirty (ProjectFiles.project s))
          (ProjectFiles.files s ++ [NCFile.mk abs])).
Proof.
  cbv zeta. unfold ProjectFiles.addFile, ProjectFiles.findFile.
  destruct (ProjectFiles.findFrom (ProjectFiles.files s) _) as [file|]
    eqn:Hfind.
  - split; [reflexivity|]. intros Hnot. exfalso. apply Hnot.
    destruct (findFrom_Some _ _ _ Hfind) as [Hin <-].
    apply in_map. exact Hin.
  - split; [|reflexivity]. intros Hin.
    apply findFrom_None in Hfind. contradiction.
Qed.

(** X24: when [SystemUtilities::absolute] leaves an absolute path as it
    is, [addFile] keeps the paths of the list free of duplicates, the file
    is found afterwards, and adding it a second time changes nothing. *)
Theorem addFile_no_duplicates (filename : string) (s : ProjectFiles.t) :
  SystemUtilities_absolute (SystemUtilities_absolute filename)
  = SystemUtilities_absolute filename ->
  NoDup (NCFile.getAbsolutePath <$> ProjectFiles.files s) ->
  NoDup (NCFile.getAbsolutePath
           <$> ProjectFiles.files (ProjectFiles.addFile filename s))
  /\ (exists file,
        ProjectFiles.findFile filename (ProjectFiles.addFile filename s)
        = Some file
        /\ NCFile.getAbsolutePath file = SystemUtilities_absolute filename)
  /\ ProjectFiles.addFile filename (ProjectFiles.addFile filename s)
     = ProjectFiles.addFile filename s.
Proof.
  intros Hidem Hnodup.
  assert (Hfound : exists file,
    ProjectFiles.findFile filename (ProjectFiles.addFile filename s)
    = Some file
    /\ NCFile.getAbsolutePath file = SystemUtilities_absolute filename).
  { unfold ProjectFiles.addFile, ProjectFiles.findFile. rewrite Hidem.
    destruct (ProjectFiles.findFrom (ProjectFiles.files s) _) as [file|]
      eqn:Hfind.
    - exists file. rewrite Hfind. split; [reflexivity|].
      apply (findFrom_Some _ _ _ Hfind).
    - simpl. rewrite findFrom_app, Hfind. simpl.
      rewrite bool_decide_eq_true_2 by reflexivity.
      eexists. split; reflexivity. }
  split; [|split; [exact Hfound|]].
  - unfold ProjectFiles.addFile, ProjectFiles.findFile. rewrite Hidem.
    destruct (ProjectFiles.findFrom (ProjectFiles.files s) _) eqn:Hfind;
      [exact Hnodup|].
    simpl. rewrite fmap_app. apply NoDup_app. split; [exact Hnodup|].
    split; [|apply NoDup_singleton].
    intros path Hin Hnew. apply list_elem_of_singleton in Hnew. subst path.
    apply findFrom_None in Hfind. apply Hfind.
    apply list_elem_of_In. exact Hin.
  - destruct Hfound as (file & Hfind & _).
    unfold ProjectFiles.addFile at 1. unfold ProjectFiles.findFile in *.
    rewrite Hidem, Hfind. reflexivity.
Qed.

End Files.

Lemma getFile_lookup_witness :
  ProjectFiles.getFile 1 twoFiles = Ok (NCFile.mk "/b.nc").
Proof. apply (getFile_lookup 1 twoFiles). lia. Defined.

Lemma removeFile_delete_witness :
  ProjectFiles.removeFile 0 twoFiles
  = ProjectFiles.mk (Project.markDirty project0) [NCFile.mk "/b.nc"]
  /\ ProjectFiles.removeFile 5 twoFiles = twoFiles.
Proof.
  split.
  - apply (removeFile_delete 0 twoFiles); [lia|simpl; lia].
  - apply (removeFile_delete 5 twoFiles); [lia|simpl; lia].
Defined.

Lemma twoFiles_NoDup :
  NoDup (NCFile.getAbsolutePath <$> ProjectFiles.files twoFiles).
Proof. apply (bool_decide_unpack _). vm_compute. reflexivity. Qed.

Lemma addFile_no_duplicates_witness :
  NoDup (NCFile.getAbsolutePath
           <$> ProjectFiles.files
                 (ProjectFiles.addFile (fs := Reference.fs) "c.nc" twoFiles))
  /\ ProjectFiles.addFile (fs := Reference.fs) "c.nc"
       (ProjectFiles.addFile (fs := Reference.fs) "c.nc" twoFiles)
     = ProjectFiles.addFile (fs := Reference.fs) "c.nc" twoFiles.
Proof.
  destruct (addFile_no_duplicates (fs := Reference.fs) "c.nc" twoFiles)
    as (Hnodup & _ & Hagain).
  - reflexivity.
  - exact twoFiles_NoDup.
  - split; assumption.
Defined.

(** ** The boxes collected from a tool path *)

Section Collect.
Context {lib : SweepLib}.

(** Every sweep in the cache is the sweep of the tool of its slot. *)
Local Abbreviation cached tools sweeps :=
  (forall (i : nat) (sw : Sweep),
     sweeps !! i = Some (Some sw) ->
     exists cutter,
       ToolTable_get tools (Z.of_nat i) = Ok cutter
       /\ ToolSweep_getSweep cutter = Ok sw).

(** A move that is skipped. *)
Local Abbreviation skipped move :=
  (Move.getType move = MOVE_RAPID \/ Z.lt (Move.getTool move) 0).

(** [bs] are the boxes of [move]: none when it is skipped, and otherwise
    those of the sweep of its tool between its end points. *)
Local Abbreviation boxesOf tools move bs :=
  ((skipped move -> bs = [])
   /\ (~ skipped move ->
       exists cutter sweep,
         ToolTable_get tools (Move.getTool move) = Ok cutter
         /\ ToolSweep_getSweep cutter = Ok sweep
         /\ bs = Sweep_getBBoxes sweep (Move.getStartPt move)
                   (Move.getEndPt move))).

Lemma cached_resize (tools : gmap Z Tool.t) (sweeps : list (option Sweep))
  (n : nat) :
  cached tools sweeps -> cached tools (resize n None sweeps).
Proof.
  intros Hinv i sw Hl.
  destruct (decide (i < n)%nat) as [Hn|Hn].
  - destruct (decide (i < length sweeps)%nat) as [Hi|Hi].
    + rewrite lookup_resize in Hl by lia. eauto.
    + rewrite lookup_resize_new in Hl by lia. discriminate.
  - rewrite lookup_resize_old in Hl by lia. discriminate.
Qed.

Lemma collectMove_boxes (tools : gmap Z Tool.t)
  (sweeps sweeps' : list (option Sweep)) (bboxes bboxes' : list cb.Rectangle3D)
  (move : Move.t) :
  cached tools sweeps ->
  Project.collectMove tools (sweeps, bboxes) move = Ok (sweeps', bboxes') ->
  cached tools sweeps'
  /\ exists bs, bboxes' = (bboxes ++ bs)%list /\ boxesOf tools move bs.
Proof.
  intros Hinv Hstep. unfold Project.collectMove in Hstep.
  destruct (decide (Move.getType move = MOVE_RAPID)) as [Hrapid|Hcut].
  { injection Hstep as <- <-. split; [exact Hinv|].
    exists []. rewrite app_nil_r. split; [reflexivity|].
    split; [reflexivity|]. intros Hnot. exfalso. apply Hnot. auto. }
  destruct (decide (Move.getTool move < 0)%Z) as [Hneg|Htool].
  { injection Hstep as <- <-. split; [exact Hinv|].
    exists []. rewrite app_nil_r. split; [reflexivity|].
    split; [reflexivity|]. intros Hnot. exfalso. apply Hnot. auto. }
  cbv zeta in Hstep.
  set (slot := Z.to_nat (Move.getTool move)) in *.
  assert (Hslot : Z.of_nat slot = Move.getTool move)
    by (unfold slot; lia).
  set (sweeps1 := if decide (length sweeps <= slot)%nat
                  then resize (slot + 1) None sweeps else sweeps) in *.
  assert (Hinv1 : cached tools sweeps1).
  { unfold sweeps1. destruct (decide _); [|exact Hinv].
    apply cached_resize. exact Hinv. }
  assert (Hlen1 : (slot < length sweeps1)%nat).
  { unfold sweeps1. destruct (decide _); [|lia].
    rewrite length_resize. lia. }
  assert (Hbox : forall sw : Sweep,
    ToolTable_get tools (Move.getTool move) ≫= ToolSweep_getSweep = Ok sw ->
    boxesOf tools move
      (Sweep_getBBoxes sw (Move.getStartPt move) (Move.getEndPt move))).
  { intros sw Hsw. split; [intros [Hr|Hn]; [contradiction|lia]|].
    intros _. destruct (ToolTable_get tools _) as [cutter|]; [|discriminate].
    exists cutter, sw. auto. }
  destruct (sweeps1 !! slot) as [[sw|]|] eqn:Hlook.
  - simpl in Hstep. rewrite Hlook in Hstep. injection Hstep as <- <-.
    split; [exact Hinv1|]. eexists. split; [reflexivity|].
    apply Hbox. destruct (Hinv1 _ _ Hlook) as (cutter & Hget & Hsweep).
    rewrite <- Hslot, Hget. exact Hsweep.
  - destruct (ToolTable_get tools (Move.getTool move)) as [cutter|] eqn:Hget;
      [|discriminate].
    simpl in Hstep, Hbox.
    destruct (ToolSweep_getSweep cutter) as [sweep|] eqn:Hsweep;
      [|discriminate].
    simpl in Hstep. rewrite list_lookup_insert_eq in Hstep by exact Hlen1.
    injection Hstep as <- <-. split.
    + intros i sw Hl. destruct (decide (i = slot)) as [->|Hne].
      * rewrite list_lookup_insert_eq in Hl by exact Hlen1.
        injection Hl as <-. exists cutter. rewrite Hslot. auto.
      * rewrite list_lookup_insert_ne in Hl by congruence. eauto.
    + eexists. split; [reflexivity|]. apply Hbox. reflexivity.
  - apply lookup_ge_None in Hlook. lia.
Qed.

Lemma collectBBoxes_from (tools : gmap Z Tool.t) (path : list Move.t)
  (sweeps : list (option Sweep)) (bboxes : list cb.Rectangle3D)
  (st : Project.SweepState) :
  cached tools sweeps ->
  Project.collectBBoxes tools (sweeps, bboxes) path = Ok st ->
  exists boxes,
    st.2 = (bboxes ++ concat boxes)%list
    /\ Forall2 (fun move bs => boxesOf tools move bs) path boxes.
Proof.
  revert sweeps bboxes.
  induction path as [|move rest IH]; intros sweeps bboxes Hinv Hrun;
    cbn [Project.collectBBoxes] in Hrun.
  - injection Hrun as <-. exists []. simpl. rewrite app_nil_r.
    split; [reflexivity|constructor].
  - destruct (Project.collectMove tools (sweeps, bboxes) move)
      as [[sweeps' bboxes']|] eqn:Hstep; simpl in Hrun; [|discriminate].
    destruct (collectMove_boxes _ _ _ _ _ _ Hinv Hstep)
      as (Hinv' & bs & -> & Hbs).
    destruct (IH _ _ Hinv' Hrun) as (boxes & Hst & Hall).
    exists (bs :: boxes). simpl. rewrite Hst, app_assoc.
    split; [reflexivity|]. constructor; assumption.
Qed.

(** X25: the boxes that the first loop of [updateAutomaticWorkpiece]
    collects are, move after move, those of the sweep of the move's tool
    between its end points, and none for a rapid move or a negative tool
    number: keeping the sweeps of earlier moves does not change them. *)
Theorem collectBBoxes_boxes (tools : gmap Z Tool.t) (path : list Move.t)
  (st : Project.SweepState) :
  Project.collectBBoxes tools ([], []) path = Ok st ->
  exists boxes,
    st.2 = concat boxes
    /\ Forall2 (fun move bs => boxesOf tools move bs) path boxes.
Proof.
  intros Hrun. apply (collectBBoxes_from tools path [] [] st); [|exact Hrun].
  intros i sw Hl. rewrite lookup_nil in Hl. discriminate.
Qed.

Lemma collectMove_returns (tools : gmap Z Tool.t)
  (sweeps : list (option Sweep)) (bboxes : list cb.Rectangle3D)
  (move : Move.t) :
  cached tools sweeps ->
  (skipped move
   \/ exists cutter sweep,
        ToolTable_get tools (Move.getTool move) = Ok cutter
        /\ ToolSweep_getSweep cutter = Ok sweep) ->
  exists st, Project.collectMove tools (sweeps, bboxes) move = Ok st.
Proof.
  intros Hinv Hmove. unfold Project.collectMove.
  destruct (decide (Move.getType move = MOVE_RAPID)); [eauto|].
  destruct (decide (Move.getTool move < 0)%Z); [eauto|].
  destruct Hmove as [[Hr|Hn]|(cutter & sweep & Hget & Hsweep)];
    [contradiction|lia|].
  cbv zeta.
  set (slot := Z.to_nat (Move.getTool move)).
  set (sweeps1 := if decide (length sweeps <= slot)%nat
                  then resize (slot + 1) None sweeps else sweeps).
  assert (Hlen1 : (slot < length sweeps1)%nat).
  { unfold sweeps1. destruct (decide _); [|lia].
    rewrite length_resize. lia. }
  destruct (sweeps1 !! slot) as [[sw|]|] eqn:Hlook.
  - simpl. rewrite Hlook. eauto.
  - rewrite Hget. simpl. rewrite Hsweep. simpl.
    rewrite list_lookup_insert_eq by exact Hlen1. eauto.
  - apply lookup_ge_None in Hlook. lia.
Qed.

(** X26: the first loop returns when the tool of every move that is not
    skipped is in the tool table and has a sweep. *)
Theorem collectBBoxes_returns (tools : gmap Z Tool.t) (path : list Move.t) :
  Forall (fun move =>
            skipped move
            \/ exists cutter sweep,
                 ToolTable_get tools (Move.getTool move) = Ok cutter
                 /\ ToolSweep_getSweep cutter = Ok sweep) path ->
  exists st, Project.collectBBoxes tools ([], []) path = Ok st.
Proof.
  intros Hpath.
  assert (Hgen : forall sweeps bboxes,
    cached tools sweeps ->
    exists st, Project.collectBBoxes tools (sweeps, bboxes) path = Ok st).
  { induction Hpath as [|move rest Hmove _ IH]; intros sweeps bboxes Hinv;
      cbn [Project.collectBBoxes]; [eauto|].
    destruct (collectMove_returns tools sweeps bboxes move Hinv Hmove)
      as ([sweeps' bboxes'] & Hstep).
    rewrite Hstep. simpl. apply IH.
    apply (collectMove_boxes _ _ _ _ _ _ Hinv Hstep). }
  apply Hgen. intros i sw Hl. rewrite lookup_nil in Hl. discriminate.
Qed.

End Collect.

Lemma collectBBoxes_boxes_witness :
  exists boxes,
    [cuttingBox] = concat boxes
    /\ Forall2
         (fun move bs =>
            (Move.getType move = MOVE_RAPID \/ (Move.getTool move < 0)%Z ->
             bs = [])
            /\ (~ (Move.getType move = MOVE_RAPID \/ (Move.getTool move < 0)%Z) ->
                exists cutter sweep,
                  Reference.toolTableGet (Project.tools manualProject)
                    (Move.getTool move) = Ok cutter
                  /\ Tool.getSweep cutter = Ok sweep
                  /\ bs = Reference.getBBoxes sweep (Move.getStartPt move)
                            (Move.getEndPt move)))
         [cuttingMove] boxes.
Proof.
  exact (collectBBoxes_boxes (lib := Reference.sweeps) _ _ _
           collect_cuttingMove).
Defined.

Lemma collectBBoxes_returns_witness :
  exists st,
    Project.collectBBoxes (lib := Reference.sweeps)
      (Project.tools manualProject) ([], []) [rapidMove; cuttingMove] = Ok st.
Proof.
  apply (collectBBoxes_returns (lib := Reference.sweeps)).
  constructor; [left; left; reflexivity|].
  constructor; [|constructor].
  right. exists Sample.cutter. eexists. split; reflexivity.
Defined.
